(** * Weather data pipeline: ingestion, conformance and curation

    A shallow embedding of [scripts/test_api_call.py] (bronze ingestion),
    [scripts/silver_transform.py] (conformance) and
    [scripts/gold_transform.py] (curation).

    Conventions of the embedding:
    - a Python exception is the [Raise] outcome of a computation;
    - numbers are IEEE binary64 values ([PrimFloat.float]); [nan] is the null
      of a float64 column, and the numeric dtypes of pandas are all read as
      float64;
    - a DataFrame is the list of its labelled columns, in order;
    - effects (log, clock, files) are threaded through an explicit world;
    - [datetime.now()] is a reading of a wall clock, given as a function of
      the number of earlier readings; [strftime] is its [%Y%m%d_%H%M%S]
      rendering; paths are relative to the repository root;
    - [NotModelled] marks an input whose shape or dtype lies outside the
      embedding (a section that is not a dict of arrays of scalars, a metric
      column that is not float64). *)

From Stdlib Require Import List String Ascii ZArith Bool Lia Floats.
From Stdlib Require Import DecimalString OrdersEx RelationClasses Sorted ListDec.
Import ListNotations.
Open Scope string_scope.

Set Warnings "-inexact-float,-register-all".

(** ** Exceptions and outcomes *)

Inductive exn : Type :=
| ValueError (msg : string)
| RuntimeError (msg : string)
| TypeError
| AttributeError
| KeyError
| IndexError
| RetryError
| TooManyRedirects
| JSONDecodeError
| NotModelled.

Inductive outcome (A : Type) : Type :=
| Ok (a : A)
| Raise (e : exn).

Arguments Ok {A} a.
Arguments Raise {A} e.

Definition obind {A B} (o : outcome A) (k : A -> outcome B) : outcome B :=
  match o with
  | Ok a => k a
  | Raise e => Raise e
  end.

Declare Scope outcome_scope.
Delimit Scope outcome_scope with outcome.
Notation "x <-? c ;; k" := (obind c (fun x => k))
  (at level 61, c at next level, right associativity) : outcome_scope.

(** ** JSON documents as Python objects *)

Inductive scalar : Type :=
| VNone
| VBool (b : bool)
| VNum (x : float)
| VStr (s : string).

Inductive json : Type :=
| JAtom (a : scalar)
| JArr (xs : list json)
| JObj (kvs : list (string * json)).

(** [dict] lookup; a Python dict has one entry per key. *)
Fixpoint lookup {A} (k : string) (kvs : list (string * A)) : option A :=
  match kvs with
  | [] => None
  | (k', v) :: rest => if String.eqb k k' then Some v else lookup k rest
  end.

Definition has_key {A} (k : string) (kvs : list (string * A)) : bool :=
  match lookup k kvs with Some _ => true | None => false end.

Definition nonempty {A} (l : list A) : bool :=
  match l with [] => false | _ :: _ => true end.

(** Python truth value: [None], [False], zero, and empty strings and
    containers are false. *)
Definition truthy (v : json) : bool :=
  match v with
  | JAtom VNone => false
  | JAtom (VBool b) => b
  | JAtom (VNum x) => negb (PrimFloat.eqb x 0%float)
  | JAtom (VStr s) => negb (String.eqb s "")
  | JArr xs => nonempty xs
  | JObj kvs => nonempty kvs
  end.

Fixpoint substr (k s : string) : bool :=
  String.prefix k s
  || match s with
     | EmptyString => false
     | String _ s' => substr k s'
     end.

(** [k in data] for a string [k]. *)
Definition py_in (k : string) (data : json) : outcome bool :=
  match data with
  | JObj kvs => Ok (has_key k kvs)
  | JArr xs =>
      Ok (existsb (fun x => match x with
                            | JAtom (VStr s) => String.eqb k s
                            | _ => false
                            end) xs)
  | JAtom (VStr s) => Ok (substr k s)
  | JAtom _ => Raise TypeError
  end.

(** [data.get(k, default)]; only a dict has [get]. *)
Definition py_get (data : json) (k : string) (default : json) : outcome json :=
  match data with
  | JObj kvs => Ok (match lookup k kvs with Some v => v | None => default end)
  | _ => Raise AttributeError
  end.

(** [repr] of a list of plain identifiers, as an f-string prints it. *)
Definition py_repr_list (ks : list string) : string :=
  "[" ++ String.concat ", " (map (fun k => "'" ++ k ++ "'") ks) ++ "]".

Definition string_of_Z (z : Z) : string :=
  NilZero.string_of_int (Z.to_int z).

Definition py_bool (b : bool) : string := if b then "True" else "False".

(** The part of [s] before the first occurrence of [sep]:
    [s.split(sep)[0]]. *)
Fixpoint before (sep s : string) : string :=
  if String.prefix sep s then EmptyString
  else match s with
       | EmptyString => EmptyString
       | String c s' => String c (before sep s')
       end.

Fixpoint strip_prefix (p s : string) : option string :=
  match p, s with
  | EmptyString, _ => Some s
  | String a p', String b s' => if Ascii.eqb a b then strip_prefix p' s' else None
  | String _ _, EmptyString => None
  end.

Definition ends_with (ext s : string) : bool :=
  let n := String.length s in
  let m := String.length ext in
  (m <=? n)%nat && String.eqb (String.substring (n - m) m s) ext.

(** *** File-name sanitising

    Text is held as its UTF-8 bytes.  [str.lower] turns [A] to [Z] into
    [a] to [z]; of the letters outside ASCII it turns two into text with an
    ASCII letter: U+0130 (bytes 196, 176) into [i] followed by a combining
    dot, and U+212A (bytes 226, 132, 170) into [k].  Every other byte
    outside ASCII stays outside ASCII, and the pattern removes it. *)

Definition lower (c : ascii) : ascii :=
  let n := nat_of_ascii c in
  if (65 <=? n)%nat && (n <=? 90)%nat then ascii_of_nat (n + 32) else c.

Definition safe_char (c : ascii) : bool :=
  let n := nat_of_ascii c in
  ((97 <=? n)%nat && (n <=? 122)%nat) || ((48 <=? n)%nat && (n <=? 57)%nat)
  || (n =? 95)%nat || (n =? 45)%nat.

Definition dotted_capital_i (c d : ascii) : bool :=
  (nat_of_ascii c =? 196)%nat && (nat_of_ascii d =? 176)%nat.

Definition kelvin_sign (c d e : ascii) : bool :=
  (nat_of_ascii c =? 226)%nat && (nat_of_ascii d =? 132)%nat
  && (nat_of_ascii e =? 170)%nat.

(** [re.sub(r"[^a-z0-9_\-]", "", name.lower().replace(" ", "_"))] *)
Fixpoint sanitize (s : string) : string :=
  match s with
  | EmptyString => EmptyString
  | String c rest =>
      let c' := if (nat_of_ascii c =? 32)%nat then "_"%char else lower c in
      let plain := if safe_char c' then String c' (sanitize rest) else sanitize rest in
      match rest with
      | String d rest' =>
          if dotted_capital_i c d then String "i" (sanitize rest')
          else match rest' with
               | String e rest'' =>
                   if kelvin_sign c d e then String "k" (sanitize rest'') else plain
               | EmptyString => plain
               end
      | EmptyString => plain
      end
  end.

(** ** DataFrames *)

Module Frame.

(** A column with its dtype: float64, int64, datetime64 ([None] is NaT), or
    object. *)
Inductive series : Type :=
| SFloat (xs : list float)
| SInt (ns : list Z)
| STime (ts : list (option Z))
| SObj (vs : list scalar).

Definition frame : Type := list (string * series).

Definition slen (s : series) : nat :=
  match s with
  | SFloat xs => List.length xs
  | SInt ns => List.length ns
  | STime ts => List.length ts
  | SObj vs => List.length vs
  end.

(** Length of the index. *)
Definition nrows (df : frame) : nat :=
  match df with
  | [] => O
  | (_, s) :: _ => slen s
  end.

Definition columns (df : frame) : list string := map fst df.

(** [df.empty]: one of the two axes has length zero. *)
Definition empty (df : frame) : bool :=
  match df with
  | [] => true
  | _ :: _ => (nrows df =? 0)%nat
  end.

Definition has_col (df : frame) (c : string) : bool :=
  existsb (fun p => String.eqb c (fst p)) df.

(** The columns that carry the label [c]. *)
Definition select (df : frame) (c : string) : list series :=
  map snd (filter (fun p => String.eqb c (fst p)) df).

(** [df[c]] where a single Series is needed: a missing label is a
    [KeyError]; a label carried by several columns yields a DataFrame. *)
Definition getitem (df : frame) (c : string) : outcome series :=
  match select df c with
  | [] => Raise KeyError
  | [s] => Ok s
  | _ :: _ :: _ => Raise NotModelled
  end.

(** [df[c] = s]: the columns labelled [c] are replaced where they stand; a
    new label is added as the last column. *)
Definition set_col (df : frame) (c : string) (s : series) : frame :=
  if has_col df c
  then map (fun p => if String.eqb c (fst p) then (fst p, s) else p) df
  else (df ++ [(c, s)])%list.

(** [df.rename(columns=mapping)] *)
Definition rename (mapping : list (string * string)) (df : frame) : frame :=
  map (fun p => (match lookup (fst p) mapping with
                 | Some c' => c'
                 | None => fst p
                 end, snd p)) df.

(** A scalar assigned to a column is repeated along the index. *)
Definition broadcast_obj (df : frame) (v : scalar) : series :=
  SObj (repeat v (nrows df)).

Definition broadcast_time (df : frame) (t : Z) : series :=
  STime (repeat (Some t) (nrows df)).

(** Element-wise combination of two aligned columns. *)
Fixpoint map2 {A B C} (f : A -> B -> C) (xs : list A) (ys : list B) : list C :=
  match xs, ys with
  | x :: xs', y :: ys' => f x y :: map2 f xs' ys'
  | _, _ => []
  end.

(** A float64 column read by label. *)
Definition float_col (df : frame) (c : string) : outcome (list float) :=
  match select df c with
  | [] => Raise KeyError
  | [SFloat xs] => Ok xs
  | _ => Raise NotModelled
  end.

(** Every column is as long as the index. *)
Definition wf (df : frame) : Prop :=
  Forall (fun p => slen (snd p) = nrows df) df.

End Frame.

(** ** Log, clock and files

    The files of a world are those of the data lake, by their paths from the
    repository root.  Files that a library keeps for itself outside the data
    lake are not among them: the response cache of the HTTP session, a
    database in the working directory, is read through the cache entry of
    an address. *)

Module Runtime.

Import Frame.

Inductive level : Type := INFO | WARNING.

Inductive file : Type :=
| FJson (j : json)
| FParquet (df : frame).

Record world : Type := {
  log : list (level * string);
  stdout : list string;
  ticks : nat;
  attempts : nat;
  fs : list (string * file)
}.

Definition M (A : Type) : Type := world -> outcome A * world.

Definition ret {A} (a : A) : M A := fun w => (Ok a, w).

Definition raise {A} (e : exn) : M A := fun w => (Raise e, w).

Definition bind {A B} (m : M A) (k : A -> M B) : M B :=
  fun w =>
    match m w with
    | (Ok a, w') => k a w'
    | (Raise e, w') => (Raise e, w')
    end.

Definition lift {A} (o : outcome A) : M A := fun w => (o, w).

Definition emit (l : level) (msg : string) : M unit :=
  fun w => (Ok tt, {| log := (log w ++ [(l, msg)])%list; stdout := stdout w;
                      ticks := ticks w; attempts := attempts w; fs := fs w |}).

Definition info : string -> M unit := emit INFO.
Definition warning : string -> M unit := emit WARNING.

Definition print (s : string) : M unit :=
  fun w => (Ok tt, {| log := log w; stdout := (stdout w ++ [s])%list;
                      ticks := ticks w; attempts := attempts w; fs := fs w |}).

(** [datetime.now()] *)
Definition now (wall : nat -> Z) : M Z :=
  fun w => (Ok (wall (ticks w)),
            {| log := log w; stdout := stdout w; ticks := S (ticks w);
               attempts := attempts w; fs := fs w |}).

(** Opening a path for writing replaces the file of that name, if any. *)
Fixpoint write_file {A} (path : string) (content : A) (files : list (string * A))
  : list (string * A) :=
  match files with
  | [] => [(path, content)]
  | (p, c) :: rest =>
      if String.eqb path p then (p, content) :: rest
      else (p, c) :: write_file path content rest
  end.

Definition write (path : string) (content : file) : M unit :=
  fun w => (Ok tt, {| log := log w; stdout := stdout w; ticks := ticks w;
                      attempts := attempts w;
                      fs := write_file path content (fs w) |}).

Fixpoint insert_sorted {A} (x : string * A) (l : list (string * A))
  : list (string * A) :=
  match l with
  | [] => [x]
  | y :: l' => if String.leb (fst x) (fst y) then x :: l
               else y :: insert_sorted x l'
  end.

Definition sort_by_name {A} (l : list (string * A)) : list (string * A) :=
  fold_right insert_sorted [] l.

Definition no_slash (s : string) : bool :=
  negb (substr "/" s).

(** [sorted(folder.glob("*" + ext))]: the files directly under [dir] whose
    name ends in [ext], by name. *)
Definition glob (dir ext : string) (files : list (string * file))
  : list (string * file) :=
  sort_by_name
    (flat_map (fun pf =>
                 match strip_prefix dir (fst pf) with
                 | Some name =>
                     if no_slash name && ends_with ext name
                     then [(name, snd pf)] else []
                 | None => []
                 end) files).

Definition list_dir (dir ext : string) : M (list (string * file)) :=
  fun w => (Ok (glob dir ext (fs w)), w).

Declare Scope monad_scope.
Delimit Scope monad_scope with monad.
Notation "x <- c ;; k" := (bind c (fun x => k))
  (at level 61, c at next level, right associativity) : monad_scope.
Notation "c ;; k" := (bind c (fun _ => k))
  (at level 61, right associativity) : monad_scope.

End Runtime.

(** ** The HTTP fetch client *)

Module Fetch.

Record location : Type := {
  name : string;
  lat : float;
  lon : float;
  timezone : string
}.

(** A response as the client sees it: status line, whether a [Retry-After]
    header came with it, the body parsed as JSON ([None] when the body does
    not parse), and the address its [Location] header names, if it has one.
    An address is a cache entry, if the session holds a fresh one for it, and
    the responses of its server, attempt by attempt. *)
Inductive response : Type := Build_response {
  status_code : Z;
  retry_after : bool;
  body : option json;
  moved_to : option endpoint }
with endpoint : Type := Build_endpoint {
  cached : option response;
  origin : nat -> response }.

(** [urllib3.util.retry.Retry]: the fields the script sets. *)
Record Retry : Type := {
  total : nat;
  backoff_factor : float;
  status_forcelist : list Z
}.

Definition retry_strategy : Retry :=
  {| total := 5; backoff_factor := 0.3%float;
     status_forcelist := [429; 500; 502; 503; 504]%Z |}.

Definition RETRY_AFTER_STATUS_CODES : list Z := [413; 429; 503]%Z.

Definition mem_Z (z : Z) (l : list Z) : bool := existsb (Z.eqb z) l.

(** [Retry.is_retry] for a GET, as urllib3 defines it. *)
Definition is_retry (r : Retry) (resp : response) : bool :=
  (nonempty (status_forcelist r) && mem_Z (status_code resp) (status_forcelist r))
  || (negb (Nat.eqb (total r) 0) && retry_after resp
      && mem_Z (status_code resp) RETRY_AFTER_STATUS_CODES).

(** A server is the response it gives to the n-th attempt of one request. *)
Definition server : Type := nat -> response.

(** The retry loop of [urlopen]: a response that [is_retry] accepts goes
    through [Retry.increment], which takes one off [total] and gives up once
    that falls below zero; requests then raises [RetryError].  The result
    also counts the attempts made so far, this one included. *)
Fixpoint urlopen (retries : nat) (forcelist : list Z) (srv : server) (n : nat)
  : outcome response * nat :=
  let resp := srv n in
  if is_retry {| total := retries; backoff_factor := backoff_factor retry_strategy;
                 status_forcelist := forcelist |} resp then
    match retries with
    | O => (Raise RetryError, S n)
    | S remaining => urlopen remaining forcelist srv (S n)
    end
  else (Ok resp, S n).

(** *** The pauses between attempts *)






(** [HTTPAdapter(max_retries=r).send] *)
Definition send (r : Retry) (srv : server) : outcome response * nat :=
  urlopen (total r) (status_forcelist r) srv O.

(** *** Redirects *)

Definition REDIRECT_STATI : list Z := [301; 302; 303; 307; 308]%Z.

Definition DEFAULT_REDIRECT_LIMIT : nat := 30.

(** [Session.get_redirect_target]: the address of the [Location] header of a
    response with a redirect status. *)
Definition get_redirect_target (resp : response) : option endpoint :=
  if mem_Z (status_code resp) REDIRECT_STATI then moved_to resp else None.

(** [Session.resolve_redirects], from the response [resp] of the request
    before: each address is asked through the session, so with its cache
    entry or, failing that, with the adapter and a fresh retry budget;
    [left] redirects may still be followed, and one more raises
    [TooManyRedirects].  [hit] tells whether [resp] came from the cache and
    [n] counts the HTTP attempts made so far. *)
Fixpoint resolve_redirects (left : nat) (resp : response) (hit : bool) (n : nat)
  : (outcome response * bool) * nat :=
  match get_redirect_target resp with
  | None => ((Ok resp, hit), n)
  | Some next =>
      match left with
      | O => ((Raise TooManyRedirects, false), n)
      | S left' =>
          match cached next with
          | Some resp' => resolve_redirects left' resp' true n
          | None =>
              match send retry_strategy (origin next) with
              | (Ok resp', m) => resolve_redirects left' resp' false (n + m)
              | (Raise e, m) => ((Raise e, false), n + m)
              end
          end
      end
  end.

(** [session.get]: a fresh cache entry is served without touching the
    network; a response of the network is followed through its redirects. *)
Definition session_get (ep : endpoint) : (outcome response * bool) * nat :=
  match cached ep with
  | Some resp => ((Ok resp, true), O)
  | None =>
      match send retry_strategy (origin ep) with
      | (Ok resp, n) => resolve_redirects DEFAULT_REDIRECT_LIMIT resp false n
      | (Raise e, n) => ((Raise e, false), n)
      end
  end.

Definition api_error (loc : location) (resp : response) : exn :=
  RuntimeError ("API Error for " ++ name loc ++ " — Status "
                ++ string_of_Z (status_code resp)).

(** [fetch_raw_weather]: the outcome, the lines logged, and the number of HTTP
    attempts made. *)
Definition fetch_raw_weather (loc : location) (ep : endpoint)
  : outcome json * list string * nat :=
  let log0 := ["Fetching RAW weather data for: " ++ name loc] in
  match session_get ep with
  | ((Raise e, _), n) => (Raise e, log0, n)
  | ((Ok resp, hit), n) =>
      let hit_line := "Cache Hit: " ++ py_bool hit in
      let status_line := "Status Code: " ++ string_of_Z (status_code resp) in
      let log1 := (log0 ++ [hit_line; status_line])%list in
      if negb (Z.eqb (status_code resp) 200) then (Raise (api_error loc resp), log1, n)
      else match body resp with
           | Some j => (Ok j, log1, n)
           | None => (Raise JSONDecodeError, log1, n)
           end
  end.

End Fetch.

(** ** Bronze ingestion: validation and the raw store *)

Module Ingest.

Import Runtime Fetch.
Local Open Scope monad_scope.

Section Ingestion.

Variable wall : nat -> Z.
Variable strftime : Z -> string.

Definition BRONZE_DIR : string := "data_lake/bronze/".

Definition sanitize_filename (name : string) : string := sanitize name.

(** *** The three checks *)

Definition required : list string :=
  ["latitude"; "longitude"; "timezone"; "hourly"; "daily"; "current"].

(** [[k for k in required if k not in data]] *)
Fixpoint missing_keys (ks : list string) (data : json) : outcome (list string) :=
  match ks with
  | [] => Ok []
  | k :: ks' =>
      (b <-? py_in k data;;
       rest <-? missing_keys ks' data;;
       Ok (if b then rest else k :: rest))%outcome
  end.

Definition check_top_level_keys (data : json) : outcome unit :=
  (missing <-? missing_keys required data;;
   if nonempty missing
   then Raise (ValueError ("Missing top-level keys: " ++ py_repr_list missing))
   else Ok tt)%outcome.

Definition check_section (data : json) (sec : string) : outcome unit :=
  (v <-? py_get data sec (JAtom VNone);;
   if truthy v then Ok tt
   else Raise (ValueError ("Missing or empty '" ++ sec ++ "' section.")))%outcome.

Definition check_sections (data : json) : outcome unit :=
  (_ <-? check_section data "hourly";;
   _ <-? check_section data "daily";;
   check_section data "current")%outcome.

Definition check_non_empty_arrays (data : json) : outcome unit :=
  (hourly <-? py_get data "hourly" (JObj []);;
   hourly_times <-? py_get hourly "time" (JArr []);;
   daily <-? py_get data "daily" (JObj []);;
   daily_times <-? py_get daily "time" (JArr []);;
   if negb (truthy hourly_times) then Raise (ValueError "Hourly time array is empty.")
   else if negb (truthy daily_times) then Raise (ValueError "Daily time array is empty.")
   else Ok tt)%outcome.

Definition validate_top_level_keys (data : json) : M unit :=
  lift (check_top_level_keys data);;
  info "Top-level key validation passed.".

Definition validate_sections (data : json) : M unit :=
  lift (check_sections data);;
  info "Section completeness validation passed.".

Definition validate_non_empty_arrays (data : json) : M unit :=
  lift (check_non_empty_arrays data);;
  info "Non-empty array validation passed.".

(** *** The raw store writer *)

Definition bronze_path (location_name : string) (t : Z) : string :=
  BRONZE_DIR ++ sanitize_filename location_name ++ "_raw_" ++ strftime t ++ ".json".

Definition save_raw_json (location_name : string) (raw_json : json) : M unit :=
  timestamp <- now wall;;
  let file_path := bronze_path location_name timestamp in
  write file_path (FJson raw_json);;
  info ("Saved RAW Bronze JSON: " ++ file_path).

(** *** The runner *)

(** The fetch logs its lines and counts its HTTP attempts.  It writes no file
    of the data lake; what the session stores of the response goes to its
    own cache, outside the data lake. *)
Definition fetch (loc : location) (ep : endpoint) : M json :=
  fun w =>
    let '(o, lines, n) := fetch_raw_weather loc ep in
    (o, {| log := (log w ++ map (pair INFO) lines)%list; stdout := stdout w;
           ticks := ticks w; attempts := attempts w + n; fs := fs w |}).

(** The body of the loop of [main] after the fetch. *)
Definition validate_and_save (location_name : string) (data : json) : M unit :=
  validate_top_level_keys data;;
  validate_sections data;;
  validate_non_empty_arrays data;;
  save_raw_json location_name data;;
  print (String (ascii_of_nat 10) EmptyString).

Fixpoint main (config_locations : list (location * endpoint)) : M unit :=
  match config_locations with
  | [] => ret tt
  | (loc, ep) :: rest =>
      data <- fetch loc ep;;
      validate_and_save (name loc) data;;
      main rest
  end.

End Ingestion.

End Ingest.

(** ** Conformance: raw payload to typed tables *)

Module Silver.

Import Frame Runtime.
Local Open Scope monad_scope.

(** How pandas reads the strings of a time column.  From the first cell that
    is not null, when that is a string, it guesses one format for the whole
    column: [guess_format s] is the reading of a cell under the format
    guessed from [s], a string as it is and any other value as Python
    prints it, or [None] when no format can be guessed from [s].  Without a
    format every string is parsed on its own, by [parse_alone]. *)
Record time_reader : Type := {
  guess_format : string -> option (scalar -> option Z);
  parse_alone : string -> option Z
}.

Section Conformance.

Variable wall : nat -> Z.
Variable strftime : Z -> string.

(** How pandas reads a string cell as a number, the cells of a time column
    as instants, and a number as an instant; [None] is a cell it cannot
    convert. *)
Variable parse_float : string -> option float.
Variable parse_time : time_reader.
Variable epoch_ns : float -> option Z.

Definition BRONZE_DIR : string := "data_lake/bronze/".
Definition SILVER_CURRENT : string := "data_lake/silver/current/".
Definition SILVER_HOURLY : string := "data_lake/silver/hourly/".
Definition SILVER_DAILY : string := "data_lake/silver/daily/".

Definition _sanitize_filename (name : string) : string :=
  sanitize (if String.eqb name "" then "location" else name).

(** All arrays of a section have one length. *)
Definition _validate_list_lengths (section : list (string * list scalar)) : bool :=
  match map (fun kv => List.length (snd kv)) section with
  | [] => true
  | n :: rest => forallb (Nat.eqb n) rest
  end.

Definition load_bronze_files : M (list (string * file)) :=
  list_dir BRONZE_DIR ".json".

(** *** Shapes of a section *)

Fixpoint atoms (xs : list json) : option (list scalar) :=
  match xs with
  | [] => Some []
  | JAtom a :: rest =>
      match atoms rest with Some l => Some (a :: l) | None => None end
  | _ :: _ => None
  end.

(** A flat mapping of metric to value. *)
Fixpoint as_record (kvs : list (string * json)) : outcome (list (string * scalar)) :=
  match kvs with
  | [] => Ok []
  | (k, JAtom a) :: rest => (l <-? as_record rest;; Ok ((k, a) :: l))%outcome
  | _ :: _ => Raise NotModelled
  end.

(** A mapping of metric to array of values. *)
Fixpoint as_table (kvs : list (string * json))
  : outcome (list (string * list scalar)) :=
  match kvs with
  | [] => Ok []
  | (k, JArr xs) :: rest =>
      match atoms xs with
      | Some col => (l <-? as_table rest;; Ok ((k, col) :: l))%outcome
      | None => Raise NotModelled
      end
  | _ :: _ => Raise NotModelled
  end.

Definition record_of (section : json) : outcome (list (string * scalar)) :=
  match section with
  | JObj kvs => as_record kvs
  | _ => Raise NotModelled
  end.

Definition table_of (section : json) : outcome (list (string * list scalar)) :=
  match section with
  | JObj kvs => as_table kvs
  | _ => Raise NotModelled
  end.

(** *** Building the frame *)

Definition pad (n : nat) (vs : list scalar) : list scalar :=
  (vs ++ repeat VNone (n - List.length vs))%list.

Definition longest (section : list (string * list scalar)) : nat :=
  fold_right (fun kv m => Nat.max (List.length (snd kv)) m) O section.

(** [pd.DataFrame({k: pd.Series(v) for k, v in section.items()})]: one row
    per position, a shorter array is filled up with nulls. *)
Definition frame_of (section : list (string * list scalar)) : frame :=
  map (fun kv => (fst kv, SObj (pad (longest section) (snd kv)))) section.

(** [pd.DataFrame([current])]: a single row. *)
Definition row_frame (current : list (string * scalar)) : frame :=
  map (fun kv => (fst kv, SObj [snd kv])) current.

(** *** Coercions *)

Definition to_float (a : scalar) : option float :=
  match a with
  | VNone => Some nan
  | VBool b => Some (if b then 1%float else 0%float)
  | VNum x => Some x
  | VStr s => parse_float s
  end.

(** A cell read on its own. *)
Definition to_time (a : scalar) : option Z :=
  match a with
  | VNone => None
  | VBool _ => None
  | VNum x => if PrimFloat.is_nan x then None else epoch_ns x
  | VStr s => parse_alone parse_time s
  end.

Fixpoint first_non_null (vs : list scalar) : option scalar :=
  match vs with
  | [] => None
  | VNone :: rest => first_non_null rest
  | VNum x :: rest =>
      if PrimFloat.is_nan x then first_non_null rest else Some (VNum x)
  | v :: _ => Some v
  end.

(** A cell read under the format of its column; a null stays null. *)
Definition under_format (read : scalar -> option Z) (a : scalar) : option Z :=
  match a with
  | VNone => None
  | VNum x => if PrimFloat.is_nan x then None else read a
  | VBool _ | VStr _ => read a
  end.

(** The cells of an object column read as instants: under one format when
    the first cell that is not null is a string from which a format is
    guessed, and each on its own otherwise. *)
Definition to_time_cells (vs : list scalar) : list (option Z) :=
  match first_non_null vs with
  | Some (VStr s) =>
      match guess_format parse_time s with
      | Some read => map (under_format read) vs
      | None => map to_time vs
      end
  | _ => map to_time vs
  end.

Definition float_or_nan (a : scalar) : float :=
  match to_float a with Some x => x | None => nan end.

Definition NaT_int : Z := (-9223372036854775808)%Z.

Definition quote : string := String (ascii_of_nat 34) EmptyString.

Fixpoint first_bad (vs : list scalar) (i : nat) : option exn :=
  match vs with
  | [] => None
  | v :: rest =>
      match to_float v, v with
      | None, VStr s =>
          Some (ValueError ("Unable to parse string " ++ quote ++ s ++ quote
                            ++ " at position " ++ string_of_Z (Z.of_nat i)))
      | None, _ => Some TypeError
      | Some _, _ => first_bad rest (S i)
      end
  end.

(** [pd.to_numeric(s, errors="coerce")] *)
Definition to_numeric_coerce (s : series) : series :=
  match s with
  | SObj vs => SFloat (map float_or_nan vs)
  | STime ts => SInt (map (fun t => match t with Some z => z | None => NaT_int end) ts)
  | SFloat _ | SInt _ => s
  end.

(** [pd.to_numeric(s)]: the first cell that does not convert raises. *)
Definition to_numeric_raise (s : series) : outcome series :=
  match s with
  | SObj vs =>
      match first_bad vs O with
      | Some e => Raise e
      | None => Ok (SFloat (map float_or_nan vs))
      end
  | _ => Ok (to_numeric_coerce s)
  end.

(** [pd.to_datetime(s, errors="coerce")] *)
Definition to_datetime_coerce (s : series) : series :=
  match s with
  | SObj vs => STime (to_time_cells vs)
  | SFloat xs => STime (map epoch_ns xs)
  | SInt ns => STime (map Some ns)
  | STime _ => s
  end.

(** Both conversions take [df[col]]; when the label is carried by several
    columns that is a DataFrame, which [to_numeric] rejects and
    [to_datetime] cannot assemble. *)
Definition to_numeric_item (coerce : bool) (item : list series) : outcome series :=
  match item with
  | [] => Raise KeyError
  | [s] => if coerce then Ok (to_numeric_coerce s) else to_numeric_raise s
  | _ :: _ :: _ => Raise TypeError
  end.

Definition to_datetime_item (item : list series) : outcome series :=
  match item with
  | [] => Raise KeyError
  | [s] => Ok (to_datetime_coerce s)
  | _ :: _ :: _ =>
      Raise (ValueError ("to assemble mappings requires at least that "
                         ++ "[year, month, day] be specified: "
                         ++ "[day,month,year] is missing"))
  end.

(** [if "time" in df.columns: df["time"] = pd.to_datetime(df["time"], ...)] *)
Definition convert_timestamp (df : frame) : outcome frame :=
  if has_col df "time"
  then (t <-? to_datetime_item (select df "time");; Ok (set_col df "time" t))%outcome
  else Ok df.

(** The loop of [transform_current]: a conversion that raises leaves the
    column as it is. *)
Fixpoint convert_numerics_lenient (cols : list string) (df : frame) : frame :=
  match cols with
  | [] => df
  | col :: rest =>
      if String.eqb col "time" then convert_numerics_lenient rest df
      else match to_numeric_item false (select df col) with
           | Ok s => convert_numerics_lenient rest (set_col df col s)
           | Raise _ => convert_numerics_lenient rest df
           end
  end.

(** The loop of [transform_hourly] and [transform_daily]. *)
Fixpoint convert_numerics (cols : list string) (df : frame) : outcome frame :=
  match cols with
  | [] => Ok df
  | col :: rest =>
      if negb (String.eqb col "time")
      then (s <-? to_numeric_item true (select df col);;
            convert_numerics rest (set_col df col s))%outcome
      else convert_numerics rest df
  end.

(** [df["location"] = location; df["load_timestamp"] = datetime.now()] *)
Definition add_metadata (df : frame) (location : string) : M frame :=
  let df1 := set_col df "location" (broadcast_obj df (VStr location)) in
  t <- now wall;;
  ret (set_col df1 "load_timestamp" (broadcast_time df1 t)).

(** *** The three transforms *)

Definition transform_current (data : json) (location : string) : M frame :=
  current <- lift (py_get data "current" (JObj []));;
  if negb (truthy current) then ret []
  else
    row <- lift (record_of current);;
    let df := row_frame row in
    df <- lift (convert_timestamp df);;
    let df := convert_numerics_lenient (columns df) df in
    add_metadata df location.

Definition transform_hourly (data : json) (location : string) : M frame :=
  hourly <- lift (py_get data "hourly" (JObj []));;
  if negb (truthy hourly) then ret []
  else
    section <- lift (table_of hourly);;
    (if negb (_validate_list_lengths section)
     then warning ("Hourly list lengths mismatch for " ++ location)
     else ret tt);;
    let df := frame_of section in
    df <- lift (convert_timestamp df);;
    df <- lift (convert_numerics (columns df) df);;
    add_metadata df location.

Definition daily_names : list (string * string) :=
  [("temperature_2m_max", "temp_max");
   ("temperature_2m_min", "temp_min");
   ("wind_speed_10m_max", "wind_speed_max");
   ("precipitation_sum", "precip_total")].

Definition transform_daily (data : json) (location : string) : M frame :=
  daily <- lift (py_get data "daily" (JObj []));;
  if negb (truthy daily) then ret []
  else
    section <- lift (table_of daily);;
    (if negb (_validate_list_lengths section)
     then warning ("Daily list lengths mismatch for " ++ location)
     else ret tt);;
    let df := frame_of section in
    let df := rename daily_names df in
    df <- lift (convert_timestamp df);;
    df <- lift (convert_numerics (columns df) df);;
    add_metadata df location.

(** *** Writing and the runner *)

Definition save_parquet (df : frame) (folder prefix location : string) : M unit :=
  timestamp <- now wall;;
  let safe_loc := _sanitize_filename location in
  let file_path :=
    folder ++ safe_loc ++ "_" ++ prefix ++ "_" ++ strftime timestamp ++ ".parquet" in
  write file_path (FParquet df);;
  info ("Saved Silver file → " ++ file_path).

Definition save_unless_empty (df : frame) (folder prefix location : string) : M unit :=
  if negb (empty df) then save_parquet df folder prefix location else ret tt.

Definition process_file (file_name : string) (content : file) : M unit :=
  let location := before "_raw_" file_name in
  data <- lift (match content with
                | FJson j => Ok j
                | FParquet _ => Raise JSONDecodeError
                end);;
  info ("Processing Bronze → Silver: " ++ file_name);;
  df_current <- transform_current data location;;
  save_unless_empty df_current SILVER_CURRENT "current" location;;
  df_hourly <- transform_hourly data location;;
  save_unless_empty df_hourly SILVER_HOURLY "hourly" location;;
  df_daily <- transform_daily data location;;
  save_unless_empty df_daily SILVER_DAILY "daily" location.

Fixpoint process_files (files : list (string * file)) : M unit :=
  match files with
  | [] => ret tt
  | (file_name, content) :: rest =>
      process_file file_name content;;
      process_files rest
  end.

Definition main : M unit :=
  bronze_files <- load_bronze_files;;
  if negb (nonempty bronze_files)
  then warning "No bronze files found. Nothing to process."
  else process_files bronze_files.

End Conformance.

End Silver.

(** ** Curation: summary, alerts and features *)

Module Gold.

Import Frame Runtime.
Local Open Scope monad_scope.
Local Open Scope float_scope.

Definition SILVER_DAILY : string := "data_lake/silver/daily/".
Definition GOLD_DAILY : string := "data_lake/gold/daily_summary/".
Definition GOLD_ALERTS : string := "data_lake/gold/alerts/".
Definition GOLD_FEATURES : string := "data_lake/gold/features/".

(** *** Aggregations of a float64 column; nulls are skipped *)

Definition skipna (xs : list float) : list float :=
  filter (fun x => negb (PrimFloat.is_nan x)) xs.

Definition count (xs : list float) : float :=
  PrimFloat.of_uint63 (Uint63.of_Z (Z.of_nat (List.length xs))).

(** One step of the running sum: pandas adds up a group with a running
    compensation for the rounding error of each addition, and puts the
    compensation back to zero when it is no number. *)
Definition kahan_step (acc : float * float) (val : float) : float * float :=
  let sumx := fst acc in
  let compensation := snd acc in
  let y := val - compensation in
  let t := sumx + y in
  let c := t - sumx - y in
  (t, if PrimFloat.is_nan c then 0 else c).

Definition kahan_sum (xs : list float) : float :=
  fst (fold_left kahan_step xs (0, 0)).

Definition agg_sum (xs : list float) : float :=
  kahan_sum (skipna xs).

Definition agg_mean (xs : list float) : float :=
  match skipna xs with
  | [] => nan
  | ys => kahan_sum ys / count ys
  end.

Definition agg_max (xs : list float) : float :=
  match skipna xs with
  | [] => nan
  | y :: ys => fold_left (fun a x => if a <? x then x else a) ys y
  end.

Definition agg_min (xs : list float) : float :=
  match skipna xs with
  | [] => nan
  | y :: ys => fold_left (fun a x => if x <? a then x else a) ys y
  end.

(** *** Grouping by (time, location) *)

Definition key : Type := (Z * string)%type.

Definition key_compare (a b : key) : comparison :=
  match Z.compare (fst a) (fst b) with
  | Eq => String_as_OT.compare (snd a) (snd b)
  | c => c
  end.

(** The metric cells of one row of the daily table. *)
Record metrics : Type := {
  m_temp_max : float;
  m_temp_min : float;
  m_precip_total : float;
  m_wind_speed_max : float
}.

Definition groups : Type := list (key * list metrics).

(** Groups are kept in ascending key order; a row joins its group behind the
    rows already there. *)
Fixpoint add_to_group (k : key) (r : metrics) (gs : groups) : groups :=
  match gs with
  | [] => [(k, [r])]
  | (k', rs) :: rest =>
      match key_compare k k' with
      | Lt => (k, [r]) :: gs
      | Eq => (k', (rs ++ [r])%list) :: rest
      | Gt => (k', rs) :: add_to_group k r rest
      end
  end.

(** Rows with a null key are left out. *)
Definition groupby (rows : list (option key * metrics)) : groups :=
  fold_left (fun gs row =>
               match fst row with
               | Some k => add_to_group k (snd row) gs
               | None => gs
               end) rows [].

(** The key cells of the daily table: [time] is a datetime64 column and
    [location] an object column of strings. *)
Definition time_keys (df : frame) : outcome (list (option Z)) :=
  match select df "time" with
  | [] => Raise KeyError
  | [STime ts] => Ok ts
  | _ => Raise NotModelled
  end.

Fixpoint strings (vs : list scalar) : outcome (list (option string)) :=
  match vs with
  | [] => Ok []
  | VStr s :: rest => (l <-? strings rest;; Ok (Some s :: l))%outcome
  | VNone :: rest => (l <-? strings rest;; Ok (None :: l))%outcome
  | _ :: _ => Raise NotModelled
  end.

Definition location_keys (df : frame) : outcome (list (option string)) :=
  match select df "location" with
  | [] => Raise KeyError
  | [SObj vs] => strings vs
  | _ => Raise NotModelled
  end.

Definition make_key (t : option Z) (l : option string) : option key :=
  match t, l with
  | Some z, Some s => Some (z, s)
  | _, _ => None
  end.

Definition make_metrics (tmax tmin precip wind : list float) : list metrics :=
  map2 (fun ab cd => {| m_temp_max := fst ab; m_temp_min := snd ab;
                        m_precip_total := fst cd; m_wind_speed_max := snd cd |})
       (map2 pair tmax tmin) (map2 pair precip wind).

(** *** 1. Daily summary *)

Definition weather_label (x : float) : string :=
  if 35 <? x then "hot" else if x <? 10 then "cold" else "moderate".

Definition summary_frame (gs : groups) : frame :=
  [("time", STime (map (fun g => Some (fst (fst g))) gs));
   ("location", SObj (map (fun g => VStr (snd (fst g))) gs));
   ("avg_temp", SFloat (map (fun g => agg_mean (map m_temp_max (snd g))) gs));
   ("max_temp", SFloat (map (fun g => agg_max (map m_temp_max (snd g))) gs));
   ("min_temp", SFloat (map (fun g => agg_min (map m_temp_min (snd g))) gs));
   ("total_precip", SFloat (map (fun g => agg_sum (map m_precip_total (snd g))) gs));
   ("max_wind_speed", SFloat (map (fun g => agg_max (map m_wind_speed_max (snd g))) gs))].

Section Curation.

Variable wall : nat -> Z.
Variable strftime : Z -> string.

Definition load_silver (folder : string) : M (list (string * file)) :=
  list_dir folder ".parquet".

Definition save_gold (df : frame) (folder prefix location : string) : M unit :=
  timestamp <- now wall;;
  let file_path :=
    folder ++ location ++ "_" ++ prefix ++ "_" ++ strftime timestamp ++ ".parquet" in
  write file_path (FParquet df);;
  info ("Saved Gold file → " ++ file_path).

Definition build_daily_summary (df_daily : frame) : M frame :=
  let df := df_daily in
  times <- lift (time_keys df);;
  locations <- lift (location_keys df);;
  tmax <- lift (float_col df "temp_max");;
  tmin <- lift (float_col df "temp_min");;
  precip <- lift (float_col df "precip_total");;
  wind <- lift (float_col df "wind_speed_max");;
  let rows := map2 pair (map2 make_key times locations)
                        (make_metrics tmax tmin precip wind) in
  let summary := summary_frame (groupby rows) in
  avg_temp <- lift (float_col summary "avg_temp");;
  let summary :=
    set_col summary "weather_label" (SObj (map (fun x => VStr (weather_label x)) avg_temp)) in
  t <- now wall;;
  ret (set_col summary "load_timestamp" (broadcast_time summary t)).

(** *** 2. Weather alerts *)

Definition heat_alert_flag (temp_max : float) : Z := if 35 <? temp_max then 1 else 0.
Definition storm_flag (wind_speed_max : float) : Z := if 50 <? wind_speed_max then 1 else 0.
Definition rain_alert_flag (precip_total : float) : Z := if 20 <? precip_total then 1 else 0.

Definition risk_level (storm rain : Z) : string :=
  if (storm =? 1)%Z then "high"
  else if (rain =? 1)%Z then "moderate"
  else "low".

Definition int_col (df : frame) (c : string) : outcome (list Z) :=
  match select df c with
  | [] => Raise KeyError
  | [SInt ns] => Ok ns
  | _ => Raise NotModelled
  end.

Definition build_alerts (df_daily : frame) : M frame :=
  let alerts : frame := [] in
  time <- lift (getitem df_daily "time");;
  let alerts := set_col alerts "date" time in
  location <- lift (getitem df_daily "location");;
  let alerts := set_col alerts "location" location in
  temp_max <- lift (float_col df_daily "temp_max");;
  let alerts := set_col alerts "heat_alert_flag" (SInt (map heat_alert_flag temp_max)) in
  wind_speed_max <- lift (float_col df_daily "wind_speed_max");;
  let alerts := set_col alerts "storm_flag" (SInt (map storm_flag wind_speed_max)) in
  precip_total <- lift (float_col df_daily "precip_total");;
  let alerts := set_col alerts "rain_alert_flag" (SInt (map rain_alert_flag precip_total)) in
  storm <- lift (int_col alerts "storm_flag");;
  rain <- lift (int_col alerts "rain_alert_flag");;
  let alerts :=
    set_col alerts "risk_level" (SObj (map2 (fun s r => VStr (risk_level s r)) storm rain)) in
  t <- now wall;;
  ret (set_col alerts "load_timestamp" (broadcast_time alerts t)).

(** *** 3. Features *)

Definition build_features (df_daily : frame) : M frame :=
  let df := df_daily in
  temp_max <- lift (float_col df "temp_max");;
  temp_min <- lift (float_col df "temp_min");;
  let df := set_col df "temperature_range" (SFloat (map2 PrimFloat.sub temp_max temp_min)) in
  temp_max <- lift (float_col df "temp_max");;
  precip_total <- lift (float_col df "precip_total");;
  let df :=
    set_col df "humidity_index"
      (SFloat (map2 (fun a p => a * 0.1 + p * 0.5) temp_max precip_total)) in
  temp_min <- lift (float_col df "temp_min");;
  wind_speed_max <- lift (float_col df "wind_speed_max");;
  let df :=
    set_col df "wind_chill"
      (SFloat (map2 (fun a w => a - w * 0.1) temp_min wind_speed_max)) in
  t <- now wall;;
  ret (set_col df "load_timestamp" (broadcast_time df t)).

(** *** The runner *)

(** [df_daily["location"].iloc[0]], used as text in the file name. *)
Definition first_location (df : frame) : outcome string :=
  match select df "location" with
  | [] => Raise KeyError
  | [SObj vs] =>
      match vs with
      | [] => Raise IndexError
      | VStr s :: _ => Ok s
      | _ :: _ => Raise NotModelled
      end
  | [s] => if (slen s =? 0)%nat then Raise IndexError else Raise NotModelled
  | _ :: _ :: _ => Raise NotModelled
  end.

Definition process_daily_file (file_name : string) (content : file) : M unit :=
  info ("Processing Gold for → " ++ file_name);;
  df_daily <- lift (match content with
                    | FParquet df => Ok df
                    | FJson _ => Raise NotModelled
                    end);;
  location <- lift (first_location df_daily);;
  daily_summary <- build_daily_summary df_daily;;
  alerts <- build_alerts df_daily;;
  features <- build_features df_daily;;
  save_gold daily_summary GOLD_DAILY "daily_summary" location;;
  save_gold alerts GOLD_ALERTS "alerts" location;;
  save_gold features GOLD_FEATURES "features" location.

Fixpoint process_daily_files (files : list (string * file)) : M unit :=
  match files with
  | [] => ret tt
  | (file_name, content) :: rest =>
      process_daily_file file_name content;;
      process_daily_files rest
  end.

Definition process_gold : M unit :=
  daily_files <- load_silver SILVER_DAILY;;
  if negb (nonempty daily_files)
  then warning "No Silver DAILY files found. Gold layer skipped."
  else process_daily_files daily_files.

End Curation.

End Gold.
(** * Properties *)

(** ** The fetch client *)

Module FetchFacts.

Import Fetch.

Definition forced (resp : response) : bool :=
  mem_Z (status_code resp) [429; 500; 502; 503; 504]%Z.

Definition asks_to_wait (resp : response) : bool :=
  retry_after resp && mem_Z (status_code resp) [413; 429; 503]%Z.

(** The retry settings of the script with [b] retries left. *)
Definition budget (b : nat) : Retry :=
  {| total := b; backoff_factor := backoff_factor retry_strategy;
     status_forcelist := status_forcelist retry_strategy |}.

Lemma is_retry_cases (b : nat) (resp : response) :
  is_retry (budget b) resp
  = forced resp || (negb (Nat.eqb b 0) && asks_to_wait resp).
Proof.
  unfold is_retry, budget, forced, asks_to_wait, RETRY_AFTER_STATUS_CODES. simpl.
  now rewrite andb_assoc.
Qed.




Lemma urlopen_progress (b : nat) : forall (srv : server) (n : nat),
  (n < snd (urlopen b (status_forcelist retry_strategy) srv n))%nat.
Proof.
  induction b as [|b IH]; intros srv n; cbn [urlopen].
  - destruct (is_retry _ (srv n)); cbn [snd]; lia.
  - destruct (is_retry _ (srv n)); cbn [snd].
    + specialize (IH srv (S n)). lia.
    + lia.
Qed.





(** *** Pauses *)



(** *** Redirects *)

Lemma not_redirected (resp : response) :
  mem_Z (status_code resp) REDIRECT_STATI = false -> get_redirect_target resp = None.
Proof. unfold get_redirect_target. now intros ->. Qed.

Lemma ok_not_redirected (resp : response) :
  status_code resp = 200%Z -> get_redirect_target resp = None.
Proof. intros H. apply not_redirected. now rewrite H. Qed.



Lemma resolve_redirects_none (left : nat) (resp : response) (hit : bool) (n : nat) :
  get_redirect_target resp = None ->
  resolve_redirects left resp hit n = ((Ok resp, hit), n).
Proof. intros H. destruct left; cbn [resolve_redirects]; now rewrite H. Qed.



Definition berlin : location :=
  {| name := "Berlin"; lat := 52.52; lon := 13.41; timezone := "Europe/Berlin" |}.






End FetchFacts.

(** ** The ingestion validator *)

Module IngestFacts.

Import Frame Runtime Fetch Ingest.

Section Gate.

Set Default Proof Using "Type".

Variable wall : nat -> Z.
Variable strftime : Z -> string.

(** A payload is accepted when the three checks pass. *)
Definition accepted (data : json) : Prop :=
  check_top_level_keys data = Ok tt
  /\ check_sections data = Ok tt
  /\ check_non_empty_arrays data = Ok tt.

Definition passed_top : level * string :=
  (INFO, "Top-level key validation passed.").
Definition passed_sections : level * string :=
  (INFO, "Section completeness validation passed.").
Definition passed_arrays : level * string :=
  (INFO, "Non-empty array validation passed.").
Definition saved_line (path : string) : level * string :=
  (INFO, "Saved RAW Bronze JSON: " ++ path).

(** Every JSON file of the store holds an accepted payload. *)
Definition gated (f : string * file) : Prop :=
  match snd f with
  | FJson data => accepted data
  | FParquet _ => True
  end.

Lemma missing_keys_dict (kvs : list (string * json)) (ks : list string) :
  missing_keys ks (JObj kvs) = Ok (filter (fun k => negb (has_key k kvs)) ks).
Proof.
  induction ks as [|k ks IH]; simpl; [reflexivity|].
  rewrite IH. simpl. now destruct (has_key k kvs).
Qed.

Lemma nonempty_In {A} (x : A) (l : list A) : In x l -> nonempty l = true.
Proof. destruct l; simpl; [tauto | reflexivity]. Qed.

Lemma write_file_gated (path : string) (data : json) (files : list (string * file)) :
  Forall gated files -> accepted data ->
  Forall gated (write_file path (FJson data) files).
Proof.
  intros Hfs Hc. induction Hfs as [|[p x] files Hx Hfs IH]; simpl.
  - constructor; [exact Hc | constructor].
  - destruct (String.eqb path p).
    + constructor; [exact Hc | exact Hfs].
    + constructor; [exact Hx | exact IH].
Qed.

Lemma write_file_lookup {A} (path : string) (c : A) (files : list (string * A)) :
  lookup path (write_file path c files) = Some c.
Proof.
  induction files as [|[p x] files IH]; simpl.
  - now rewrite String.eqb_refl.
  - destruct (String.eqb path p) eqn:E; simpl; rewrite E; [reflexivity | exact IH].
Qed.

(** What one turn of the loop does after the fetch, check by check. *)
Lemma validate_and_save_cases (location_name : string) (data : json) (w : world) :
  let r := validate_and_save wall strftime location_name data w in
  match check_top_level_keys data with
  | Raise e => fst r = Raise e /\ log (snd r) = log w /\ fs (snd r) = fs w
  | Ok _ =>
      match check_sections data with
      | Raise e =>
          fst r = Raise e /\ log (snd r) = (log w ++ [passed_top])%list
          /\ fs (snd r) = fs w
      | Ok _ =>
          match check_non_empty_arrays data with
          | Raise e =>
              fst r = Raise e
              /\ log (snd r) = (log w ++ [passed_top; passed_sections])%list
              /\ fs (snd r) = fs w
          | Ok _ =>
              let path := bronze_path strftime location_name (wall (ticks w)) in
              fst r = Ok tt
              /\ log (snd r)
                 = (log w ++ [passed_top; passed_sections; passed_arrays;
                              saved_line path])%list
              /\ fs (snd r) = write_file path (FJson data) (fs w)
          end
      end
  end.
Proof.
  unfold validate_and_save, validate_top_level_keys, validate_sections,
    validate_non_empty_arrays, save_raw_json, bind, lift, info, emit, now, write, print.
  destruct (check_top_level_keys data) as [[]|e1]; simpl; [|auto].
  destruct (check_sections data) as [[]|e2]; simpl; [|auto].
  destruct (check_non_empty_arrays data) as [[]|e3]; simpl.
  - repeat split. now rewrite <- !app_assoc.
  - repeat split. now rewrite <- !app_assoc.
Qed.

Lemma validate_and_save_keeps_accepted (location_name : string) (data : json) (w : world) :
  Forall gated (fs w) ->
  Forall gated (fs (snd (validate_and_save wall strftime location_name data w))).
Proof.
  intros Hw. pose proof (validate_and_save_cases location_name data w) as H.
  cbv zeta in H.
  destruct (check_top_level_keys data) as [[]|e1] eqn:E1;
    [|destruct H as (_ & _ & ->); exact Hw].
  destruct (check_sections data) as [[]|e2] eqn:E2;
    [|destruct H as (_ & _ & ->); exact Hw].
  destruct (check_non_empty_arrays data) as [[]|e3] eqn:E3;
    [|destruct H as (_ & _ & ->); exact Hw].
  destruct H as (_ & _ & ->).
  apply write_file_gated; [exact Hw|].
  repeat split; assumption.
Qed.

Lemma main_keeps_accepted (locs : list (location * endpoint)) : forall w : world,
  Forall gated (fs w) ->
  Forall gated (fs (snd (main wall strftime locs w))).
Proof.
  induction locs as [|[loc ep] locs IH]; intros w Hw; simpl; [exact Hw|].
  unfold bind at 1. unfold fetch at 1.
  destruct (fetch_raw_weather loc ep) as [[[data|e] lines] n]; simpl; [|exact Hw].
  unfold bind at 1.
  match goal with |- context [validate_and_save _ _ _ ?d ?w0] =>
    pose proof (validate_and_save_keeps_accepted (name loc) d w0 Hw) as Hk;
    destruct (validate_and_save wall strftime (name loc) d w0) as [[[]|e] w1]
  end; simpl in *; [apply IH; exact Hk | exact Hk].
Qed.

(** C1: the three checks run in the order top-level keys, sections, time
    arrays; the first one that fails raises its error and none of the later
    ones leaves its trace in the log; the payload is written to the raw store
    exactly when all three pass, and the store is untouched otherwise; a dict
    payload without the [daily] key fails in the first check with the
    missing-keys error; and the runner never lets a payload that is not
    accepted into the store. *)
Theorem validator_gates_raw_store (location_name : string) (data : json) (w : world) :
  let r := validate_and_save wall strftime location_name data w in
  let path := bronze_path strftime location_name (wall (ticks w)) in
  (forall e, check_top_level_keys data = Raise e ->
     fst r = Raise e /\ log (snd r) = log w /\ fs (snd r) = fs w)
  /\ (forall e, check_top_level_keys data = Ok tt -> check_sections data = Raise e ->
        fst r = Raise e /\ log (snd r) = (log w ++ [passed_top])%list
        /\ fs (snd r) = fs w)
  /\ (forall e, check_top_level_keys data = Ok tt -> check_sections data = Ok tt ->
        check_non_empty_arrays data = Raise e ->
        fst r = Raise e /\ log (snd r) = (log w ++ [passed_top; passed_sections])%list
        /\ fs (snd r) = fs w)
  /\ (accepted data <-> fst r = Ok tt)
  /\ (accepted data ->
        fs (snd r) = write_file path (FJson data) (fs w)
        /\ lookup path (fs (snd r)) = Some (FJson data))
  /\ (~ accepted data -> fs (snd r) = fs w)
  /\ (forall kvs, data = JObj kvs -> lookup "daily" kvs = None ->
        exists missing,
          In "daily" missing
          /\ fst r = Raise (ValueError ("Missing top-level keys: " ++ py_repr_list missing))
          /\ log (snd r) = log w /\ fs (snd r) = fs w)
  /\ (forall locs w0,
        Forall gated (fs w0) ->
        Forall gated (fs (snd (main wall strftime locs w0)))).
Proof.
  intros r path.
  pose proof (validate_and_save_cases location_name data w) as H.
  cbv zeta in H. fold r in H. fold path in H.
  repeat match goal with |- _ /\ _ => split end.
  - intros e E1. now rewrite E1 in H.
  - intros e E1 E2. now rewrite E1, E2 in H.
  - intros e E1 E2 E3. now rewrite E1, E2, E3 in H.
  - split.
    + intros (E1 & E2 & E3). rewrite E1, E2, E3 in H. apply H.
    + intros Hok. unfold accepted.
      destruct (check_top_level_keys data) as [[]|e1];
        [|destruct H as [H _]; congruence].
      destruct (check_sections data) as [[]|e2];
        [|destruct H as [H _]; congruence].
      destruct (check_non_empty_arrays data) as [[]|e3];
        [|destruct H as [H _]; congruence].
      auto.
  - intros (E1 & E2 & E3). rewrite E1, E2, E3 in H.
    destruct H as (_ & _ & ->). split; [reflexivity | apply write_file_lookup].
  - intros Hna.
    destruct (check_top_level_keys data) as [[]|e1] eqn:E1; [|apply H].
    destruct (check_sections data) as [[]|e2] eqn:E2; [|apply H].
    destruct (check_non_empty_arrays data) as [[]|e3] eqn:E3; [|apply H].
    exfalso. apply Hna. repeat split; assumption.
  - intros kvs -> Hd.
    exists (filter (fun k => negb (has_key k kvs)) required).
    assert (Hin : In "daily" (filter (fun k => negb (has_key k kvs)) required)).
    { apply filter_In. split; [simpl; tauto|]. unfold has_key. now rewrite Hd. }
    split; [exact Hin|].
    unfold check_top_level_keys in H. rewrite missing_keys_dict in H.
    cbn [obind] in H. rewrite (nonempty_In _ _ Hin) in H. exact H.
  - intros locs w0. apply main_keeps_accepted.
Qed.

End Gate.

Definition paris_no_daily : json :=
  JObj [("latitude", JAtom (VNum 48.85)); ("longitude", JAtom (VNum 2.35));
        ("timezone", JAtom (VStr "Europe/Paris"));
        ("hourly", JObj [("time", JArr [])]);
        ("current", JObj [])].

Definition world0 : world :=
  {| log := []; stdout := []; ticks := 0; attempts := 0; fs := [] |}.

Lemma validator_gates_raw_store_witness :
  fst (validate_and_save (fun _ => 0%Z) (fun _ => "19700101_000000")
         "Paris" paris_no_daily world0)
  = Raise (ValueError "Missing top-level keys: ['daily']")
  /\ log (snd (validate_and_save (fun _ => 0%Z) (fun _ => "19700101_000000")
                 "Paris" paris_no_daily world0)) = [].
Proof.
  destruct (validator_gates_raw_store (fun _ => 0%Z) (fun _ => "19700101_000000")
              "Paris" paris_no_daily world0) as (H1 & _).
  destruct (H1 (ValueError "Missing top-level keys: ['daily']") eq_refl) as (Ho & Hl & _).
  split; [exact Ho | exact Hl].
Defined.

End IngestFacts.

(** ** DataFrame operations *)

Module FrameFacts.

Import Frame.
Local Open Scope list_scope.

Lemma select_app (a b : frame) (c : string) :
  select (a ++ b) c = (select a c ++ select b c)%list.
Proof. unfold select. now rewrite filter_app, map_app. Qed.

Lemma select_absent (df : frame) (c : string) :
  ~ In c (columns df) -> select df c = [].
Proof.
  unfold select, columns. induction df as [|[c' s] df IH]; simpl; intros H; [reflexivity|].
  destruct (String.eqb_spec c c') as [->|Hne]; [tauto|]. apply IH. tauto.
Qed.

Lemma has_col_In (df : frame) (c : string) :
  has_col df c = true <-> In c (columns df).
Proof.
  unfold has_col, columns. rewrite existsb_exists, in_map_iff. split.
  - intros [p [Hin Heq]]. exists p. apply String.eqb_eq in Heq. auto.
  - intros [p [Heq Hin]]. exists p. split; [exact Hin|]. now apply String.eqb_eq.
Qed.

Lemma has_col_false (df : frame) (c : string) :
  has_col df c = false <-> ~ In c (columns df).
Proof.
  rewrite <- has_col_In. destruct (has_col df c); split; congruence.
Qed.

Lemma replace_absent (df : frame) (c : string) (s : series) :
  ~ In c (columns df) ->
  map (fun p => if String.eqb c (fst p) then (fst p, s) else p) df = df.
Proof.
  unfold columns. induction df as [|[c' s'] df IH]; simpl; intros H; [reflexivity|].
  destruct (String.eqb_spec c c') as [->|Hne]; [tauto|]. f_equal. apply IH. tauto.
Qed.

(** In a frame whose labels are distinct, a label selects its column. *)
Section Distinct.

Variables (pre suf : frame) (c : string) (s : series).
Hypothesis Hnodup : NoDup (columns (pre ++ (c, s) :: suf)).

Lemma distinct_sides : ~ In c (columns pre) /\ ~ In c (columns suf).
Proof.
  unfold columns in *. rewrite map_app in Hnodup. simpl in Hnodup.
  apply NoDup_remove_2 in Hnodup. rewrite in_app_iff in Hnodup. tauto.
Qed.

Lemma select_distinct : select (pre ++ (c, s) :: suf) c = [s].
Proof.
  destruct distinct_sides as [Hp Hs].
  rewrite select_app, (select_absent pre c Hp).
  unfold select at 1. simpl. rewrite String.eqb_refl. simpl.
  fold (select suf c). now rewrite (select_absent suf c Hs).
Qed.

Lemma set_col_distinct (s' : series) :
  set_col (pre ++ (c, s) :: suf) c s' = (pre ++ (c, s') :: suf)%list.
Proof.
  destruct distinct_sides as [Hp Hs]. unfold set_col.
  assert (Hh : has_col (pre ++ (c, s) :: suf) c = true).
  { apply has_col_In. unfold columns. rewrite map_app, in_app_iff. simpl. tauto. }
  rewrite Hh, map_app. simpl. rewrite String.eqb_refl.
  now rewrite (replace_absent pre c s' Hp), (replace_absent suf c s' Hs).
Qed.

End Distinct.

Lemma lookup_In {A} (k : string) (v : A) (kvs : list (string * A)) :
  NoDup (map fst kvs) -> In (k, v) kvs -> lookup k kvs = Some v.
Proof.
  induction kvs as [|[k' v'] kvs IH]; simpl; intros Hnd Hin; [tauto|].
  inversion Hnd as [|? ? Hni Hnd']; subst.
  destruct Hin as [Heq|Hin].
  - injection Heq as -> ->. now rewrite String.eqb_refl.
  - destruct (String.eqb_spec k k') as [->|Hne]; [|now apply IH].
    exfalso. apply Hni. apply in_map_iff. now exists (k', v).
Qed.

Lemma select_In (df : frame) (c : string) (s : series) :
  NoDup (columns df) -> In (c, s) df -> select df c = [s].
Proof.
  intros Hnd Hin. apply in_split in Hin as (pre & suf & ->).
  now apply select_distinct.
Qed.

Lemma float_col_In (df : frame) (c : string) (xs : list float) :
  NoDup (columns df) -> In (c, SFloat xs) df -> float_col df c = Ok xs.
Proof.
  intros Hnd Hin. unfold float_col. now rewrite (select_In df c _ Hnd Hin).
Qed.

(** Assigning a column leaves the index and the other labels alone. *)
Lemma columns_set_col (df : frame) (c : string) (s : series) :
  columns (set_col df c s)
  = if has_col df c then columns df else (columns df ++ [c])%list.
Proof.
  unfold set_col, columns. destruct (has_col df c).
  - rewrite map_map. apply map_ext. intros [c' s']. simpl.
    now destruct (String.eqb c c').
  - now rewrite map_app.
Qed.

Lemma select_set_col_other (df : frame) (c c' : string) (s : series) :
  c <> c' -> select (set_col df c s) c' = select df c'.
Proof.
  intros Hne. unfold set_col. destruct (has_col df c).
  - unfold select. induction df as [|[c0 s0] df IH]; simpl; [reflexivity|].
    destruct (String.eqb_spec c c0) as [->|Hne0]; simpl.
    + destruct (String.eqb_spec c' c0) as [->|_]; [congruence | exact IH].
    + destruct (String.eqb c' c0); simpl; now rewrite IH.
  - rewrite select_app. unfold select at 2. simpl.
    destruct (String.eqb_spec c' c) as [->|_]; [congruence|]. apply app_nil_r.
Qed.

(** Every column that carries the assigned label holds the assigned
    series, and there is at least one. *)
Lemma select_set_col_same (df : frame) (c : string) (s : series) :
  select (set_col df c s) c <> [] /\ Forall (eq s) (select (set_col df c s) c).
Proof.
  unfold set_col. destruct (has_col df c) eqn:Hh.
  - apply has_col_In in Hh. unfold select, columns in *.
    induction df as [|[c0 s0] df IH]; simpl in *; [tauto|].
    destruct (String.eqb_spec c c0) as [->|Hne]; simpl.
    + rewrite String.eqb_refl. simpl. split; [discriminate|].
      constructor; [reflexivity|].
      clear IH Hh. induction df as [|[c1 s1] df IH]; simpl; [constructor|].
      destruct (String.eqb_spec c0 c1) as [->|Hne]; simpl.
      * rewrite String.eqb_refl. simpl. constructor; [reflexivity | exact IH].
      * apply String.eqb_neq in Hne. rewrite Hne. exact IH.
    + apply String.eqb_neq in Hne. rewrite Hne. apply IH.
      destruct Hh as [Heq|Hin]; [|exact Hin].
      apply String.eqb_neq in Hne. congruence.
  - apply has_col_false in Hh. rewrite select_app, (select_absent df c Hh).
    unfold select. simpl. rewrite String.eqb_refl. simpl.
    split; [discriminate | constructor; [reflexivity | constructor]].
Qed.

Lemma nrows_set_col (df : frame) (c : string) (s : series) :
  slen s = nrows df -> nrows (set_col df c s) = nrows df.
Proof.
  intros Hlen. unfold set_col. destruct (has_col df c).
  - destruct df as [|[c0 s0] df]; simpl; [reflexivity|].
    destruct (String.eqb c c0); simpl; [exact Hlen | reflexivity].
  - destruct df as [|[c0 s0] df]; simpl; [exact Hlen | reflexivity].
Qed.

Lemma columns_map_snd (f : string * series -> string * series) (df : frame) :
  (forall p, fst (f p) = fst p) -> columns (map f df) = columns df.
Proof.
  intros Hf. unfold columns. rewrite map_map. apply map_ext. exact Hf.
Qed.

Lemma map_id_off (f : string * series -> string * series) (c : string) (df : frame) :
  (forall p, fst p <> c -> f p = p) -> ~ In c (columns df) -> map f df = df.
Proof.
  intros Hf. unfold columns. induction df as [|p df IH]; simpl; intros H; [reflexivity|].
  rewrite Hf by tauto. f_equal. apply IH. tauto.
Qed.

Lemma In_columns_set_col (df : frame) (c c' : string) (s : series) :
  In c' (columns (set_col df c s)) <-> In c' (columns df) \/ c' = c.
Proof.
  rewrite columns_set_col. destruct (has_col df c) eqn:Hh.
  - apply has_col_In in Hh. split; [tauto|]. intros [H| ->]; assumption.
  - rewrite in_app_iff. simpl. split.
    + intros [H|[<-|[]]]; auto.
    + intros [H| ->]; auto.
Qed.

Lemma has_col_select (df : frame) (c : string) :
  select df c <> [] -> has_col df c = true.
Proof.
  intros H. destruct (has_col df c) eqn:E; [reflexivity|].
  apply has_col_false in E. now rewrite (select_absent df c E) in H.
Qed.

(** *** Labels carried by several columns *)

Definition occurrences (c : string) (labels : list string) : nat :=
  List.length (filter (String.eqb c) labels).

Lemma select_length (df : frame) (c : string) :
  List.length (select df c) = occurrences c (columns df).
Proof.
  unfold select, occurrences, columns. rewrite length_map.
  induction df as [|[c' s] df IH]; simpl; [reflexivity|].
  destruct (String.eqb c c'); simpl; now rewrite IH.
Qed.

Lemma occurrences_app (c : string) (l1 l2 : list string) :
  occurrences c (l1 ++ l2) = (occurrences c l1 + occurrences c l2)%nat.
Proof. unfold occurrences. now rewrite filter_app, length_app. Qed.

Lemma occurrences_In (c : string) (labels : list string) :
  In c labels -> (1 <= occurrences c labels)%nat.
Proof.
  unfold occurrences. induction labels as [|c' labels IH]; simpl; [tauto|].
  intros [->|Hin].
  - rewrite String.eqb_refl. simpl. lia.
  - destruct (String.eqb c c'); simpl; [lia | now apply IH].
Qed.

Lemma occurrences_distinct (c : string) (labels : list string) :
  NoDup labels -> (occurrences c labels <= 1)%nat.
Proof.
  unfold occurrences. induction 1 as [|c' labels Hni _ IH]; simpl; [lia|].
  destruct (String.eqb_spec c c') as [->|Hne]; simpl; [|exact IH].
  assert (H0 : filter (String.eqb c') labels = []).
  { clear IH. induction labels as [|c0 labels IH]; simpl; [reflexivity|].
    destruct (String.eqb_spec c' c0) as [->|_].
    - exfalso. apply Hni. now left.
    - apply IH. intros Hin. apply Hni. now right. }
  rewrite H0. simpl. lia.
Qed.

Lemma occurrences_repeated (labels : list string) :
  ~ NoDup labels -> exists c, (2 <= occurrences c labels)%nat.
Proof.
  intros H. apply ListDec.not_NoDup in H.
  - destruct H as (c & l1 & l2 & l3 & ->). exists c.
    rewrite occurrences_app. unfold occurrences at 2. simpl.
    rewrite String.eqb_refl. simpl. fold (occurrences c (l2 ++ c :: l3)).
    rewrite occurrences_app. unfold occurrences at 3. simpl.
    rewrite String.eqb_refl. simpl. lia.
  - intros x y. destruct (string_dec x y); [now left | now right].
Qed.

Lemma occurrences_positive (c : string) (labels : list string) :
  (1 <= occurrences c labels)%nat -> In c labels.
Proof.
  unfold occurrences. induction labels as [|c' labels IH]; simpl; [lia|].
  destruct (String.eqb_spec c c') as [->|_]; [now left|]. intros H. right. now apply IH.
Qed.

Lemma columns_set_col_present (df : frame) (c : string) (s : series) :
  In c (columns df) -> columns (set_col df c s) = columns df.
Proof.
  intros H. rewrite columns_set_col. apply has_col_In in H. now rewrite H.
Qed.

End FrameFacts.

(** ** Conformance *)

Module SilverFacts.

Import Frame Runtime Silver FrameFacts.
Local Open Scope list_scope.

(** *** The metadata columns and the renamed labels *)

Definition with_metadata (df : frame) (location : string) (t : Z) : frame :=
  let df1 := set_col df "location" (broadcast_obj df (VStr location)) in
  set_col df1 "load_timestamp" (broadcast_time df1 t).

Definition tick (w : world) : world :=
  {| log := log w; stdout := stdout w; ticks := S (ticks w);
     attempts := attempts w; fs := fs w |}.

Definition new_name (k : string) : string :=
  match lookup k daily_names with
  | Some k' => k'
  | None => k
  end.

Definition renamed (section : list (string * list scalar)) : list (string * list scalar) :=
  map (fun kv => (new_name (fst kv), snd kv)) section.

Lemma new_name_fresh (k : string) : ~ In (new_name k) (map fst daily_names).
Proof.
  unfold new_name, daily_names. simpl.
  destruct (String.eqb_spec k "temperature_2m_max") as [->|H1];
    [intros [H|[H|[H|[H|[]]]]]; discriminate|].
  destruct (String.eqb_spec k "temperature_2m_min") as [->|H2];
    [intros [H|[H|[H|[H|[]]]]]; discriminate|].
  destruct (String.eqb_spec k "wind_speed_10m_max") as [->|H3];
    [intros [H|[H|[H|[H|[]]]]]; discriminate|].
  destruct (String.eqb_spec k "precipitation_sum") as [->|H4];
    [intros [H|[H|[H|[H|[]]]]]; discriminate|].
  intros [H|[H|[H|[H|[]]]]]; congruence.
Qed.

Lemma new_name_time (k : string) :
  String.eqb "time" (new_name k) = String.eqb "time" k.
Proof.
  unfold new_name, daily_names. simpl.
  destruct (String.eqb_spec k "temperature_2m_max") as [->|H1]; [reflexivity|].
  destruct (String.eqb_spec k "temperature_2m_min") as [->|H2]; [reflexivity|].
  destruct (String.eqb_spec k "wind_speed_10m_max") as [->|H3]; [reflexivity|].
  destruct (String.eqb_spec k "precipitation_sum") as [->|H4]; reflexivity.
Qed.

Lemma occurrences_time_renamed (keys : list string) :
  occurrences "time" (map new_name keys) = occurrences "time" keys.
Proof.
  unfold occurrences. induction keys as [|k keys IH]; [reflexivity|].
  cbn [map filter]. rewrite new_name_time.
  destruct (String.eqb "time" k); cbn [List.length]; now rewrite IH.
Qed.

Lemma In_columns_with_metadata (df : frame) (location : string) (t : Z) (c : string) :
  In c (columns (with_metadata df location t))
  <-> In c (columns df) \/ c = "location" \/ c = "load_timestamp".
Proof.
  unfold with_metadata. cbv zeta. rewrite !In_columns_set_col. tauto.
Qed.

Lemma float_col_with_metadata (df : frame) (location : string) (t : Z) (c : string) :
  c <> "location" -> c <> "load_timestamp" ->
  float_col (with_metadata df location t) c = float_col df c.
Proof.
  intros H1 H2. unfold float_col, with_metadata. cbv zeta.
  rewrite !select_set_col_other by congruence. reflexivity.
Qed.

(** The table has a [location] column that holds [location] in every row and
    a [load_timestamp] column that holds [t] in every row. *)
Definition stamped (location : string) (t : Z) (df : frame) : Prop :=
  has_col df "location" = true
  /\ Forall (eq (SObj (repeat (VStr location) (nrows df)))) (select df "location")
  /\ has_col df "load_timestamp" = true
  /\ Forall (eq (STime (repeat (Some t) (nrows df)))) (select df "load_timestamp").

Lemma with_metadata_stamped (df : frame) (location : string) (t : Z) :
  stamped location t (with_metadata df location t)
  /\ nrows (with_metadata df location t) = nrows df.
Proof.
  unfold with_metadata. cbv zeta.
  set (a := broadcast_obj df (VStr location)).
  set (df1 := set_col df "location" a).
  set (b := broadcast_time df1 t).
  assert (Hn1 : nrows df1 = nrows df).
  { apply nrows_set_col. unfold a, broadcast_obj. simpl. apply repeat_length. }
  assert (Hn2 : nrows (set_col df1 "load_timestamp" b) = nrows df).
  { rewrite nrows_set_col; [exact Hn1|].
    unfold b, broadcast_time. simpl. apply repeat_length. }
  split; [|exact Hn2]. unfold stamped. rewrite Hn2.
  destruct (select_set_col_same df "location" a) as [Ha1 Ha2].
  destruct (select_set_col_same df1 "load_timestamp" b) as [Hb1 Hb2].
  fold df1 in Ha1, Ha2.
  assert (Hsel : select (set_col df1 "load_timestamp" b) "location" = select df1 "location")
    by (apply select_set_col_other; discriminate).
  repeat split.
  - apply has_col_select. now rewrite Hsel.
  - rewrite Hsel. exact Ha2.
  - now apply has_col_select.
  - assert (Hb : b = STime (repeat (Some t) (nrows df)))
      by (unfold b, broadcast_time; now rewrite Hn1).
    rewrite <- Hb. exact Hb2.
Qed.

Lemma columns_with_metadata_fresh (df : frame) (location : string) (t : Z) :
  ~ In "location" (columns df) -> ~ In "load_timestamp" (columns df) ->
  columns (with_metadata df location t) = columns df ++ ["location"; "load_timestamp"].
Proof.
  intros H1 H2. unfold with_metadata. cbv zeta. rewrite !columns_set_col.
  apply has_col_false in H1. rewrite H1.
  assert (H3 : has_col (set_col df "location" (broadcast_obj df (VStr location)))
                 "load_timestamp" = false).
  { apply has_col_false. rewrite In_columns_set_col. apply has_col_false in H1.
    intros [H|H]; [tauto | discriminate]. }
  rewrite H3. now rewrite <- app_assoc.
Qed.

Definition warned (b : bool) (msg : string) (w : world) : world :=
  if b then w
  else {| log := log w ++ [(WARNING, msg)]; stdout := stdout w; ticks := ticks w;
          attempts := attempts w; fs := fs w |}.

Section Coercion.

Set Default Proof Using "Type".

Variable wall : nat -> Z.
Variable strftime : Z -> string.
Variable parse_float : string -> option float.
Variable parse_time : time_reader.
Variable epoch_ns : float -> option Z.

Local Abbreviation to_float := (to_float parse_float).
Local Abbreviation to_time := (to_time parse_time epoch_ns).
Local Abbreviation to_time_cells := (to_time_cells parse_time epoch_ns).
Local Abbreviation float_or_nan := (float_or_nan parse_float).
Local Abbreviation to_numeric_coerce := (to_numeric_coerce parse_float).
Local Abbreviation to_numeric_raise := (to_numeric_raise parse_float).
Local Abbreviation to_datetime_coerce := (to_datetime_coerce parse_time epoch_ns).

(** What the strict policy makes of a column: the [time] column becomes
    instants, every other column numbers, and a cell that does not convert
    becomes null. *)
Definition strict_col (p : string * series) : string * series :=
  if String.eqb (fst p) "time" then (fst p, to_datetime_coerce (snd p))
  else (fst p, to_numeric_coerce (snd p)).

(** What the lenient policy makes of a column: as the strict one, but a
    column with a cell that does not convert to a number is kept as it is. *)
Definition lenient_col (p : string * series) : string * series :=
  if String.eqb (fst p) "time" then (fst p, to_datetime_coerce (snd p))
  else match to_numeric_raise (snd p) with
       | Ok s => (fst p, s)
       | Raise _ => p
       end.

Lemma add_metadata_run (df : frame) (location : string) (w : world) :
  add_metadata wall df location w
  = (Ok (with_metadata df location (wall (ticks w))), tick w).
Proof. reflexivity. Qed.

Definition time_col (p : string * series) : string * series :=
  if String.eqb (fst p) "time" then (fst p, to_datetime_coerce (snd p)) else p.

Lemma convert_timestamp_distinct (df : frame) :
  NoDup (columns df) ->
  convert_timestamp parse_time epoch_ns df = Ok (map time_col df).
Proof.
  intros Hnd. unfold convert_timestamp.
  assert (Hoff : forall p : string * series, fst p <> "time" -> time_col p = p).
  { intros p Hp. unfold time_col. apply String.eqb_neq in Hp. now rewrite Hp. }
  destruct (has_col df "time") eqn:Hh.
  - apply has_col_In in Hh. unfold columns in Hh. apply in_map_iff in Hh.
    destruct Hh as [[c s] [Hc Hin]]. simpl in Hc. subst c.
    apply in_split in Hin as (pre & suf & ->).
    destruct (distinct_sides pre suf "time" s Hnd) as [Hp Hs].
    rewrite (select_distinct pre suf "time" s Hnd). simpl.
    rewrite (set_col_distinct pre suf "time" s Hnd).
    rewrite map_app. simpl.
    rewrite (map_id_off time_col "time" pre Hoff Hp).
    rewrite (map_id_off time_col "time" suf Hoff Hs). reflexivity.
  - apply has_col_false in Hh. now rewrite (map_id_off time_col "time" df Hoff Hh).
Qed.

Definition numeric_col (p : string * series) : string * series :=
  if String.eqb (fst p) "time" then p else (fst p, to_numeric_coerce (snd p)).

Lemma convert_numerics_distinct (suf : frame) : forall pre : frame,
  NoDup (columns (pre ++ suf)) ->
  convert_numerics parse_float (columns suf) (pre ++ suf)
  = Ok (pre ++ map numeric_col suf).
Proof.
  induction suf as [|[c s] suf IH]; intros pre Hnd; simpl; [reflexivity|].
  unfold numeric_col at 1. simpl.
  assert (Hnd' : forall s', NoDup (columns ((pre ++ [(c, s')]) ++ suf))).
  { intros s'. rewrite <- app_assoc. simpl. unfold columns in *.
    rewrite map_app in *. exact Hnd. }
  destruct (String.eqb c "time") eqn:Ec; simpl.
  - specialize (IH (pre ++ [(c, s)]) (Hnd' s)).
    rewrite <- app_assoc in IH. simpl in IH. rewrite IH.
    now rewrite <- app_assoc.
  - rewrite (select_distinct pre suf c s Hnd). simpl.
    rewrite (set_col_distinct pre suf c s Hnd).
    specialize (IH (pre ++ [(c, to_numeric_coerce s)]) (Hnd' _)).
    rewrite <- app_assoc in IH. simpl in IH. rewrite IH.
    now rewrite <- app_assoc.
Qed.

Lemma strict_conversion (df : frame) :
  NoDup (columns df) ->
  (df1 <-? convert_timestamp parse_time epoch_ns df;;
   convert_numerics parse_float (columns df1) df1)%outcome
  = Ok (map strict_col df).
Proof.
  intros Hnd. rewrite (convert_timestamp_distinct df Hnd). simpl.
  assert (Hc : columns (map time_col df) = columns df).
  { apply columns_map_snd. intros p. unfold time_col.
    now destruct (String.eqb (fst p) "time"). }
  pose proof (convert_numerics_distinct (map time_col df) []) as H.
  simpl in H. rewrite H by (rewrite Hc; exact Hnd).
  f_equal. rewrite map_map. apply map_ext. intros [c s].
  unfold numeric_col, time_col, strict_col. simpl.
  destruct (String.eqb c "time") eqn:E; simpl; now rewrite E.
Qed.

Definition lenient_numeric_col (p : string * series) : string * series :=
  if String.eqb (fst p) "time" then p
  else match to_numeric_raise (snd p) with
       | Ok s => (fst p, s)
       | Raise _ => p
       end.

Lemma convert_numerics_lenient_distinct (suf : frame) : forall pre : frame,
  NoDup (columns (pre ++ suf)) ->
  convert_numerics_lenient parse_float (columns suf) (pre ++ suf)
  = pre ++ map lenient_numeric_col suf.
Proof.
  induction suf as [|[c s] suf IH]; intros pre Hnd; simpl; [reflexivity|].
  unfold lenient_numeric_col at 1. simpl.
  assert (Hnd' : forall s', NoDup (columns ((pre ++ [(c, s')]) ++ suf))).
  { intros s'. rewrite <- app_assoc. simpl. unfold columns in *.
    rewrite map_app in *. exact Hnd. }
  destruct (String.eqb c "time") eqn:Ec; simpl.
  - specialize (IH (pre ++ [(c, s)]) (Hnd' s)).
    rewrite <- app_assoc in IH. simpl in IH. rewrite IH.
    now rewrite <- app_assoc.
  - rewrite (select_distinct pre suf c s Hnd). simpl.
    destruct (to_numeric_raise s) as [s'|e].
    + rewrite (set_col_distinct pre suf c s Hnd).
      specialize (IH (pre ++ [(c, s')]) (Hnd' _)).
      rewrite <- app_assoc in IH. simpl in IH. rewrite IH.
      now rewrite <- app_assoc.
    + specialize (IH (pre ++ [(c, s)]) (Hnd' s)).
      rewrite <- app_assoc in IH. simpl in IH. rewrite IH.
      now rewrite <- app_assoc.
Qed.

Lemma lenient_conversion (df : frame) :
  NoDup (columns df) ->
  (df1 <-? convert_timestamp parse_time epoch_ns df;;
   Ok (convert_numerics_lenient parse_float (columns df1) df1))%outcome
  = Ok (map lenient_col df).
Proof.
  intros Hnd. rewrite (convert_timestamp_distinct df Hnd). simpl.
  assert (Hc : columns (map time_col df) = columns df).
  { apply columns_map_snd. intros p. unfold time_col.
    now destruct (String.eqb (fst p) "time"). }
  pose proof (convert_numerics_lenient_distinct (map time_col df) []) as H.
  simpl in H. rewrite H by (rewrite Hc; exact Hnd).
  f_equal. rewrite map_map. apply map_ext. intros [c s].
  unfold lenient_numeric_col, time_col, lenient_col. simpl.
  destruct (String.eqb c "time") eqn:E; simpl; now rewrite E.
Qed.

Lemma convert_numerics_after_time (df : frame) :
  NoDup (columns df) ->
  convert_numerics parse_float (columns (map time_col df)) (map time_col df)
  = Ok (map strict_col df).
Proof.
  intros Hnd.
  pose proof (strict_conversion df Hnd) as H.
  now rewrite (convert_timestamp_distinct df Hnd) in H.
Qed.

Lemma convert_lenient_after_time (df : frame) :
  NoDup (columns df) ->
  convert_numerics_lenient parse_float (columns (map time_col df)) (map time_col df)
  = map lenient_col df.
Proof.
  intros Hnd.
  pose proof (lenient_conversion df Hnd) as H.
  rewrite (convert_timestamp_distinct df Hnd) in H. simpl in H. congruence.
Qed.

(** *** The cells of a time column *)

(** The reading of a cell in its column: under the format of the column, or
    on its own when the column has none. *)
Definition cell_reader (vs : list scalar) : scalar -> option Z :=
  match first_non_null vs with
  | Some (VStr s) =>
      match guess_format parse_time s with
      | Some read => under_format read
      | None => to_time
      end
  | _ => to_time
  end.

Lemma to_time_cells_map (vs : list scalar) :
  to_time_cells vs = map (cell_reader vs) vs.
Proof.
  unfold Silver.to_time_cells, cell_reader.
  destruct (first_non_null vs) as [[| | |s]|]; try reflexivity.
  now destruct (guess_format parse_time s).
Qed.

Lemma cell_reader_null (vs : list scalar) : cell_reader vs VNone = None.
Proof.
  unfold cell_reader.
  destruct (first_non_null vs) as [[| | |s]|]; try reflexivity.
  now destruct (guess_format parse_time s).
Qed.

Lemma to_time_cells_length (vs : list scalar) :
  List.length (to_time_cells vs) = List.length vs.
Proof. rewrite to_time_cells_map. apply length_map. Qed.

(** *** The tables, cell by cell *)

(** The cell of the current table under key [k]. *)
Definition current_cell (kv : string * scalar) : string * series :=
  if String.eqb (fst kv) "time" then (fst kv, STime (to_time_cells [snd kv]))
  else match to_float (snd kv) with
       | Some x => (fst kv, SFloat [x])
       | None => (fst kv, SObj [snd kv])
       end.

(** The column of an hourly or daily table under key [k], for an index of
    [n] rows. *)
Definition series_cells (n : nat) (kv : string * list scalar) : string * series :=
  if String.eqb (fst kv) "time" then (fst kv, STime (to_time_cells (pad n (snd kv))))
  else (fst kv, SFloat (map float_or_nan (pad n (snd kv)))).

Lemma lenient_row (row : list (string * scalar)) :
  map lenient_col (row_frame row) = map current_cell row.
Proof.
  unfold row_frame. rewrite map_map. apply map_ext. intros [k v].
  unfold lenient_col, current_cell. simpl.
  destruct (String.eqb k "time"); [reflexivity|].
  unfold Silver.float_or_nan.
  destruct (to_float v) as [x|] eqn:E; [reflexivity|].
  destruct v; reflexivity.
Qed.

Lemma strict_table (section : list (string * list scalar)) :
  map strict_col (frame_of section) = map (series_cells (longest section)) section.
Proof.
  unfold frame_of. rewrite map_map. apply map_ext. intros [k vs].
  unfold strict_col, series_cells. simpl. now destruct (String.eqb k "time").
Qed.

Lemma strict_renamed_table (section : list (string * list scalar)) :
  map strict_col (rename daily_names (frame_of section))
  = map (series_cells (longest section)) (renamed section).
Proof.
  unfold frame_of, rename, renamed. rewrite !map_map. apply map_ext. intros [k vs].
  unfold strict_col, series_cells, new_name. simpl.
  now destruct (String.eqb _ "time").
Qed.

Lemma columns_frame_of (section : list (string * list scalar)) :
  columns (frame_of section) = map fst section.
Proof. unfold columns, frame_of. rewrite map_map. now apply map_ext. Qed.

Lemma columns_row_frame (row : list (string * scalar)) :
  columns (row_frame row) = map fst row.
Proof. unfold columns, row_frame. rewrite map_map. now apply map_ext. Qed.

Lemma columns_renamed (section : list (string * list scalar)) :
  columns (rename daily_names (frame_of section)) = map fst (renamed section).
Proof.
  unfold columns, rename, frame_of, renamed. rewrite !map_map. now apply map_ext.
Qed.

(** *** The three transforms on a well-shaped payload *)

Lemma transform_current_run top sec row (location : string) (w : world) :
  lookup "current" top = Some sec -> truthy sec = true ->
  record_of sec = Ok row -> NoDup (map fst row) ->
  transform_current wall parse_float parse_time epoch_ns (JObj top) location w
  = (Ok (with_metadata (map current_cell row) location (wall (ticks w))), tick w).
Proof.
  intros Hl Ht Hr Hnd. unfold transform_current, bind, lift. simpl.
  rewrite Hl, Ht. simpl. rewrite Hr.
  assert (Hd : NoDup (columns (row_frame row))) by now rewrite columns_row_frame.
  rewrite (convert_timestamp_distinct _ Hd).
  rewrite (convert_lenient_after_time _ Hd), lenient_row.
  apply add_metadata_run.
Qed.

Lemma transform_hourly_run top sec section (location : string) (w : world) :
  lookup "hourly" top = Some sec -> truthy sec = true ->
  table_of sec = Ok section -> NoDup (map fst section) ->
  transform_hourly wall parse_float parse_time epoch_ns (JObj top) location w
  = (Ok (with_metadata (map (series_cells (longest section)) section) location
           (wall (ticks w))),
     tick (warned (_validate_list_lengths section)
                  ("Hourly list lengths mismatch for " ++ location)%string w)).
Proof.
  intros Hl Ht Hr Hnd. unfold transform_hourly, bind, lift. simpl.
  rewrite Hl, Ht. simpl. rewrite Hr.
  assert (Hd : NoDup (columns (frame_of section))) by now rewrite columns_frame_of.
  destruct (_validate_list_lengths section); simpl;
    rewrite (convert_timestamp_distinct _ Hd);
    rewrite (convert_numerics_after_time _ Hd), strict_table;
    rewrite add_metadata_run; reflexivity.
Qed.

Lemma transform_daily_run top sec section (location : string) (w : world) :
  lookup "daily" top = Some sec -> truthy sec = true ->
  table_of sec = Ok section -> NoDup (map fst (renamed section)) ->
  transform_daily wall parse_float parse_time epoch_ns (JObj top) location w
  = (Ok (with_metadata (map (series_cells (longest section)) (renamed section))
           location (wall (ticks w))),
     tick (warned (_validate_list_lengths section)
                  ("Daily list lengths mismatch for " ++ location)%string w)).
Proof.
  intros Hl Ht Hr Hnd. unfold transform_daily, bind, lift. simpl.
  rewrite Hl, Ht. simpl. rewrite Hr.
  assert (Hd : NoDup (columns (rename daily_names (frame_of section))))
    by now rewrite columns_renamed.
  destruct (_validate_list_lengths section); simpl;
    rewrite (convert_timestamp_distinct _ Hd);
    rewrite (convert_numerics_after_time _ Hd), strict_renamed_table;
    rewrite add_metadata_run; reflexivity.
Qed.

(** *** A label carried by two columns *)

Lemma convert_timestamp_labels (df : frame) :
  (occurrences "time" (columns df) <= 1)%nat ->
  exists df1, convert_timestamp parse_time epoch_ns df = Ok df1
              /\ columns df1 = columns df.
Proof.
  intros Hle. unfold convert_timestamp. destruct (has_col df "time") eqn:Hh.
  - apply has_col_In in Hh.
    pose proof (occurrences_In _ _ Hh) as Hge.
    rewrite <- select_length in Hle, Hge.
    destruct (select df "time") as [|s [|s' rest]]; simpl in Hle, Hge; try lia.
    simpl. eexists. split; [reflexivity|]. now apply columns_set_col_present.
  - eexists. split; reflexivity.
Qed.

Lemma convert_numerics_collision (cols : list string) : forall df : frame,
  incl cols (columns df) ->
  (exists c, In c cols /\ c <> "time"%string /\ (2 <= occurrences c (columns df))%nat) ->
  convert_numerics parse_float cols df = Raise TypeError.
Proof.
  induction cols as [|col rest IH]; intros df Hincl (c & Hin & Hc & Hocc); simpl.
  - destruct Hin.
  - assert (Hrest : incl rest (columns df)) by (intros x Hx; apply Hincl; now right).
    destruct (String.eqb_spec col "time") as [->|Hne]; simpl.
    + apply IH; [exact Hrest|]. exists c. repeat split; auto.
      destruct Hin as [<-|Hin]; [congruence | exact Hin].
    + assert (Hcol : In col (columns df)) by (apply Hincl; now left).
      pose proof (occurrences_In _ _ Hcol) as Hge.
      rewrite <- select_length in Hge.
      destruct (select df col) as [|s [|s' more]] eqn:Es; simpl in Hge; try lia;
        [|reflexivity].
      simpl. apply IH.
      * now rewrite columns_set_col_present.
      * exists c. rewrite columns_set_col_present by exact Hcol.
        repeat split; auto.
        destruct Hin as [<-|Hin]; [|exact Hin].
        rewrite <- select_length, Es in Hocc. simpl in Hocc. lia.
Qed.

Lemma transform_daily_collision top sec section (location : string) (w : world) :
  lookup "daily" top = Some sec -> truthy sec = true ->
  table_of sec = Ok section -> NoDup (map fst section) ->
  ~ NoDup (map fst (renamed section)) ->
  fst (transform_daily wall parse_float parse_time epoch_ns (JObj top) location w)
  = Raise TypeError.
Proof.
  intros Hl Ht Hr Hnd Hdup. unfold transform_daily, bind, lift. simpl.
  rewrite Hl, Ht. simpl. rewrite Hr.
  set (df0 := rename daily_names (frame_of section)).
  assert (Hcols : columns df0 = map new_name (map fst section)).
  { unfold df0. rewrite columns_renamed. unfold renamed. rewrite !map_map.
    now apply map_ext. }
  assert (Htime : (occurrences "time" (columns df0) <= 1)%nat).
  { rewrite Hcols, occurrences_time_renamed. now apply occurrences_distinct. }
  destruct (convert_timestamp_labels df0 Htime) as (df1 & E1 & Hc1).
  assert (Hraise : convert_numerics parse_float (columns df1) df1 = Raise TypeError).
  { apply convert_numerics_collision; [apply incl_refl|].
    assert (Hdup' : ~ NoDup (columns df0)).
    { unfold df0. now rewrite columns_renamed. }
    apply occurrences_repeated in Hdup'. destruct Hdup' as (c & Hocc).
    exists c. rewrite Hc1. repeat split; [| |exact Hocc].
    - apply occurrences_positive. lia.
    - intros ->. lia. }
  destruct (_validate_list_lengths section); simpl; rewrite E1, Hraise; reflexivity.
Qed.

(** C2: the two-tier coercion policy.  On a payload whose sections have the
    shape of the data model, with one column for each label, no transform
    raises, whatever the cells hold.  The current table keeps, under every
    key but [time], the number its value converts to, or the value itself
    when it does not convert.  The hourly and the daily table hold, under
    every key but [time], the numbers their cells convert to, with null for
    a cell that does not convert.  Under [time] all three hold one instant
    or null for each cell, read under the format of the column or, when the
    column has none, each on its own; a null cell stays null. *)
Theorem coercion_two_tier top sec (location : string) (w : world) :
  (forall row,
     lookup "current" top = Some sec -> truthy sec = true ->
     record_of sec = Ok row -> NoDup (map fst row) ->
     transform_current wall parse_float parse_time epoch_ns (JObj top) location w
     = (Ok (with_metadata (map current_cell row) location (wall (ticks w))), tick w))
  /\ (forall section,
        lookup "hourly" top = Some sec -> truthy sec = true ->
        table_of sec = Ok section -> NoDup (map fst section) ->
        fst (transform_hourly wall parse_float parse_time epoch_ns (JObj top) location w)
        = Ok (with_metadata (map (series_cells (longest section)) section)
                location (wall (ticks w))))
  /\ (forall section,
        lookup "daily" top = Some sec -> truthy sec = true ->
        table_of sec = Ok section -> NoDup (map fst (renamed section)) ->
        fst (transform_daily wall parse_float parse_time epoch_ns (JObj top) location w)
        = Ok (with_metadata (map (series_cells (longest section)) (renamed section))
                location (wall (ticks w))))
  /\ (forall k v, k <> "time" ->
        (forall x, to_float v = Some x -> current_cell (k, v) = (k, SFloat [x]))
        /\ (to_float v = None -> current_cell (k, v) = (k, SObj [v])))
  /\ (forall n k vs, k <> "time" ->
        series_cells n (k, vs) = (k, SFloat (map float_or_nan (pad n vs))))
  /\ (forall v,
        (forall x, to_float v = Some x -> float_or_nan v = x)
        /\ (to_float v = None -> float_or_nan v = nan))
  /\ (forall n v vs,
        current_cell ("time", v) = ("time", STime (to_time_cells [v]))
        /\ series_cells n ("time", vs) = ("time", STime (to_time_cells (pad n vs))))
  /\ (forall vs,
        List.length (to_time_cells vs) = List.length vs
        /\ (forall i, nth_error vs i = Some VNone ->
                      nth_error (to_time_cells vs) i = Some None)
        /\ (forall i v, nth_error vs i = Some v ->
                        nth_error (to_time_cells vs) i = Some (cell_reader vs v))).
Proof.
  split; [intros row; apply transform_current_run|].
  split.
  { intros section Hl Ht Hr Hnd.
    now rewrite (transform_hourly_run top sec section location w Hl Ht Hr Hnd). }
  split.
  { intros section Hl Ht Hr Hnd.
    now rewrite (transform_daily_run top sec section location w Hl Ht Hr Hnd). }
  split.
  { intros k v Hk. apply String.eqb_neq in Hk. unfold current_cell. cbn [fst snd].
    rewrite Hk. split; [intros x E | intros E]; now rewrite E. }
  split.
  { intros n k vs Hk. apply String.eqb_neq in Hk. unfold series_cells. cbn [fst snd].
    now rewrite Hk. }
  split.
  { intros v. unfold Silver.float_or_nan. split; [intros x E | intros E]; now rewrite E. }
  split; [intros n v vs; split; reflexivity|].
  intros vs. split; [apply to_time_cells_length|].
  assert (Hnth : forall i v, nth_error vs i = Some v ->
                   nth_error (to_time_cells vs) i = Some (cell_reader vs v)).
  { intros i v H. rewrite to_time_cells_map. now apply map_nth_error. }
  split; [|exact Hnth].
  intros i H. rewrite (Hnth i VNone H). now rewrite cell_reader_null.
Qed.

(** *** The daily rename *)

(** C3: the daily transform applies exactly the four renames, and applies
    them to the labels before the cells are converted: its table is the
    converted frame of the renamed section.  So it carries, for each source
    key of the map that the payload has, the new label holding that key's
    converted cells, ready for curation to read, and none of the four source
    labels. *)
Theorem daily_rename_precedes_coercion top sec section (location : string) (w : world) :
  lookup "daily" top = Some sec -> truthy sec = true ->
  table_of sec = Ok section -> NoDup (map fst (renamed section)) ->
  daily_names = [("temperature_2m_max", "temp_max"); ("temperature_2m_min", "temp_min");
                 ("wind_speed_10m_max", "wind_speed_max");
                 ("precipitation_sum", "precip_total")]
  /\ exists df,
       fst (transform_daily wall parse_float parse_time epoch_ns (JObj top) location w)
       = Ok df
       /\ df = with_metadata (map strict_col (rename daily_names (frame_of section)))
                 location (wall (ticks w))
       /\ (forall c, In c (columns df)
                     <-> In c (map new_name (map fst section))
                         \/ c = "location" \/ c = "load_timestamp")
       /\ (forall k k' vs, In (k, k') daily_names -> In (k, vs) section ->
             float_col df k' = Ok (map float_or_nan (pad (longest section) vs)))
       /\ (forall k, In k (map fst daily_names) -> ~ In k (columns df)).
Proof.
  intros Hl Ht Hr Hnd. split; [reflexivity|].
  eexists. split; [|split; [|split; [|split]]].
  - now rewrite (transform_daily_run top sec section location w Hl Ht Hr Hnd).
  - now rewrite strict_renamed_table.
  - intros c. rewrite In_columns_with_metadata.
    assert (Hc : columns (map (series_cells (longest section)) (renamed section))
                 = map new_name (map fst section)).
    { unfold columns, renamed. rewrite !map_map. apply map_ext. intros [k vs].
      unfold series_cells. simpl. now destruct (String.eqb _ "time"). }
    now rewrite Hc.
  - intros k k' vs Hk Hin.
    assert (Hn : new_name k = k').
    { unfold new_name. rewrite (lookup_In k k' daily_names); [reflexivity| |exact Hk].
      unfold daily_names. simpl.
      repeat (constructor; [simpl; intuition discriminate|]). constructor. }
    assert (Hk' : k' <> "time" /\ k' <> "location" /\ k' <> "load_timestamp").
    { unfold daily_names in Hk. simpl in Hk.
      destruct Hk as [H|[H|[H|[H|[]]]]]; injection H as <- <-;
        repeat split; discriminate. }
    destruct Hk' as (Ht' & Hloc & Hts).
    rewrite float_col_with_metadata by assumption.
    apply float_col_In.
    + unfold columns. rewrite map_map.
      erewrite map_ext; [exact Hnd|]. intros [k0 v0].
      unfold series_cells. simpl. now destruct (String.eqb _ "time").
    + apply in_map_iff. exists (k', vs). split.
      * unfold series_cells. simpl. apply String.eqb_neq in Ht'. now rewrite Ht'.
      * unfold renamed. apply in_map_iff. exists (k, vs). simpl. now rewrite Hn.
  - intros k Hk Hin. apply In_columns_with_metadata in Hin.
    destruct Hin as [Hin|[->| ->]].
    + unfold columns in Hin. rewrite map_map in Hin. apply in_map_iff in Hin.
      destruct Hin as [[k0 v0] [Heq Hin]]. unfold renamed in Hin.
      apply in_map_iff in Hin. destruct Hin as [[k1 v1] [Heq1 _]].
      injection Heq1 as <- <-.
      assert (Hk0 : new_name k1 = k).
      { rewrite <- Heq. unfold series_cells. simpl.
        now destruct (String.eqb _ "time"). }
      rewrite <- Hk0 in Hk. exact (new_name_fresh k1 Hk).
    + unfold daily_names in Hk. simpl in Hk. intuition discriminate.
    + unfold daily_names in Hk. simpl in Hk. intuition discriminate.
Qed.

(** *** Metadata columns and empty sections *)

(** The section that a transform reads is missing or false. *)
Definition no_section (data : json) (key : string) : Prop :=
  exists sec, py_get data key (JObj []) = Ok sec /\ truthy sec = false.

Definition some_section (data : json) (key : string) : Prop :=
  exists sec, py_get data key (JObj []) = Ok sec /\ truthy sec = true.

Definition meets_contract (key : string) (data : json) (location : string) (w : world)
           (r : outcome frame * world) : Prop :=
  forall df, fst r = Ok df ->
    (no_section data key /\ df = [] /\ snd r = w)
    \/ (some_section data key
        /\ (exists df0, df = with_metadata df0 location (wall (ticks w)))
        /\ stamped location (wall (ticks w)) df
        /\ ticks (snd r) = S (ticks w)).

Lemma stamped_result (df0 : frame) (location : string) (w w0 : world) (df : frame) :
  ticks w0 = ticks w ->
  fst (add_metadata wall df0 location w0) = Ok df ->
  (exists df0, df = with_metadata df0 location (wall (ticks w)))
  /\ stamped location (wall (ticks w)) df
  /\ ticks (snd (add_metadata wall df0 location w0)) = S (ticks w).
Proof.
  rewrite add_metadata_run. simpl. intros Ht H. injection H as <-.
  rewrite Ht. split; [now exists df0|].
  split; [apply with_metadata_stamped | reflexivity].
Qed.

Lemma transform_current_contract (data : json) (location : string) (w : world) :
  meets_contract "current" data location w
    (transform_current wall parse_float parse_time epoch_ns data location w).
Proof.
  intros df. unfold transform_current, bind, lift.
  destruct (py_get data "current" (JObj [])) as [sec|e] eqn:Eg; [|discriminate].
  destruct (truthy sec) eqn:Et; simpl.
  - destruct (record_of sec) as [row|e]; [|discriminate].
    destruct (convert_timestamp _ _ _) as [df1|e]; [|discriminate].
    intros H. right. split; [now exists sec|].
    now apply (stamped_result _ location w w df).
  - intros H. injection H as <-. left. split; [now exists sec | auto].
Qed.

Lemma transform_hourly_contract (data : json) (location : string) (w : world) :
  meets_contract "hourly" data location w
    (transform_hourly wall parse_float parse_time epoch_ns data location w).
Proof.
  intros df. unfold transform_hourly, bind, lift.
  destruct (py_get data "hourly" (JObj [])) as [sec|e] eqn:Eg; [|discriminate].
  destruct (truthy sec) eqn:Et; simpl.
  - destruct (table_of sec) as [section|e]; [|discriminate].
    destruct (_validate_list_lengths section); simpl;
      (destruct (convert_timestamp _ _ _) as [df1|e]; [|discriminate]);
      (destruct (convert_numerics _ _ _) as [df2|e]; [|discriminate]);
      intros H; right; (split; [now exists sec|]);
      now apply (stamped_result _ location w _ df).
  - intros H. injection H as <-. left. split; [now exists sec | auto].
Qed.

Lemma transform_daily_contract (data : json) (location : string) (w : world) :
  meets_contract "daily" data location w
    (transform_daily wall parse_float parse_time epoch_ns data location w).
Proof.
  intros df. unfold transform_daily, bind, lift.
  destruct (py_get data "daily" (JObj [])) as [sec|e] eqn:Eg; [|discriminate].
  destruct (truthy sec) eqn:Et; simpl.
  - destruct (table_of sec) as [section|e]; [|discriminate].
    destruct (_validate_list_lengths section); simpl;
      (destruct (convert_timestamp _ _ _) as [df1|e]; [|discriminate]);
      (destruct (convert_numerics _ _ _) as [df2|e]; [|discriminate]);
      intros H; right; (split; [now exists sec|]);
      now apply (stamped_result _ location w _ df).
  - intros H. injection H as <-. left. split; [now exists sec | auto].
Qed.

Lemma transform_without_section (data : json) (location : string) (w : world) :
  (no_section data "current" ->
   transform_current wall parse_float parse_time epoch_ns data location w = (Ok [], w))
  /\ (no_section data "hourly" ->
      transform_hourly wall parse_float parse_time epoch_ns data location w = (Ok [], w))
  /\ (no_section data "daily" ->
      transform_daily wall parse_float parse_time epoch_ns data location w = (Ok [], w)).
Proof.
  repeat split; intros (sec & Hg & Ht);
    unfold transform_current, transform_hourly, transform_daily, bind, lift;
    rewrite Hg, Ht; reflexivity.
Qed.

(** Each transform reads its own section only. *)
Lemma transform_own_section top top' (location : string) (w : world) :
  (lookup "current" top = lookup "current" top' ->
   transform_current wall parse_float parse_time epoch_ns (JObj top) location w
   = transform_current wall parse_float parse_time epoch_ns (JObj top') location w)
  /\ (lookup "hourly" top = lookup "hourly" top' ->
      transform_hourly wall parse_float parse_time epoch_ns (JObj top) location w
      = transform_hourly wall parse_float parse_time epoch_ns (JObj top') location w)
  /\ (lookup "daily" top = lookup "daily" top' ->
      transform_daily wall parse_float parse_time epoch_ns (JObj top) location w
      = transform_daily wall parse_float parse_time epoch_ns (JObj top') location w).
Proof.
  repeat split; intros H;
    unfold transform_current, transform_hourly, transform_daily, bind, lift, py_get;
    rewrite H; reflexivity.
Qed.

End Coercion.

(** *** A sample payload *)

Definition noon : nat -> Z := fun _ => 1717243200000000%Z.
Definition stamp : Z -> string := fun _ => "20240601_120000".
Definition no_number : string -> option float := fun _ => None.
Definition no_epoch : float -> option Z := fun _ => None.
(** A reader that knows one day: from it it guesses the format of a date,
    under which, as on its own, only that day reads as an instant. *)
Definition first_of_june (s : string) : option Z :=
  if String.eqb s "2024-06-01" then Some 1717200000000000000%Z else None.

Definition june_first : time_reader :=
  {| guess_format := fun s =>
       match first_of_june s with
       | Some _ => Some (fun v => match v with
                                  | VStr t => first_of_june t
                                  | _ => None
                                  end)
       | None => None
       end;
     parse_alone := first_of_june |}.

(** A reader that reads nothing. *)
Definition unread : time_reader :=
  {| guess_format := fun _ => None; parse_alone := fun _ => None |}.

Definition hourly_sample : list (string * list scalar) :=
  [("time", [VStr "2024-06-01"; VStr "yesterday"]);
   ("temperature_2m", [VNum 20.5; VStr "n/a"])].

Definition daily_sample : list (string * list scalar) :=
  [("time", [VStr "2024-06-01"]);
   ("temperature_2m_max", [VNum 30]);
   ("temperature_2m_min", [VNum 20]);
   ("wind_speed_10m_max", [VNum 10]);
   ("precipitation_sum", [VNum 5])].

Definition arrays (section : list (string * list scalar)) : json :=
  JObj (map (fun kv => (fst kv, JArr (map JAtom (snd kv)))) section).

Definition sample : list (string * json) :=
  [("latitude", JAtom (VNum 52.52)); ("longitude", JAtom (VNum 13.41));
   ("timezone", JAtom (VStr "Europe/Berlin"));
   ("current", JObj [("time", JAtom (VStr "2024-06-01"));
                     ("temperature_2m", JAtom (VNum 21.5));
                     ("sky", JAtom (VStr "clear"))]);
   ("hourly", arrays hourly_sample);
   ("daily", arrays daily_sample)].

(** The sample with the hourly section emptied. *)
Definition sample_without_hourly : list (string * json) :=
  [("latitude", JAtom (VNum 52.52)); ("longitude", JAtom (VNum 13.41));
   ("timezone", JAtom (VStr "Europe/Berlin"));
   ("current", JObj [("time", JAtom (VStr "2024-06-01"));
                     ("temperature_2m", JAtom (VNum 21.5));
                     ("sky", JAtom (VStr "clear"))]);
   ("hourly", JObj []);
   ("daily", arrays daily_sample)].

Definition start : world :=
  {| log := []; stdout := []; ticks := 0; attempts := 0; fs := [] |}.

Ltac distinct_labels :=
  repeat (constructor; [simpl; intuition discriminate|]); constructor.

Lemma coercion_two_tier_witness :
  fst (transform_hourly noon no_number june_first no_epoch (JObj sample) "berlin" start)
  = Ok [("time", STime [Some 1717200000000000000%Z; None]);
        ("temperature_2m", SFloat [20.5%float; nan]);
        ("location", SObj [VStr "berlin"; VStr "berlin"]);
        ("load_timestamp", STime [Some 1717243200000000%Z; Some 1717243200000000%Z])].
Proof.
  destruct (coercion_two_tier noon no_number june_first no_epoch
              sample (arrays hourly_sample) "berlin" start) as (_ & H & _).
  rewrite (H hourly_sample); [reflexivity|reflexivity|reflexivity|reflexivity|].
  distinct_labels.
Defined.

Lemma daily_rename_precedes_coercion_witness :
  exists df,
    fst (transform_daily noon no_number june_first no_epoch (JObj sample) "berlin" start)
    = Ok df
    /\ float_col df "temp_max" = Ok [30%float]
    /\ ~ In "temperature_2m_max" (columns df).
Proof.
  destruct (daily_rename_precedes_coercion noon no_number june_first no_epoch
              sample (arrays daily_sample) daily_sample "berlin" start)
    as (_ & df & Hrun & _ & _ & Hval & Hold);
    [reflexivity | reflexivity | reflexivity | distinct_labels |].
  exists df. split; [exact Hrun|]. split.
  - rewrite (Hval "temperature_2m_max" "temp_max" [VNum 30]);
      [reflexivity | simpl; tauto | simpl; tauto].
  - apply Hold. simpl. tauto.
Defined.

(** The empty-section scenario end to end: the raw file of the sample
    without hourly data yields a current and a daily artifact and no hourly
    one. *)
Example process_file_without_hourly :
  map fst (fs (snd (process_file noon stamp no_number june_first no_epoch
                      "berlin_raw_20240601_115900.json"
                      (FJson (JObj sample_without_hourly)) start)))
  = ["data_lake/silver/current/berlin_current_20240601_120000.parquet";
     "data_lake/silver/daily/berlin_daily_20240601_120000.parquet"].
Proof. reflexivity. Qed.

End SilverFacts.

(** ** Curation *)

Module GoldFacts.

Import Frame Runtime Gold FrameFacts.
Local Open Scope list_scope.

(** *** The order on group keys *)

Definition key_lt (a b : key) : Prop := key_compare a b = Lt.

Lemma string_compare_refl (l : string) : String_as_OT.compare l l = Eq.
Proof.
  destruct (String_as_OT.compare_spec l l) as [|H|H]; [reflexivity| |];
    exfalso; exact (StrictOrder_Irreflexive l H).
Qed.

Lemma key_compare_eq (a b : key) : key_compare a b = Eq <-> a = b.
Proof.
  destruct a as [t1 l1], b as [t2 l2]. unfold key_compare. simpl. split.
  - destruct (Z.compare t1 t2) eqn:Et; try discriminate.
    apply Z.compare_eq_iff in Et. subst t2.
    destruct (String_as_OT.compare_spec l1 l2) as [->| |]; try discriminate.
    reflexivity.
  - intros H. injection H as -> ->. rewrite Z.compare_refl.
    apply string_compare_refl.
Qed.

Lemma key_compare_refl (a : key) : key_compare a a = Eq.
Proof. now apply key_compare_eq. Qed.

Lemma key_compare_gt (a b : key) : key_compare a b = Gt -> key_lt b a.
Proof.
  destruct a as [t1 l1], b as [t2 l2]. unfold key_lt, key_compare. simpl.
  destruct (Z.compare t1 t2) eqn:Et; try discriminate.
  - apply Z.compare_eq_iff in Et. subst t2. rewrite Z.compare_refl.
    intros Hs.
    destruct (String_as_OT.compare_spec l1 l2) as [|H|H]; try discriminate.
    exact H.
  - intros _. now rewrite Z.compare_antisym, Et.
Qed.

Lemma key_lt_trans (a b c : key) : key_lt a b -> key_lt b c -> key_lt a c.
Proof.
  destruct a as [t1 l1], b as [t2 l2], c as [t3 l3]. unfold key_lt, key_compare. simpl.
  destruct (Z.compare t1 t2) eqn:E12; try discriminate;
    destruct (Z.compare t2 t3) eqn:E23; try discriminate; intros Ha Hb.
  - apply Z.compare_eq_iff in E12, E23. subst. rewrite Z.compare_refl.
    exact (StrictOrder_Transitive (R := String_as_OT.lt) _ _ _ Ha Hb).
  - apply Z.compare_eq_iff in E12. subst. now rewrite E23.
  - apply Z.compare_eq_iff in E23. subst. now rewrite E12.
  - assert (H13 : (t1 < t3)%Z) by (apply Z.lt_trans with t2; assumption).
    unfold Z.lt in H13. now rewrite H13.
Qed.

Lemma key_lt_irrefl (a : key) : ~ key_lt a a.
Proof. unfold key_lt. now rewrite key_compare_refl. Qed.

(** *** The order of binary64 values *)

(** Where a value that is a number stands among the numbers: by sign, then
    exponent, then mantissa. *)
Definition rank (f : spec_float) : Z * Z * Z :=
  match f with
  | S754_nan => (0, 0, 0)
  | S754_zero _ => (0, 0, 0)
  | S754_infinity true => (-2, 0, 0)
  | S754_infinity false => (2, 0, 0)
  | S754_finite true m e => (-1, - e, - Z.pos m)
  | S754_finite false m e => (1, e, Z.pos m)
  end%Z.

Definition rank_lt (a b : Z * Z * Z) : Prop :=
  (fst (fst a) < fst (fst b)
   \/ (fst (fst a) = fst (fst b)
       /\ (snd (fst a) < snd (fst b)
           \/ (snd (fst a) = snd (fst b) /\ snd a < snd b))))%Z.

Lemma SFltb_rank (a b : spec_float) :
  a <> S754_nan -> b <> S754_nan ->
  (SFltb a b = true <-> rank_lt (rank a) (rank b)).
Proof.
  intros Ha Hb. unfold SFltb, rank_lt.
  destruct a as [sa|sa| |sa ma ea]; [| |congruence|];
    (destruct b as [sb|sb| |sb mb eb]; [| |congruence|]);
    cbn [SFcompare rank fst snd].
  all: try (destruct sa; destruct sb; cbn [fst snd]; split; intros Hgoal;
            first [discriminate Hgoal | reflexivity | lia]).
  all: destruct sa, sb; cbn [fst snd];
    try (split; intros Hgoal; first [discriminate Hgoal | reflexivity | lia]).
  - change (Pos.compare_cont Eq ma mb) with (Pos.compare ma mb).
    destruct (Z.compare_spec ea eb), (Pos.compare_spec ma mb); cbn [CompOpp];
      split; intros Hgoal; first [discriminate Hgoal | reflexivity | lia].
  - change (Pos.compare_cont Eq ma mb) with (Pos.compare ma mb).
    destruct (Z.compare_spec ea eb), (Pos.compare_spec ma mb);
      split; intros Hgoal; first [discriminate Hgoal | reflexivity | lia].
Qed.

Lemma not_nan (x : float) : PrimFloat.is_nan x = false -> Prim2SF x <> S754_nan.
Proof.
  unfold PrimFloat.is_nan. rewrite eqb_spec. intros H E. rewrite E in H. discriminate H.
Qed.

Lemma ltb_rank (x y : float) :
  PrimFloat.is_nan x = false -> PrimFloat.is_nan y = false ->
  (PrimFloat.ltb x y = true <-> rank_lt (rank (Prim2SF x)) (rank (Prim2SF y))).
Proof.
  intros Hx Hy. rewrite ltb_spec. apply SFltb_rank; now apply not_nan.
Qed.

Lemma ltb_irrefl (a : float) :
  PrimFloat.is_nan a = false -> PrimFloat.ltb a a = false.
Proof.
  intros Ha. destruct (PrimFloat.ltb a a) eqn:E; [|reflexivity].
  apply (ltb_rank a a Ha Ha) in E. unfold rank_lt in E. lia.
Qed.

(** Among numbers, a value below [c] is below [b], or [b] is below [c]. *)
Lemma ltb_between (a b c : float) :
  PrimFloat.is_nan a = false -> PrimFloat.is_nan b = false ->
  PrimFloat.is_nan c = false ->
  PrimFloat.ltb a c = true -> PrimFloat.ltb a b = true \/ PrimFloat.ltb b c = true.
Proof.
  intros Ha Hb Hc H. apply (ltb_rank a c Ha Hc) in H.
  destruct (PrimFloat.ltb a b) eqn:E1; [now left|]. right.
  apply (ltb_rank b c Hb Hc).
  assert (N : ~ rank_lt (rank (Prim2SF a)) (rank (Prim2SF b))).
  { intros R. apply (ltb_rank a b Ha Hb) in R. congruence. }
  unfold rank_lt in *. lia.
Qed.

Lemma ltb_trans (a b c : float) :
  PrimFloat.is_nan a = false -> PrimFloat.is_nan b = false ->
  PrimFloat.is_nan c = false ->
  PrimFloat.ltb a b = true -> PrimFloat.ltb b c = true -> PrimFloat.ltb a c = true.
Proof.
  intros Ha Hb Hc H1 H2.
  apply (ltb_rank a b Ha Hb) in H1. apply (ltb_rank b c Hb Hc) in H2.
  apply (ltb_rank a c Ha Hc). unfold rank_lt in *. lia.
Qed.

(** *** Extremes of the readings *)

(** The readings that are not null. *)
Definition numbers (xs : list float) : list float :=
  filter (fun x => negb (PrimFloat.is_nan x)) xs.

Lemma numbers_number (xs : list float) (x : float) :
  In x (numbers xs) -> PrimFloat.is_nan x = false.
Proof.
  unfold numbers. intros H. apply filter_In in H. destruct H as [_ H].
  now apply negb_true_iff in H.
Qed.

Lemma fold_pick_In (pick : float -> float -> bool) (ys : list float) : forall y : float,
  In (fold_left (fun a x => if pick a x then x else a) ys y) (y :: ys).
Proof.
  induction ys as [|x ys IH]; intros y; cbn [fold_left]; [now left|].
  destruct (pick y x).
  - right. apply IH.
  - destruct (IH y) as [H|H]; [now left | right; now right].
Qed.

Lemma fold_max_greatest (ys : list float) : forall a : float,
  PrimFloat.is_nan a = false ->
  (forall z, In z ys -> PrimFloat.is_nan z = false) ->
  let r := fold_left (fun a x => if PrimFloat.ltb a x then x else a) ys a in
  PrimFloat.is_nan r = false
  /\ PrimFloat.ltb r a = false
  /\ (forall z, In z ys -> PrimFloat.ltb r z = false).
Proof.
  induction ys as [|x ys IH]; intros a Ha Hys; cbn [fold_left].
  - split; [exact Ha|]. split; [now apply ltb_irrefl | intros z []].
  - assert (Hx : PrimFloat.is_nan x = false) by (apply Hys; now left).
    assert (Hrest : forall z, In z ys -> PrimFloat.is_nan z = false)
      by (intros z Hz; apply Hys; now right).
    destruct (PrimFloat.ltb a x) eqn:E.
    + pose proof (IH x Hx Hrest) as H. cbv zeta in *.
      remember (fold_left (fun a x => if PrimFloat.ltb a x then x else a) ys x) as r.
      destruct H as (Hr & Hrx & Hall).
      split; [exact Hr|]. split.
      * destruct (PrimFloat.ltb r a) eqn:F; [|reflexivity].
        rewrite (ltb_trans r a x Hr Ha Hx F E) in Hrx. discriminate Hrx.
      * intros z [<-|Hz]; [exact Hrx | now apply Hall].
    + pose proof (IH a Ha Hrest) as H. cbv zeta in *.
      remember (fold_left (fun a x => if PrimFloat.ltb a x then x else a) ys a) as r.
      destruct H as (Hr & Hra & Hall).
      split; [exact Hr|]. split; [exact Hra|].
      intros z [<-|Hz]; [|now apply Hall].
      destruct (PrimFloat.ltb r x) eqn:F; [|reflexivity].
      destruct (ltb_between r a x Hr Ha Hx F) as [G|G]; congruence.
Qed.

Lemma fold_min_least (ys : list float) : forall a : float,
  PrimFloat.is_nan a = false ->
  (forall z, In z ys -> PrimFloat.is_nan z = false) ->
  let r := fold_left (fun a x => if PrimFloat.ltb x a then x else a) ys a in
  PrimFloat.is_nan r = false
  /\ PrimFloat.ltb a r = false
  /\ (forall z, In z ys -> PrimFloat.ltb z r = false).
Proof.
  induction ys as [|x ys IH]; intros a Ha Hys; cbn [fold_left].
  - split; [exact Ha|]. split; [now apply ltb_irrefl | intros z []].
  - assert (Hx : PrimFloat.is_nan x = false) by (apply Hys; now left).
    assert (Hrest : forall z, In z ys -> PrimFloat.is_nan z = false)
      by (intros z Hz; apply Hys; now right).
    destruct (PrimFloat.ltb x a) eqn:E.
    + pose proof (IH x Hx Hrest) as H. cbv zeta in *.
      remember (fold_left (fun a x => if PrimFloat.ltb x a then x else a) ys x) as r.
      destruct H as (Hr & Hrx & Hall).
      split; [exact Hr|]. split.
      * destruct (PrimFloat.ltb a r) eqn:F; [|reflexivity].
        rewrite (ltb_trans x a r Hx Ha Hr E F) in Hrx. discriminate Hrx.
      * intros z [<-|Hz]; [exact Hrx | now apply Hall].
    + pose proof (IH a Ha Hrest) as H. cbv zeta in *.
      remember (fold_left (fun a x => if PrimFloat.ltb x a then x else a) ys a) as r.
      destruct H as (Hr & Hra & Hall).
      split; [exact Hr|]. split; [exact Hra|].
      intros z [<-|Hz]; [|now apply Hall].
      destruct (PrimFloat.ltb x r) eqn:F; [|reflexivity].
      destruct (ltb_between x a r Hx Ha Hr F) as [G|G]; congruence.
Qed.

(** The maximum is a reading that no reading exceeds, and the minimum one
    that exceeds no reading; without a reading both are null. *)
Lemma extremes (xs : list float) :
  (numbers xs <> [] ->
   In (agg_max xs) (numbers xs)
   /\ (forall z, In z (numbers xs) -> PrimFloat.ltb (agg_max xs) z = false)
   /\ In (agg_min xs) (numbers xs)
   /\ (forall z, In z (numbers xs) -> PrimFloat.ltb z (agg_min xs) = false))
  /\ (numbers xs = [] -> agg_max xs = nan /\ agg_min xs = nan).
Proof.
  unfold agg_max, agg_min. change (skipna xs) with (numbers xs).
  pose proof (numbers_number xs) as Hn.
  destruct (numbers xs) as [|y ys].
  - split; [intros H; now destruct H | intros _; split; reflexivity].
  - split; [intros _ | intros H; discriminate H].
    assert (Hy : PrimFloat.is_nan y = false) by (apply Hn; now left).
    assert (Hys : forall z, In z ys -> PrimFloat.is_nan z = false)
      by (intros z Hz; apply Hn; now right).
    pose proof (fold_max_greatest ys y Hy Hys) as Hmax.
    pose proof (fold_min_least ys y Hy Hys) as Hmin.
    cbv zeta in Hmax, Hmin.
    destruct Hmax as (_ & Ha & Hall). destruct Hmin as (_ & Hb & Hall').
    split; [apply (fold_pick_In (fun a x => PrimFloat.ltb a x))|].
    split; [intros z [<-|Hz]; [exact Ha | now apply Hall]|].
    split; [apply (fold_pick_In (fun a x => PrimFloat.ltb x a))|].
    intros z [<-|Hz]; [exact Hb | now apply Hall'].
Qed.

(** The key order: by time, then by location. *)
Lemma key_lt_lexicographic (a b : key) :
  key_lt a b
  <-> (fst a < fst b)%Z
      \/ (fst a = fst b /\ String_as_OT.compare (snd a) (snd b) = Lt).
Proof.
  unfold key_lt, key_compare.
  destruct (Z.compare_spec (fst a) (fst b)); split; intros Hgoal;
    first [ reflexivity | now right | now left | discriminate Hgoal | idtac ].
  - destruct Hgoal as [Hgoal|[_ Hgoal]]; [lia | exact Hgoal].
  - destruct Hgoal as [Hgoal|[Hgoal _]]; lia.
Qed.

(** *** What [groupby] computes *)

Definition key_eqb (a b : key) : bool :=
  match key_compare a b with Eq => true | _ => false end.

Lemma key_eqb_eq (a b : key) : key_eqb a b = true <-> a = b.
Proof.
  unfold key_eqb. rewrite <- key_compare_eq.
  destruct (key_compare a b); split; congruence.
Qed.

Definition has_key_of (k : key) (row : option key * metrics) : bool :=
  match fst row with
  | Some k' => key_eqb k k'
  | None => false
  end.

(** The rows of the table that carry key [k], in table order. *)
Definition rows_of (k : key) (rows : list (option key * metrics)) : list metrics :=
  map snd (filter (has_key_of k) rows).

(** The rows that the groups hold for key [k]. *)
Fixpoint members (k : key) (gs : groups) : list metrics :=
  match gs with
  | [] => []
  | (k', rs) :: rest => if key_eqb k k' then rs else members k rest
  end.

Definition ascending (gs : groups) : Prop :=
  Sorted.StronglySorted key_lt (map fst gs).

Lemma members_absent (k : key) (gs : groups) :
  Forall (key_lt k) (map fst gs) -> members k gs = [].
Proof.
  induction gs as [|[k' rs] gs IH]; simpl; intros H; [reflexivity|].
  inversion H as [|? ? Hlt Hrest]; subst.
  destruct (key_eqb k k') eqn:E.
  - apply key_eqb_eq in E. subst. exfalso. exact (key_lt_irrefl k' Hlt).
  - now apply IH.
Qed.

Lemma key_eqb_refl (k : key) : key_eqb k k = true.
Proof. now apply key_eqb_eq. Qed.

Lemma members_add_same (k : key) (r : metrics) (gs : groups) :
  ascending gs -> members k (add_to_group k r gs) = members k gs ++ [r].
Proof.
  unfold ascending. induction gs as [|[k' rs] gs IH]; simpl; intros Hs.
  - now rewrite key_eqb_refl.
  - inversion Hs as [|? ? Hs' Hall]; subst.
    destruct (key_compare k k') eqn:E.
    + assert (Eb : key_eqb k k' = true) by (unfold key_eqb; now rewrite E).
      simpl. now rewrite Eb.
    + assert (Eb : key_eqb k k' = false) by (unfold key_eqb; now rewrite E).
      simpl. rewrite key_eqb_refl, Eb.
      rewrite members_absent; [reflexivity|].
      apply Forall_forall. intros k0 Hin.
      apply (key_lt_trans k k' k0 E).
      rewrite Forall_forall in Hall. now apply Hall.
    + assert (Eb : key_eqb k k' = false) by (unfold key_eqb; now rewrite E).
      simpl. rewrite Eb. now apply IH.
Qed.

Lemma members_add_other (k k' : key) (r : metrics) (gs : groups) :
  k' <> k -> members k' (add_to_group k r gs) = members k' gs.
Proof.
  intros Hne. induction gs as [|[k0 rs] gs IH]; simpl.
  - destruct (key_eqb k' k) eqn:E; [|reflexivity].
    apply key_eqb_eq in E. congruence.
  - destruct (key_compare k k0) eqn:E; simpl.
    + apply key_compare_eq in E. subst k0.
      destruct (key_eqb k' k) eqn:E'; [|reflexivity].
      apply key_eqb_eq in E'. congruence.
    + destruct (key_eqb k' k) eqn:E'; [|reflexivity].
      apply key_eqb_eq in E'. congruence.
    + destruct (key_eqb k' k0); [reflexivity | exact IH].
Qed.

Lemma keys_add (k k' : key) (r : metrics) (gs : groups) :
  In k' (map fst (add_to_group k r gs)) <-> k' = k \/ In k' (map fst gs).
Proof.
  induction gs as [|[k0 rs] gs IH]; simpl.
  - intuition.
  - destruct (key_compare k k0) eqn:E; simpl.
    + apply key_compare_eq in E. subst k0. intuition.
    + intuition.
    + rewrite IH. intuition.
Qed.

Lemma ascending_add (k : key) (r : metrics) (gs : groups) :
  ascending gs -> ascending (add_to_group k r gs).
Proof.
  unfold ascending. induction gs as [|[k0 rs] gs IH]; simpl; intros Hs.
  - constructor; constructor.
  - inversion Hs as [|? ? Hs' Hall]; subst.
    destruct (key_compare k k0) eqn:E; simpl.
    + constructor; assumption.
    + constructor; [exact Hs|]. constructor; [exact E|].
      apply Forall_forall. intros k1 Hin. apply (key_lt_trans k k0 k1 E).
      rewrite Forall_forall in Hall. now apply Hall.
    + constructor; [now apply IH|].
      apply Forall_forall. intros k1 Hin. apply keys_add in Hin.
      destruct Hin as [->|Hin].
      * now apply key_compare_gt.
      * rewrite Forall_forall in Hall. now apply Hall.
Qed.

Lemma groups_nonempty_add (k : key) (r : metrics) (gs : groups) :
  Forall (fun g => snd g <> []) gs ->
  Forall (fun g => snd g <> []) (add_to_group k r gs).
Proof.
  induction gs as [|[k0 rs] gs IH]; simpl; intros H.
  - constructor; [discriminate | constructor].
  - inversion H as [|? ? Hg Hrest]; subst.
    destruct (key_compare k k0); constructor; simpl in *; auto.
    + intros Habs. now apply app_eq_nil in Habs as [_ Habs].
    + discriminate.
Qed.

Definition step (gs : groups) (row : option key * metrics) : groups :=
  match fst row with
  | Some k => add_to_group k (snd row) gs
  | None => gs
  end.

Lemma fold_groups (rows : list (option key * metrics)) : forall gs : groups,
  ascending gs -> Forall (fun g => snd g <> []) gs ->
  let gs' := fold_left step rows gs in
  ascending gs'
  /\ Forall (fun g => snd g <> []) gs'
  /\ (forall k, members k gs' = members k gs ++ rows_of k rows)
  /\ (forall k, In k (map fst gs')
                <-> In k (map fst gs) \/ In (Some k) (map fst rows)).
Proof.
  induction rows as [|[ok m] rows IH]; intros gs Hs Hne.
  - simpl. split; [exact Hs|]. split; [exact Hne|]. split.
    + intros k. unfold rows_of. simpl. now rewrite app_nil_r.
    + intros k. simpl. tauto.
  - cbn [fold_left]. destruct ok as [k0|]; unfold step at 2; cbn [fst snd].
    + destruct (IH (add_to_group k0 m gs) (ascending_add k0 m gs Hs)
                  (groups_nonempty_add k0 m gs Hne)) as (H1 & H2 & H3 & H4).
      split; [exact H1|]. split; [exact H2|]. split.
      * intros k. rewrite H3. unfold rows_of, has_key_of. cbn [filter fst].
        destruct (key_eqb k k0) eqn:E; cbn [map snd].
        -- apply key_eqb_eq in E. subst k0.
           rewrite (members_add_same k m gs Hs). now rewrite <- app_assoc.
        -- rewrite members_add_other; [reflexivity|].
           intros ->. now rewrite key_eqb_refl in E.
      * intros k. rewrite H4, keys_add. cbn [map fst In]. split.
        -- intros [[->|Hin]|Hin]; auto.
        -- intros [Hin|[Heq|Hin]]; auto. injection Heq as ->. auto.
    + destruct (IH gs Hs Hne) as (H1 & H2 & H3 & H4).
      split; [exact H1|]. split; [exact H2|]. split.
      * intros k. rewrite H3. reflexivity.
      * intros k. rewrite H4. cbn [map fst In]. split.
        -- intros [Hin|Hin]; auto.
        -- intros [Hin|[Heq|Hin]]; auto. discriminate.
Qed.

Lemma members_In (k : key) (ms : list metrics) (gs : groups) :
  ascending gs -> In (k, ms) gs -> members k gs = ms.
Proof.
  unfold ascending. induction gs as [|[k0 rs] gs IH]; simpl; intros Hs Hin; [tauto|].
  inversion Hs as [|? ? Hs' Hall]; subst.
  destruct Hin as [Heq|Hin].
  - injection Heq as -> ->. unfold key_eqb. now rewrite key_compare_refl.
  - destruct (key_eqb k k0) eqn:E; [|now apply IH].
    apply key_eqb_eq in E. subst k0. exfalso.
    rewrite Forall_forall in Hall. apply (key_lt_irrefl k). apply Hall.
    apply in_map_iff. now exists (k, ms).
Qed.

(** [groupby] yields one group per key that occurs in the table, in ascending
    key order, and the group of a key holds the rows of that key in table
    order. *)
Lemma groupby_spec (rows : list (option key * metrics)) :
  ascending (groupby rows)
  /\ (forall k, In k (map fst (groupby rows)) <-> In (Some k) (map fst rows))
  /\ (forall k ms, In (k, ms) (groupby rows) -> ms = rows_of k rows /\ ms <> []).
Proof.
  assert (H0 : ascending []) by constructor.
  destruct (fold_groups rows [] H0 (Forall_nil _)) as (H1 & H2 & H3 & H4).
  fold (groupby rows) in H1, H2, H3, H4 |- *.
  split; [exact H1|]. split.
  - intros k. rewrite H4. simpl. tauto.
  - intros k ms Hin. split.
    + rewrite <- (members_In k ms _ H1 Hin). now rewrite H3.
    + rewrite Forall_forall in H2. exact (H2 _ Hin).
Qed.

(** *** Rows of aligned columns *)

Lemma nth_error_map2 {A B C} (f : A -> B -> C) (xs : list A) (ys : list B) :
  forall (i : nat) (x : A) (y : B),
    nth_error xs i = Some x -> nth_error ys i = Some y ->
    nth_error (map2 f xs ys) i = Some (f x y).
Proof.
  revert ys. induction xs as [|x0 xs IH]; intros [|y0 ys] [|i] x y Hx Hy;
    simpl in *; try discriminate.
  - now injection Hx as ->; injection Hy as ->.
  - now apply IH.
Qed.

Lemma map2_length {A B C} (f : A -> B -> C) (xs : list A) (ys : list B) :
  List.length xs = List.length ys -> List.length (map2 f xs ys) = List.length xs.
Proof.
  revert ys. induction xs as [|x xs IH]; intros [|y ys] H; simpl in *;
    try discriminate; [reflexivity|]. f_equal. apply IH. now injection H.
Qed.

Lemma float_col_length (df : frame) (c : string) (xs : list float) :
  wf df -> float_col df c = Ok xs -> List.length xs = nrows df.
Proof.
  unfold wf, float_col, select. intros Hwf H.
  assert (Hin : In (SFloat xs) (map snd (filter (fun p => String.eqb c (fst p)) df))).
  { destruct (map snd _) as [|[] [|]]; try discriminate.
    injection H as ->. now left. }
  apply in_map_iff in Hin. destruct Hin as [p [Hp Hin]].
  apply filter_In in Hin. destruct Hin as [Hin _].
  rewrite Forall_forall in Hwf. specialize (Hwf p Hin). now rewrite Hp in Hwf.
Qed.

Lemma float_col_set_other (df : frame) (c c' : string) (s : series) :
  c <> c' -> float_col (set_col df c s) c' = float_col df c'.
Proof. intros H. unfold float_col. now rewrite select_set_col_other. Qed.

(** *** The three builders on a table that has the columns they read *)

Section Builders.

Variable wall : nat -> Z.

Set Default Proof Using "Type".

Definition summary_table (gs : groups) (t : Z) : frame :=
  [("time", STime (map (fun g => Some (fst (fst g))) gs));
   ("location", SObj (map (fun g => VStr (snd (fst g))) gs));
   ("avg_temp", SFloat (map (fun g => agg_mean (map m_temp_max (snd g))) gs));
   ("max_temp", SFloat (map (fun g => agg_max (map m_temp_max (snd g))) gs));
   ("min_temp", SFloat (map (fun g => agg_min (map m_temp_min (snd g))) gs));
   ("total_precip", SFloat (map (fun g => agg_sum (map m_precip_total (snd g))) gs));
   ("max_wind_speed", SFloat (map (fun g => agg_max (map m_wind_speed_max (snd g))) gs));
   ("weather_label",
    SObj (map (fun x => VStr (weather_label x))
              (map (fun g => agg_mean (map m_temp_max (snd g))) gs)));
   ("load_timestamp", STime (repeat (Some t) (List.length gs)))].

Definition table_rows (times : list (option Z)) (locations : list (option string))
           (tmax tmin precip wind : list float) : list (option key * metrics) :=
  map2 pair (map2 make_key times locations) (make_metrics tmax tmin precip wind).

Lemma build_daily_summary_run (df : frame) times locations tmax tmin precip wind
      (w : world) :
  time_keys df = Ok times -> location_keys df = Ok locations ->
  float_col df "temp_max" = Ok tmax -> float_col df "temp_min" = Ok tmin ->
  float_col df "precip_total" = Ok precip -> float_col df "wind_speed_max" = Ok wind ->
  fst (build_daily_summary wall df w)
  = Ok (summary_table (groupby (table_rows times locations tmax tmin precip wind))
          (wall (ticks w))).
Proof.
  intros H1 H2 H3 H4 H5 H6. unfold build_daily_summary, bind, lift.
  rewrite H1, H2, H3, H4, H5, H6. unfold summary_table, table_rows.
  cbn. unfold broadcast_time. cbn [nrows slen]. now rewrite length_map.
Qed.

Definition alerts_table (time location : series) (tmax wind precip : list float)
           (t : Z) : frame :=
  [("date", time);
   ("location", location);
   ("heat_alert_flag", SInt (map heat_alert_flag tmax));
   ("storm_flag", SInt (map storm_flag wind));
   ("rain_alert_flag", SInt (map rain_alert_flag precip));
   ("risk_level",
    SObj (map2 (fun s r => VStr (risk_level s r))
               (map storm_flag wind) (map rain_alert_flag precip)));
   ("load_timestamp", STime (repeat (Some t) (slen time)))].

Lemma build_alerts_run (df : frame) time location tmax wind precip (w : world) :
  getitem df "time" = Ok time -> getitem df "location" = Ok location ->
  float_col df "temp_max" = Ok tmax ->
  float_col df "wind_speed_max" = Ok wind ->
  float_col df "precip_total" = Ok precip ->
  fst (build_alerts wall df w)
  = Ok (alerts_table time location tmax wind precip (wall (ticks w))).
Proof.
  intros H1 H2 H3 H4 H5. unfold build_alerts, bind, lift.
  rewrite H1, H2, H3, H4, H5. reflexivity.
Qed.

Definition derived : list string :=
  ["temperature_range"; "humidity_index"; "wind_chill"; "load_timestamp"].

Definition with_derived (df : frame) (tmax tmin precip wind : list float) : frame :=
  let df1 := set_col df "temperature_range" (SFloat (map2 PrimFloat.sub tmax tmin)) in
  let df2 :=
    set_col df1 "humidity_index"
      (SFloat (map2 (fun a p => a * 0.1 + p * 0.5)%float tmax precip)) in
  set_col df2 "wind_chill"
    (SFloat (map2 (fun a x => a - x * 0.1)%float tmin wind)).

Definition features_table (df : frame) (tmax tmin precip wind : list float) (t : Z)
  : frame :=
  let df3 := with_derived df tmax tmin precip wind in
  set_col df3 "load_timestamp" (broadcast_time df3 t).

Lemma build_features_run (df : frame) tmax tmin precip wind (w : world) :
  float_col df "temp_max" = Ok tmax -> float_col df "temp_min" = Ok tmin ->
  float_col df "precip_total" = Ok precip -> float_col df "wind_speed_max" = Ok wind ->
  fst (build_features wall df w)
  = Ok (features_table df tmax tmin precip wind (wall (ticks w))).
Proof.
  intros H1 H2 H3 H4. unfold build_features, bind, lift.
  rewrite H1, H2. cbn [fst].
  rewrite !float_col_set_other by discriminate. rewrite H1, H3. cbn [fst].
  rewrite !float_col_set_other by discriminate. rewrite H2, H4. reflexivity.
Qed.

(** Two readings of one day at one place. *)
Definition two_readings : frame :=
  [("time", STime [Some 1717200000000000000%Z; Some 1717200000000000000%Z]);
   ("temp_max", SFloat [40%float; 20%float]);
   ("temp_min", SFloat [25%float; 12%float]);
   ("wind_speed_max", SFloat [10%float; 20%float]);
   ("precip_total", SFloat [0%float; 3%float]);
   ("location", SObj [VStr "berlin"; VStr "berlin"]);
   ("load_timestamp", STime [Some 1717243200000000%Z; Some 1717243200000000%Z])].

(** Three readings of one day at one place whose plain left-to-right sum is
    rounded away from 105. *)
Definition three_readings : frame :=
  [("time", STime [Some 1717200000000000000%Z; Some 1717200000000000000%Z;
                   Some 1717200000000000000%Z]);
   ("temp_max", SFloat [30.1%float; 35.2%float; 39.7%float]);
   ("temp_min", SFloat [20%float; 21%float; 22%float]);
   ("wind_speed_max", SFloat [10%float; 20%float; 15%float]);
   ("precip_total", SFloat [0.1%float; 0.2%float; 0.3%float]);
   ("location", SObj [VStr "berlin"; VStr "berlin"; VStr "berlin"]);
   ("load_timestamp", STime [Some 1717243200000000%Z; Some 1717243200000000%Z;
                             Some 1717243200000000%Z])].

Lemma groups_as_keys {A} (f : list metrics -> A) (rows : list (option key * metrics)) :
  map (fun g => f (snd g)) (groupby rows)
  = map (fun k => f (rows_of k rows)) (map fst (groupby rows)).
Proof.
  destruct (groupby_spec rows) as (_ & _ & Hm).
  rewrite map_map. apply map_ext_in. intros [k ms] Hin.
  destruct (Hm k ms Hin) as [-> _]. reflexivity.
Qed.

(** C4: on a daily table that has the key and metric columns, the summary
    has one row per (time, location) pair that occurs in the table, in
    ascending order of time, then location; the row of a pair aggregates the
    rows of the table that carry that pair, of which there is at least one:
    [avg_temp] is the mean and [max_temp] the maximum of their [temp_max],
    [min_temp] the minimum of their [temp_min], [total_precip] the sum of
    their [precip_total], [max_wind_speed] the maximum of their
    [wind_speed_max].  Row [i] of the table carries the pair and the metrics
    of row [i] of its columns, and no pair when its time or its location is
    null.  The sum runs over the readings that are not null, from left to
    right, with a running compensation for the rounding of each addition; the
    mean is that sum divided by the number of such readings, and null
    without one; the maximum is a reading that no reading exceeds and the
    minimum one that exceeds none.  The label is hot above 35, cold below 10
    and moderate otherwise.  Two rows of one pair with [temp_max] 40 and 20
    give [avg_temp] 30 and the label moderate; three with 30.1, 35.2 and
    39.7 give 35 and moderate, and their [precip_total] 0.1, 0.2 and 0.3 add
    up to the binary64 value nearest to 0.6. *)
Theorem daily_summary_by_group (df : frame) times locations tmax tmin precip wind
        (w : world) :
  time_keys df = Ok times -> location_keys df = Ok locations ->
  float_col df "temp_max" = Ok tmax -> float_col df "temp_min" = Ok tmin ->
  float_col df "precip_total" = Ok precip -> float_col df "wind_speed_max" = Ok wind ->
  let rows := table_rows times locations tmax tmin precip wind in
  (exists keys : list key,
      Sorted.StronglySorted key_lt keys
      /\ (forall k, In k keys <-> In (Some k) (map fst rows))
      /\ (forall k, In k keys -> rows_of k rows <> [])
      /\ fst (build_daily_summary wall df w)
         = Ok [("time", STime (map (fun k => Some (fst k)) keys));
               ("location", SObj (map (fun k => VStr (snd k)) keys));
               ("avg_temp",
                SFloat (map (fun k => agg_mean (map m_temp_max (rows_of k rows))) keys));
               ("max_temp",
                SFloat (map (fun k => agg_max (map m_temp_max (rows_of k rows))) keys));
               ("min_temp",
                SFloat (map (fun k => agg_min (map m_temp_min (rows_of k rows))) keys));
               ("total_precip",
                SFloat (map (fun k => agg_sum (map m_precip_total (rows_of k rows))) keys));
               ("max_wind_speed",
                SFloat (map (fun k => agg_max (map m_wind_speed_max (rows_of k rows)))
                            keys));
               ("weather_label",
                SObj (map (fun k => VStr (weather_label
                                            (agg_mean (map m_temp_max (rows_of k rows)))))
                          keys));
               ("load_timestamp",
                STime (repeat (Some (wall (ticks w))) (List.length keys)))])
  /\ (forall a b : key,
        key_lt a b
        <-> (fst a < fst b)%Z
            \/ (fst a = fst b /\ String_as_OT.compare (snd a) (snd b) = Lt))
  /\ (forall i t l a b c d,
        nth_error times i = Some t -> nth_error locations i = Some l ->
        nth_error tmax i = Some a -> nth_error tmin i = Some b ->
        nth_error precip i = Some c -> nth_error wind i = Some d ->
        nth_error rows i
        = Some (match t, l with
                | Some z, Some s => Some (z, s)
                | _, _ => None
                end,
                {| m_temp_max := a; m_temp_min := b;
                   m_precip_total := c; m_wind_speed_max := d |}))
  /\ (forall xs : list float,
        agg_sum xs
        = fst (fold_left
                 (fun acc x =>
                    let y := (x - snd acc)%float in
                    let t := (fst acc + y)%float in
                    let c := (t - fst acc - y)%float in
                    (t, if PrimFloat.is_nan c then 0%float else c))
                 (numbers xs) (0%float, 0%float))
        /\ agg_mean xs
           = match numbers xs with
             | [] => nan
             | _ :: _ =>
                 (agg_sum xs
                  / PrimFloat.of_uint63
                      (Uint63.of_Z (Z.of_nat (List.length (numbers xs)))))%float
             end
        /\ (numbers xs <> [] ->
            In (agg_max xs) (numbers xs)
            /\ (forall z, In z (numbers xs) -> (agg_max xs <? z)%float = false)
            /\ In (agg_min xs) (numbers xs)
            /\ (forall z, In z (numbers xs) -> (z <? agg_min xs)%float = false))
        /\ (numbers xs = [] -> agg_max xs = nan /\ agg_min xs = nan))
  /\ (forall x,
        ((35 <? x)%float = true -> weather_label x = "hot"%string)
        /\ ((35 <? x)%float = false -> (x <? 10)%float = true ->
            weather_label x = "cold"%string)
        /\ ((35 <? x)%float = false -> (x <? 10)%float = false ->
            weather_label x = "moderate"%string))
  /\ (exists s,
        fst (build_daily_summary wall two_readings w) = Ok s
        /\ float_col s "avg_temp" = Ok [30%float]
        /\ getitem s "weather_label" = Ok (SObj [VStr "moderate"]))
  /\ (exists s,
        fst (build_daily_summary wall three_readings w) = Ok s
        /\ float_col s "avg_temp" = Ok [35%float]
        /\ float_col s "total_precip" = Ok [0.6%float]
        /\ getitem s "weather_label" = Ok (SObj [VStr "moderate"])).
Proof.
  intros H1 H2 H3 H4 H5 H6 rows.
  destruct (groupby_spec rows) as (Ha & Hk & Hm).
  split.
  { exists (map fst (groupby rows)).
    split; [exact Ha|]. split; [exact Hk|]. split.
    - intros k Hin. apply in_map_iff in Hin. destruct Hin as [[k' ms] [E Hin]].
      cbn in E. subst k'. destruct (Hm k ms Hin) as [<- Hne]. exact Hne.
    - rewrite (build_daily_summary_run df times locations tmax tmin precip wind w
                 H1 H2 H3 H4 H5 H6).
      fold rows. unfold summary_table.
      rewrite !map_map with (g := fun x => VStr (weather_label x)).
      rewrite (groups_as_keys (fun ms => agg_mean (map m_temp_max ms)) rows).
      rewrite (groups_as_keys (fun ms => agg_max (map m_temp_max ms)) rows).
      rewrite (groups_as_keys (fun ms => agg_min (map m_temp_min ms)) rows).
      rewrite (groups_as_keys (fun ms => agg_sum (map m_precip_total ms)) rows).
      rewrite (groups_as_keys (fun ms => agg_max (map m_wind_speed_max ms)) rows).
      rewrite (groups_as_keys
                 (fun ms => VStr (weather_label (agg_mean (map m_temp_max ms)))) rows).
      rewrite !map_map. cbn [fst snd]. rewrite !length_map. reflexivity. }
  split; [exact key_lt_lexicographic|]. split.
  { intros i t l a b c d E1 E2 E3 E4 E5 E6. unfold rows, table_rows, make_metrics.
    rewrite (nth_error_map2 pair _ _ i (make_key t l)
               {| m_temp_max := a; m_temp_min := b;
                  m_precip_total := c; m_wind_speed_max := d |}).
    - reflexivity.
    - now apply nth_error_map2.
    - assert (Eab : nth_error (map2 pair tmax tmin) i = Some (a, b))
        by now apply nth_error_map2.
      assert (Ecd : nth_error (map2 pair precip wind) i = Some (c, d))
        by now apply nth_error_map2.
      exact (nth_error_map2
               (fun ab cd => {| m_temp_max := fst ab; m_temp_min := snd ab;
                                m_precip_total := fst cd; m_wind_speed_max := snd cd |})
               _ _ i (a, b) (c, d) Eab Ecd). }
  split.
  { intros xs. split; [reflexivity|]. split.
    - unfold agg_mean, agg_sum, count. change (skipna xs) with (numbers xs).
      destruct (numbers xs); reflexivity.
    - exact (extremes xs). }
  split.
  { intros x. unfold weather_label. repeat split.
    - now intros ->.
    - now intros -> ->.
    - now intros -> ->. }
  split.
  - eexists. split; [reflexivity|]. split; reflexivity.
  - eexists. split; [reflexivity|]. split; [|split]; reflexivity.
Qed.

(** C5: on a daily table that has the columns read, the alerts table holds,
    row by row, [heat_alert_flag] 1 exactly when [temp_max] exceeds 35,
    [storm_flag] 1 exactly when [wind_speed_max] exceeds 50,
    [rain_alert_flag] 1 exactly when [precip_total] exceeds 20, and a
    [risk_level] computed from the storm and rain flags alone: high when the
    storm flag is set, else moderate when the rain flag is set, else low; wind
    60, precipitation 5, temperature 10 give storm 1, rain 0, high. *)
Theorem alerts_flags_and_risk (df : frame) time location tmax wind precip (w : world) :
  getitem df "time" = Ok time -> getitem df "location" = Ok location ->
  float_col df "temp_max" = Ok tmax ->
  float_col df "wind_speed_max" = Ok wind ->
  float_col df "precip_total" = Ok precip ->
  fst (build_alerts wall df w)
  = Ok (alerts_table time location tmax wind precip (wall (ticks w)))
  /\ (forall i t wv pv,
        nth_error tmax i = Some t -> nth_error wind i = Some wv ->
        nth_error precip i = Some pv ->
        nth_error (map heat_alert_flag tmax) i = Some (heat_alert_flag t)
        /\ nth_error (map storm_flag wind) i = Some (storm_flag wv)
        /\ nth_error (map rain_alert_flag precip) i = Some (rain_alert_flag pv)
        /\ nth_error (map2 (fun s r => VStr (risk_level s r))
                          (map storm_flag wind) (map rain_alert_flag precip)) i
           = Some (VStr (risk_level (storm_flag wv) (rain_alert_flag pv))))
  /\ (forall x,
        (heat_alert_flag x = 1%Z <-> (35 <? x)%float = true)
        /\ (heat_alert_flag x = 0%Z <-> (35 <? x)%float = false)
        /\ (storm_flag x = 1%Z <-> (50 <? x)%float = true)
        /\ (storm_flag x = 0%Z <-> (50 <? x)%float = false)
        /\ (rain_alert_flag x = 1%Z <-> (20 <? x)%float = true)
        /\ (rain_alert_flag x = 0%Z <-> (20 <? x)%float = false))
  /\ (forall wv pv,
        (storm_flag wv = 1%Z ->
         risk_level (storm_flag wv) (rain_alert_flag pv) = "high"%string)
        /\ (storm_flag wv = 0%Z -> rain_alert_flag pv = 1%Z ->
            risk_level (storm_flag wv) (rain_alert_flag pv) = "moderate"%string)
        /\ (storm_flag wv = 0%Z -> rain_alert_flag pv = 0%Z ->
            risk_level (storm_flag wv) (rain_alert_flag pv) = "low"%string))
  /\ (storm_flag 60 = 1%Z /\ rain_alert_flag 5 = 0%Z /\ heat_alert_flag 10 = 0%Z
      /\ risk_level (storm_flag 60) (rain_alert_flag 5) = "high"%string).
Proof.
  intros H1 H2 H3 H4 H5.
  split; [now apply build_alerts_run|]. split; [|split; [|split]].
  - intros i t wv pv Ht Hw Hp.
    assert (Hs : nth_error (map storm_flag wind) i = Some (storm_flag wv))
      by now apply map_nth_error.
    assert (Hr : nth_error (map rain_alert_flag precip) i = Some (rain_alert_flag pv))
      by now apply map_nth_error.
    split; [now apply map_nth_error|]. split; [exact Hs|]. split; [exact Hr|].
    exact (nth_error_map2 _ _ _ i _ _ Hs Hr).
  - intros x. unfold heat_alert_flag, storm_flag, rain_alert_flag.
    destruct (35 <? x)%float, (50 <? x)%float, (20 <? x)%float;
      repeat split; intros; congruence.
  - intros wv pv. repeat split.
    + now intros ->.
    + now intros -> ->.
    + now intros -> ->.
  - repeat split.
Qed.

Lemma skipna_all_null (xs : list float) :
  Forall (eq nan) xs -> skipna xs = [].
Proof.
  induction 1 as [|x xs <- _ IH]; [reflexivity|]. simpl. exact IH.
Qed.

(** C10: a null metric never meets a threshold.  In the alerts table a row
    whose [temp_max], [wind_speed_max] or [precip_total] is null has
    [heat_alert_flag], [storm_flag] or [rain_alert_flag] 0, and a row whose
    wind and precipitation are both null has [risk_level] low; in the summary
    a row whose [avg_temp] is null, as it is for a group with no [temp_max]
    at all, has the label moderate. *)
Theorem null_metrics_never_alert (df : frame) time location tmax tmin wind precip
        (w : world) :
  getitem df "time" = Ok time -> getitem df "location" = Ok location ->
  float_col df "temp_max" = Ok tmax -> float_col df "temp_min" = Ok tmin ->
  float_col df "wind_speed_max" = Ok wind ->
  float_col df "precip_total" = Ok precip ->
  (exists heat storm rain risk,
     fst (build_alerts wall df w)
     = Ok [("date", time); ("location", location);
           ("heat_alert_flag", SInt heat); ("storm_flag", SInt storm);
           ("rain_alert_flag", SInt rain); ("risk_level", SObj risk);
           ("load_timestamp", STime (repeat (Some (wall (ticks w))) (slen time)))]
     /\ forall i,
         (nth_error tmax i = Some nan -> nth_error heat i = Some 0%Z)
         /\ (nth_error wind i = Some nan -> nth_error storm i = Some 0%Z)
         /\ (nth_error precip i = Some nan -> nth_error rain i = Some 0%Z)
         /\ (nth_error wind i = Some nan -> nth_error precip i = Some nan ->
             nth_error risk i = Some (VStr "low")))
  /\ (forall times locations,
        time_keys df = Ok times -> location_keys df = Ok locations ->
        exists s avg labels,
          fst (build_daily_summary wall df w) = Ok s
          /\ float_col s "avg_temp" = Ok avg
          /\ getitem s "weather_label" = Ok (SObj labels)
          /\ forall i, nth_error avg i = Some nan ->
                       nth_error labels i = Some (VStr "moderate"))
  /\ (forall ms, Forall (fun m => nan = m_temp_max m) ms ->
                 agg_mean (map m_temp_max ms) = nan).
Proof.
  intros H1 H2 H3 H4 H5 H6. split; [|split].
  - exists (map heat_alert_flag tmax), (map storm_flag wind),
      (map rain_alert_flag precip),
      (map2 (fun s r => VStr (risk_level s r))
            (map storm_flag wind) (map rain_alert_flag precip)).
    split; [now apply build_alerts_run|].
    intros i. repeat split.
    + intros H. now rewrite (map_nth_error heat_alert_flag i tmax H).
    + intros H. now rewrite (map_nth_error storm_flag i wind H).
    + intros H. now rewrite (map_nth_error rain_alert_flag i precip H).
    + intros Hw Hp.
      rewrite (nth_error_map2 _ _ _ i _ _
                 (map_nth_error storm_flag i wind Hw)
                 (map_nth_error rain_alert_flag i precip Hp)).
      reflexivity.
  - intros times locations Ht Hl.
    set (gs := groupby (table_rows times locations tmax tmin precip wind)).
    exists (summary_table gs (wall (ticks w))),
      (map (fun g => agg_mean (map m_temp_max (snd g))) gs),
      (map (fun x => VStr (weather_label x))
           (map (fun g => agg_mean (map m_temp_max (snd g))) gs)).
    split; [now apply build_daily_summary_run|].
    split; [reflexivity|]. split; [reflexivity|].
    intros i H. now rewrite (map_nth_error _ i _ H).
  - intros ms Hall. unfold agg_mean. rewrite skipna_all_null; [reflexivity|].
    induction Hall as [|m ms Hm _ IH]; simpl; constructor; assumption.
Qed.

(** *** The frame of [build_features] *)

Lemma features_frame (df : frame) tmax tmin precip wind (t : Z) (c : string) :
  ~ In c derived ->
  select (features_table df tmax tmin precip wind t) c = select df c.
Proof.
  unfold derived. simpl. intros H. unfold features_table, with_derived. cbv zeta.
  rewrite !select_set_col_other; [reflexivity| | | |]; intros <-; tauto.
Qed.

Lemma features_labels (df : frame) tmax tmin precip wind (t : Z) (c : string) :
  In c (columns (features_table df tmax tmin precip wind t))
  <-> In c (columns df) \/ In c derived.
Proof.
  unfold features_table, with_derived, derived. cbv zeta. rewrite !In_columns_set_col.
  simpl. intuition.
Qed.

Lemma with_derived_rows (df : frame) tmax tmin precip wind :
  List.length tmax = nrows df -> List.length tmin = nrows df ->
  List.length precip = nrows df -> List.length wind = nrows df ->
  nrows (with_derived df tmax tmin precip wind) = nrows df.
Proof.
  intros H1 H2 H3 H4. unfold with_derived. cbv zeta.
  set (df1 := set_col df "temperature_range" _).
  assert (E1 : nrows df1 = nrows df).
  { apply nrows_set_col. simpl. rewrite map2_length; congruence. }
  set (df2 := set_col df1 "humidity_index" _).
  assert (E2 : nrows df2 = nrows df).
  { unfold df2. rewrite nrows_set_col; [exact E1|].
    simpl. rewrite map2_length; congruence. }
  rewrite nrows_set_col; [exact E2|].
  simpl. rewrite map2_length; congruence.
Qed.

Lemma features_rows (df : frame) tmax tmin precip wind (t : Z) :
  List.length tmax = nrows df -> List.length tmin = nrows df ->
  List.length precip = nrows df -> List.length wind = nrows df ->
  nrows (features_table df tmax tmin precip wind t) = nrows df.
Proof.
  intros H1 H2 H3 H4. unfold features_table. cbv zeta.
  rewrite nrows_set_col; [now apply with_derived_rows|].
  unfold broadcast_time. simpl. now rewrite repeat_length.
Qed.

Lemma features_values (df : frame) tmax tmin precip wind (t : Z) :
  let out := features_table df tmax tmin precip wind t in
  (select out "temperature_range" <> []
   /\ Forall (eq (SFloat (map2 PrimFloat.sub tmax tmin)))
             (select out "temperature_range"))
  /\ (select out "humidity_index" <> []
      /\ Forall (eq (SFloat (map2 (fun a p => a * 0.1 + p * 0.5)%float tmax precip)))
                (select out "humidity_index"))
  /\ (select out "wind_chill" <> []
      /\ Forall (eq (SFloat (map2 (fun a x => a - x * 0.1)%float tmin wind)))
                (select out "wind_chill"))
  /\ (select out "load_timestamp" <> []
      /\ exists n, Forall (eq (STime (repeat (Some t) n))) (select out "load_timestamp")).
Proof.
  unfold features_table, with_derived. cbv zeta.
  repeat split.
  - rewrite !select_set_col_other by discriminate. apply select_set_col_same.
  - rewrite !select_set_col_other by discriminate. apply select_set_col_same.
  - rewrite !select_set_col_other by discriminate. apply select_set_col_same.
  - rewrite !select_set_col_other by discriminate. apply select_set_col_same.
  - rewrite !select_set_col_other by discriminate. apply select_set_col_same.
  - rewrite !select_set_col_other by discriminate. apply select_set_col_same.
  - apply select_set_col_same.
  - eexists. unfold broadcast_time. apply select_set_col_same.
Qed.

Lemma features_columns_conformed (df : frame) tmax tmin precip wind (t : Z) :
  ~ In "temperature_range" (columns df) -> ~ In "humidity_index" (columns df) ->
  ~ In "wind_chill" (columns df) -> In "load_timestamp" (columns df) ->
  columns (features_table df tmax tmin precip wind t)
  = columns df ++ ["temperature_range"; "humidity_index"; "wind_chill"].
Proof.
  intros H1 H2 H3 H4. unfold features_table, with_derived. cbv zeta.
  rewrite !columns_set_col.
  apply has_col_false in H1. rewrite H1.
  assert (E2 : has_col (set_col df "temperature_range"
                          (SFloat (map2 PrimFloat.sub tmax tmin)))
                 "humidity_index" = false).
  { apply has_col_false. rewrite In_columns_set_col. intros [H|H]; [tauto|discriminate]. }
  rewrite E2.
  match goal with |- context [has_col ?d "wind_chill"] =>
    assert (E3 : has_col d "wind_chill" = false)
  end.
  { apply has_col_false. rewrite !In_columns_set_col.
    intros [[H|H]|H]; [tauto|discriminate|discriminate]. }
  rewrite E3.
  match goal with |- context [has_col ?d "load_timestamp"] =>
    assert (E4 : has_col d "load_timestamp" = true)
  end.
  { apply has_col_In. rewrite !In_columns_set_col. tauto. }
  rewrite E4. now rewrite <- !app_assoc.
Qed.

(** C6 (amended): on a well-formed daily table that has the four metric
    columns, the features table has the rows of the input; every input
    column other than [load_timestamp] (and than a column already named as
    one of the three derived ones) is unchanged; the three derived columns
    hold [temp_max - temp_min], [temp_max * 0.1 + precip_total * 0.5] and
    [temp_min - wind_speed_max * 0.1]; the [load_timestamp] column is set to
    the clock reading of the call; on a conformed table, which has a
    [load_timestamp] already, the labels are those of the input followed by
    the three derived ones; 30, 20 and wind 10 give range 10 and chill 19. *)
Theorem features_frame_and_values (df : frame) tmax tmin precip wind (w : world) :
  wf df ->
  float_col df "temp_max" = Ok tmax -> float_col df "temp_min" = Ok tmin ->
  float_col df "precip_total" = Ok precip -> float_col df "wind_speed_max" = Ok wind ->
  exists out,
    fst (build_features wall df w) = Ok out
    /\ nrows out = nrows df
    /\ (forall c, ~ In c derived -> select out c = select df c)
    /\ (forall c, In c (columns out) <-> In c (columns df) \/ In c derived)
    /\ (select out "temperature_range" <> []
        /\ Forall (eq (SFloat (map2 PrimFloat.sub tmax tmin)))
                  (select out "temperature_range"))
    /\ (select out "humidity_index" <> []
        /\ Forall (eq (SFloat (map2 (fun a p => a * 0.1 + p * 0.5)%float tmax precip)))
                  (select out "humidity_index"))
    /\ (select out "wind_chill" <> []
        /\ Forall (eq (SFloat (map2 (fun a x => a - x * 0.1)%float tmin wind)))
                  (select out "wind_chill"))
    /\ (select out "load_timestamp" <> []
        /\ Forall (eq (STime (repeat (Some (wall (ticks w))) (nrows df))))
                  (select out "load_timestamp"))
    /\ (~ In "temperature_range" (columns df) -> ~ In "humidity_index" (columns df) ->
        ~ In "wind_chill" (columns df) -> In "load_timestamp" (columns df) ->
        columns out = columns df ++ ["temperature_range"; "humidity_index"; "wind_chill"])
    /\ ((30 - 20)%float = 10%float /\ (20 - 10 * 0.1)%float = 19%float).
Proof.
  intros Hwf H1 H2 H3 H4.
  pose proof (float_col_length df _ _ Hwf H1) as L1.
  pose proof (float_col_length df _ _ Hwf H2) as L2.
  pose proof (float_col_length df _ _ Hwf H3) as L3.
  pose proof (float_col_length df _ _ Hwf H4) as L4.
  exists (features_table df tmax tmin precip wind (wall (ticks w))).
  destruct (features_values df tmax tmin precip wind (wall (ticks w)))
    as (V1 & V2 & V3 & V4 & _).
  split; [now apply build_features_run|].
  split; [now apply features_rows|].
  split; [intros c; apply features_frame|].
  split; [intros c; apply features_labels|].
  split; [exact V1|]. split; [exact V2|]. split; [exact V3|].
  split; [split; [exact V4|]|].
  - unfold features_table. cbv zeta. unfold broadcast_time.
    rewrite <- (with_derived_rows df tmax tmin precip wind L1 L2 L3 L4) at 1.
    apply select_set_col_same.
  - split; [apply features_columns_conformed|]. split; reflexivity.
Qed.

End Builders.

(** *** The runner *)

Section Runner.

Variable wall : nat -> Z.
Variable strftime : Z -> string.

Set Default Proof Using "Type".

Definition skipped (w : world) : world :=
  {| log := log w ++ [(WARNING, "No Silver DAILY files found. Gold layer skipped."%string)];
     stdout := stdout w; ticks := ticks w; attempts := attempts w; fs := fs w |}.

(** C7 (amended): when the conformed-daily folder holds no artifact, curation
    is skipped entirely: the run returns normally, logs a warning, reads no
    clock and writes no file; and conformance never puts an empty daily table
    into that folder. *)
Theorem curation_skipped_without_daily_files (w : world) :
  glob SILVER_DAILY ".parquet" (fs w) = [] ->
  process_gold wall strftime w = (Ok tt, skipped w)
  /\ fs (snd (process_gold wall strftime w)) = fs w
  /\ ticks (snd (process_gold wall strftime w)) = ticks w
  /\ (forall df location w0,
        empty df = true ->
        Silver.save_unless_empty wall strftime df Silver.SILVER_DAILY "daily" location w0
        = (Ok tt, w0)).
Proof.
  intros H.
  assert (E : process_gold wall strftime w = (Ok tt, skipped w)).
  { unfold process_gold, bind, load_silver, list_dir. now rewrite H. }
  rewrite E. repeat split.
  intros df location w0 He. unfold Silver.save_unless_empty. now rewrite He.
Qed.

End Runner.

(** *** Sample tables *)

Definition storm_day : frame :=
  [("time", STime [Some 1717200000000000000%Z]);
   ("temp_max", SFloat [10%float]);
   ("temp_min", SFloat [4%float]);
   ("wind_speed_max", SFloat [60%float]);
   ("precip_total", SFloat [5%float]);
   ("location", SObj [VStr "berlin"]);
   ("load_timestamp", STime [Some 1717243200000000%Z])].

Definition silent_day : frame :=
  [("time", STime [Some 1717200000000000000%Z]);
   ("temp_max", SFloat [nan]);
   ("temp_min", SFloat [nan]);
   ("wind_speed_max", SFloat [nan]);
   ("precip_total", SFloat [nan]);
   ("location", SObj [VStr "berlin"]);
   ("load_timestamp", STime [Some 1717243200000000%Z])].

Definition mild_day : frame :=
  [("time", STime [Some 1717200000000000000%Z]);
   ("temp_max", SFloat [30%float]);
   ("temp_min", SFloat [20%float]);
   ("wind_speed_max", SFloat [10%float]);
   ("precip_total", SFloat [5%float]);
   ("location", SObj [VStr "berlin"]);
   ("load_timestamp", STime [Some 1717243200000000%Z])].

Definition zero_rows : frame :=
  [("time", STime []);
   ("temp_max", SFloat []);
   ("temp_min", SFloat []);
   ("wind_speed_max", SFloat []);
   ("precip_total", SFloat []);
   ("location", SObj []);
   ("load_timestamp", STime [])].

Definition start : world :=
  {| log := []; stdout := []; ticks := 0; attempts := 0; fs := [] |}.

(** A store whose conformed-daily folder holds one table without rows. *)
Definition shelf : world :=
  {| log := []; stdout := []; ticks := 0; attempts := 0;
     fs := [("data_lake/silver/daily/berlin_daily_20240601_120000.parquet"%string,
             FParquet zero_rows)] |}.

Definition noon : nat -> Z := fun _ => 1717243200000000%Z.
Definition stamp : Z -> string := fun _ => "20240601_120000"%string.

(** A clock that moves on by one between readings. *)
Definition ticking : nat -> Z := fun n => (1717243200000000 + Z.of_nat n)%Z.

Lemma daily_summary_by_group_witness :
  exists keys : list key,
    Sorted.StronglySorted key_lt keys
    /\ (forall k,
          In k keys
          <-> In (Some k)
                 [Some (1717200000000000000%Z, "berlin"%string);
                  Some (1717200000000000000%Z, "berlin"%string)])
    /\ List.length keys = 1%nat
    /\ fst (build_daily_summary noon two_readings start)
       = Ok [("time", STime [Some 1717200000000000000%Z]);
             ("location", SObj [VStr "berlin"]);
             ("avg_temp", SFloat [30%float]);
             ("max_temp", SFloat [40%float]);
             ("min_temp", SFloat [12%float]);
             ("total_precip", SFloat [3%float]);
             ("max_wind_speed", SFloat [20%float]);
             ("weather_label", SObj [VStr "moderate"]);
             ("load_timestamp", STime [Some 1717243200000000%Z])].
Proof.
  destruct (daily_summary_by_group noon two_readings
              [Some 1717200000000000000%Z; Some 1717200000000000000%Z]
              [Some "berlin"%string; Some "berlin"%string]
              [40%float; 20%float] [25%float; 12%float] [0%float; 3%float]
              [10%float; 20%float] start
              eq_refl eq_refl eq_refl eq_refl eq_refl eq_refl)
    as ((keys & Hs & Hk & _ & H) & _).
  exists keys. split; [exact Hs|]. split; [exact Hk|].
  assert (E : map (fun k : key => Some (fst k)) keys = [Some 1717200000000000000%Z]).
  { change (fst (build_daily_summary noon two_readings start))
      with (Ok [("time", STime [Some 1717200000000000000%Z]);
                ("location", SObj [VStr "berlin"]);
                ("avg_temp", SFloat [30%float]);
                ("max_temp", SFloat [40%float]);
                ("min_temp", SFloat [12%float]);
                ("total_precip", SFloat [3%float]);
                ("max_wind_speed", SFloat [20%float]);
                ("weather_label", SObj [VStr "moderate"]);
                ("load_timestamp", STime [Some 1717243200000000%Z])]) in H.
    injection H as H _. symmetry. exact H. }
  split; [|reflexivity].
  apply (f_equal (@List.length _)) in E. rewrite length_map in E. exact E.
Defined.

Lemma alerts_flags_and_risk_witness :
  fst (build_alerts noon storm_day start)
  = Ok [("date", STime [Some 1717200000000000000%Z]);
        ("location", SObj [VStr "berlin"]);
        ("heat_alert_flag", SInt [0%Z]);
        ("storm_flag", SInt [1%Z]);
        ("rain_alert_flag", SInt [0%Z]);
        ("risk_level", SObj [VStr "high"]);
        ("load_timestamp", STime [Some 1717243200000000%Z])].
Proof.
  destruct (alerts_flags_and_risk noon storm_day
              (STime [Some 1717200000000000000%Z]) (SObj [VStr "berlin"])
              [10%float] [60%float] [5%float] start
              eq_refl eq_refl eq_refl eq_refl eq_refl) as (H & _).
  rewrite H. reflexivity.
Defined.

Lemma null_metrics_never_alert_witness :
  exists heat storm rain risk,
    fst (build_alerts noon silent_day start)
    = Ok [("date", STime [Some 1717200000000000000%Z]);
          ("location", SObj [VStr "berlin"]);
          ("heat_alert_flag", SInt heat); ("storm_flag", SInt storm);
          ("rain_alert_flag", SInt rain); ("risk_level", SObj risk);
          ("load_timestamp", STime [Some 1717243200000000%Z])]
    /\ nth_error heat 0 = Some 0%Z /\ nth_error storm 0 = Some 0%Z
    /\ nth_error rain 0 = Some 0%Z /\ nth_error risk 0 = Some (VStr "low").
Proof.
  destruct (null_metrics_never_alert noon silent_day
              (STime [Some 1717200000000000000%Z]) (SObj [VStr "berlin"])
              [nan] [nan] [nan] [nan] start
              eq_refl eq_refl eq_refl eq_refl eq_refl eq_refl)
    as ((heat & storm & rain & risk & Hrun & Hrow) & _).
  exists heat, storm, rain, risk.
  destruct (Hrow 0%nat) as (Hh & Hs & Hr & Hk).
  split; [exact Hrun|]. split; [now apply Hh|]. split; [now apply Hs|].
  split; [now apply Hr | now apply Hk].
Defined.

Lemma mild_day_wf : wf mild_day.
Proof. unfold wf, mild_day. repeat constructor. Qed.

Lemma features_frame_and_values_witness :
  exists out,
    fst (build_features noon mild_day start) = Ok out
    /\ select out "temperature_range" <> []
    /\ Forall (eq (SFloat [10%float])) (select out "temperature_range")
    /\ select out "wind_chill" <> []
    /\ Forall (eq (SFloat [19%float])) (select out "wind_chill")
    /\ select out "temp_max" = [SFloat [30%float]].
Proof.
  destruct (features_frame_and_values noon mild_day
              [30%float] [20%float] [5%float] [10%float] start
              mild_day_wf eq_refl eq_refl eq_refl eq_refl)
    as (out & Hrun & _ & Hframe & _ & (R1 & R2) & _ & (C1 & C2) & _).
  exists out. split; [exact Hrun|]. split; [exact R1|]. split; [exact R2|].
  split; [exact C1|]. split; [exact C2|].
  rewrite Hframe; [reflexivity|].
  unfold derived. simpl. intuition discriminate.
Defined.

Lemma curation_skipped_without_daily_files_witness :
  process_gold noon stamp start = (Ok tt, skipped start).
Proof.
  destruct (curation_skipped_without_daily_files noon stamp start eq_refl) as (H & _).
  exact H.
Defined.

(** C7, as stated, fails: a daily table without rows is not skipped; reading
    its first location raises. *)
Lemma empty_daily_table_raises :
  nrows zero_rows = 0%nat
  /\ fst (process_gold noon stamp shelf) = Raise IndexError.
Proof. split; reflexivity. Qed.

(** C6, as stated, fails: the conformed daily table already has a
    [load_timestamp] column, and the features table does not keep its
    values. *)
Lemma features_replace_load_timestamp :
  match Silver.transform_daily ticking SilverFacts.no_number SilverFacts.june_first
          SilverFacts.no_epoch (JObj SilverFacts.sample) "berlin" start with
  | (Ok df, w1) =>
      match fst (build_features ticking df w1) with
      | Ok out =>
          select df "load_timestamp" = [STime [Some 1717243200000000%Z]]
          /\ select out "load_timestamp" = [STime [Some 1717243200000001%Z]]
          /\ select out "load_timestamp" <> select df "load_timestamp"
          /\ List.length (columns out) = (List.length (columns df) + 3)%nat
      | Raise _ => False
      end
  | (Raise _, _) => False
  end.
Proof.
  vm_compute. split; [reflexivity|]. split; [reflexivity|].
  split; [discriminate | reflexivity].
Qed.

End GoldFacts.

(** ** From conformance to curation *)

Module PipelineFacts.

Import Frame Runtime FrameFacts SilverFacts.
Local Open Scope list_scope.

Lemma wf_set_col (df : frame) (c : string) (s : series) :
  wf df -> slen s = nrows df -> wf (set_col df c s).
Proof.
  unfold wf. intros Hwf Hs. rewrite (nrows_set_col df c s Hs).
  unfold set_col. destruct (has_col df c).
  - apply Forall_forall. intros p Hin. apply in_map_iff in Hin.
    destruct Hin as [q [<- Hq]]. rewrite Forall_forall in Hwf.
    destruct (String.eqb c (fst q)); [exact Hs | now apply Hwf].
  - apply Forall_app. split; [exact Hwf|]. constructor; [exact Hs | constructor].
Qed.

Lemma distinct_set_col (df : frame) (c : string) (s : series) :
  NoDup (columns df) -> NoDup (columns (set_col df c s)).
Proof.
  intros Hnd. rewrite columns_set_col. destruct (has_col df c) eqn:Hh; [exact Hnd|].
  apply has_col_false in Hh. apply NoDup_app; [exact Hnd | | ].
  - constructor; [simpl; tauto | constructor].
  - intros x Hx [<-|[]]. contradiction.
Qed.

Lemma select_single (df : frame) (c : string) (s : series) :
  NoDup (columns df) -> select df c <> [] -> Forall (eq s) (select df c) ->
  select df c = [s].
Proof.
  intros Hnd Hne Hall.
  pose proof (occurrences_distinct c _ Hnd) as Hle. rewrite <- select_length in Hle.
  destruct (select df c) as [|s0 [|s1 rest]]; simpl in Hle; [congruence| |lia].
  inversion Hall; subst. reflexivity.
Qed.

Lemma strings_repeat (location : string) (n : nat) :
  Gold.strings (repeat (VStr location) n) = Ok (repeat (Some location) n).
Proof. induction n as [|n IH]; simpl; [reflexivity|]. now rewrite IH. Qed.

Lemma longest_bound (section : list (string * list scalar)) (k : string)
      (vs : list scalar) :
  In (k, vs) section -> (List.length vs <= Silver.longest section)%nat.
Proof.
  unfold Silver.longest. induction section as [|[k0 v0] section IH]; simpl; [tauto|].
  intros [Heq|Hin].
  - injection Heq as -> ->. lia.
  - specialize (IH Hin). lia.
Qed.

Lemma pad_length (n : nat) (vs : list scalar) :
  (List.length vs <= n)%nat -> List.length (Silver.pad n vs) = n.
Proof. intros H. unfold Silver.pad. rewrite length_app, repeat_length. lia. Qed.

Section Handover.

Variable parse_float : string -> option float.
Variable parse_time : Silver.time_reader.
Variable epoch_ns : float -> option Z.

Set Default Proof Using "Type".

Local Abbreviation cells := (series_cells parse_float parse_time epoch_ns).

Lemma typed_section_wf (section : list (string * list scalar)) :
  wf (map (cells (Silver.longest section)) (renamed section)).
Proof.
  unfold wf.
  assert (Hlen : forall p, In p (map (cells (Silver.longest section)) (renamed section)) ->
                           slen (snd p) = Silver.longest section).
  { intros p Hin. apply in_map_iff in Hin. destruct Hin as [[k vs] [<- Hin]].
    unfold renamed in Hin. apply in_map_iff in Hin.
    destruct Hin as [[k0 v0] [Heq Hin]]. injection Heq as <- <-.
    pose proof (longest_bound section k0 v0 Hin) as Hb.
    unfold series_cells. simpl.
    destruct (String.eqb _ "time"); simpl;
      [rewrite to_time_cells_length | rewrite length_map]; now apply pad_length. }
  apply Forall_forall. intros p Hin. rewrite (Hlen p Hin).
  destruct (map _ (renamed section)) as [|[c0 s0] rest] eqn:E; [destruct Hin|].
  simpl. symmetry. apply (Hlen (c0, s0)). now left.
Qed.

(** The daily table that conformance hands over has what curation reads:
    columns of one length, a [location] column of strings, a [time] column
    of instants when the section has times, and a float64 column under each
    new label whose source key the section has. *)
Lemma conformed_daily_feeds_curation
      (section : list (string * list scalar)) (location : string) (t : Z) :
  NoDup (map fst (renamed section)) ->
  let df := with_metadata (map (cells (Silver.longest section)) (renamed section))
              location t in
  wf df
  /\ Gold.location_keys df = Ok (repeat (Some location) (nrows df))
  /\ (forall vs, In ("time"%string, vs) section ->
        Gold.time_keys df
        = Ok (Silver.to_time_cells parse_time epoch_ns
                (Silver.pad (Silver.longest section) vs)))
  /\ (forall k k' vs, In (k, k') Silver.daily_names -> In (k, vs) section ->
        float_col df k'
        = Ok (map (Silver.float_or_nan parse_float)
                  (Silver.pad (Silver.longest section) vs))).
Proof.
  intros Hnd df.
  set (core := map (cells (Silver.longest section)) (renamed section)) in *.
  assert (Hcore : NoDup (columns core)).
  { unfold core, columns. rewrite map_map.
    erewrite map_ext; [exact Hnd|]. intros [k0 v0].
    unfold series_cells. simpl. now destruct (String.eqb _ "time"). }
  assert (Hin : forall k vs, In (k, vs) section ->
            In (cells (Silver.longest section) (new_name k, vs)) core).
  { intros k vs H. unfold core. apply in_map. unfold renamed.
    apply in_map_iff. now exists (k, vs). }
  destruct (with_metadata_stamped core location t) as ((_ & Hloc & _ & _) & Hrows).
  fold df in Hloc, Hrows.
  split; [|split; [|split]].
  - unfold df, with_metadata. cbv zeta.
    assert (H1 : wf (set_col core "location" (broadcast_obj core (VStr location)))).
    { apply wf_set_col; [apply typed_section_wf|].
      unfold broadcast_obj. simpl. apply repeat_length. }
    apply wf_set_col; [exact H1|]. unfold broadcast_time. simpl. apply repeat_length.
  - assert (Hd : NoDup (columns df)).
    { unfold df, with_metadata. cbv zeta. now do 2 apply distinct_set_col. }
    assert (Hne : select df "location" <> []).
    { unfold df, with_metadata. cbv zeta.
      rewrite select_set_col_other by discriminate. apply select_set_col_same. }
    unfold Gold.location_keys.
    rewrite (select_single df "location" _ Hd Hne Hloc). apply strings_repeat.
  - intros vs Hvs. unfold Gold.time_keys, df, with_metadata. cbv zeta.
    rewrite !select_set_col_other by discriminate.
    rewrite (select_In core "time" _ Hcore (Hin "time"%string vs Hvs)). reflexivity.
  - intros k k' vs Hk Hvs.
    assert (Hn : new_name k = k').
    { unfold new_name. rewrite (lookup_In k k' Silver.daily_names); [reflexivity| |exact Hk].
      unfold Silver.daily_names. simpl.
      repeat (constructor; [simpl; intuition discriminate|]). constructor. }
    assert (Hk' : k' <> "time"%string /\ k' <> "location"%string
                  /\ k' <> "load_timestamp"%string).
    { unfold Silver.daily_names in Hk. simpl in Hk.
      destruct Hk as [H|[H|[H|[H|[]]]]]; injection H as <- <-;
        repeat split; discriminate. }
    destruct Hk' as (Ht' & Hl' & Hs').
    unfold df. rewrite float_col_with_metadata by assumption.
    apply float_col_In; [exact Hcore|].
    specialize (Hin k vs Hvs). rewrite Hn in Hin.
    unfold series_cells in Hin. simpl in Hin.
    apply String.eqb_neq in Ht'. now rewrite Ht' in Hin.
Qed.

End Handover.

End PipelineFacts.

(** ** File names *)

Module NameFacts.

Import Frame Runtime.
Local Open Scope list_scope.

Fixpoint all_safe (s : string) : bool :=
  match s with
  | EmptyString => true
  | String c rest => safe_char c && all_safe rest
  end.

(** A byte in the middle of a UTF-8 sequence. *)
Definition continuation (c : ascii) : bool :=
  let n := nat_of_ascii c in (128 <=? n)%nat && (n <? 192)%nat.

(** The number of code points of a text, which is its length in Python. *)
Fixpoint code_points (s : string) : nat :=
  match s with
  | EmptyString => 0
  | String c rest => (if continuation c then 0 else 1) + code_points rest
  end.

Lemma code_points_length (s : string) : (code_points s <= String.length s)%nat.
Proof.
  induction s as [|c s IH]; simpl; [lia|]. destruct (continuation c); lia.
Qed.

Lemma by_length (P : string -> Prop) :
  (forall s, (forall t, (String.length t < String.length s)%nat -> P t) -> P s) ->
  forall s, P s.
Proof.
  intros step s.
  assert (H : forall n t, (String.length t < n)%nat -> P t).
  { induction n as [|n IH]; intros t Ht; [lia|].
    apply step. intros u Hu. apply IH. lia. }
  apply (H (S (String.length s))). lia.
Qed.

(** A character of the safe class is neither a blank nor upper case. *)
Lemma safe_char_fixed (c : ascii) :
  safe_char c = true ->
  (if (nat_of_ascii c =? 32)%nat then "_"%char else lower c) = c.
Proof.
  destruct c as [[|] [|] [|] [|] [|] [|] [|] [|]]; intros H;
    first [reflexivity | discriminate H].
Qed.

(** A character of the safe class starts neither of the two sequences that
    [str.lower] turns into an ASCII letter. *)
Lemma safe_char_plain (c : ascii) :
  safe_char c = true ->
  (forall d, dotted_capital_i c d = false) /\ (forall d e, kelvin_sign c d e = false).
Proof.
  destruct c as [[|] [|] [|] [|] [|] [|] [|] [|]]; intros H;
    first [discriminate H | split; reflexivity].
Qed.

(** A byte that ends up in the sanitised text starts a code point. *)
Lemma kept_starts_code_point (c : ascii) :
  safe_char (if (nat_of_ascii c =? 32)%nat then "_"%char else lower c) = true ->
  continuation c = false.
Proof.
  destruct c as [[|] [|] [|] [|] [|] [|] [|] [|]]; intros H;
    first [reflexivity | discriminate H].
Qed.

Lemma dotted_capital_i_bytes (c d : ascii) :
  dotted_capital_i c d = true -> continuation c = false.
Proof.
  unfold dotted_capital_i. intros H. apply andb_true_iff in H as [H _].
  apply Nat.eqb_eq in H. unfold continuation. rewrite H. reflexivity.
Qed.

Lemma kelvin_sign_bytes (c d e : ascii) :
  kelvin_sign c d e = true -> continuation c = false.
Proof.
  unfold kelvin_sign. intros H. apply andb_true_iff in H as [H _].
  apply andb_true_iff in H as [H _].
  apply Nat.eqb_eq in H. unfold continuation. rewrite H. reflexivity.
Qed.

Lemma sanitize_step (c : ascii) (rest : string) :
  sanitize (String c rest)
  = let c' := if (nat_of_ascii c =? 32)%nat then "_"%char else lower c in
    let plain := if safe_char c' then String c' (sanitize rest) else sanitize rest in
    match rest with
    | String d rest' =>
        if dotted_capital_i c d then String "i" (sanitize rest')
        else match rest' with
             | String e rest'' =>
                 if kelvin_sign c d e then String "k" (sanitize rest'') else plain
             | EmptyString => plain
             end
    | EmptyString => plain
    end.
Proof. reflexivity. Qed.

(** The three ways in which the sanitiser consumes the head of a text. *)
Lemma sanitize_cases (c : ascii) (rest : string) :
  (exists d rest', rest = String d rest' /\ dotted_capital_i c d = true
                   /\ sanitize (String c rest) = String "i" (sanitize rest'))
  \/ (exists d e rest'', rest = String d (String e rest'') /\ kelvin_sign c d e = true
                         /\ sanitize (String c rest) = String "k" (sanitize rest''))
  \/ sanitize (String c rest)
     = (if safe_char (if (nat_of_ascii c =? 32)%nat then "_"%char else lower c)
        then String (if (nat_of_ascii c =? 32)%nat then "_"%char else lower c)
                    (sanitize rest)
        else sanitize rest).
Proof.
  rewrite sanitize_step. cbv zeta.
  destruct rest as [|d rest']; [now right; right|].
  destruct (dotted_capital_i c d) eqn:Ei.
  - left. exists d, rest'. split; [reflexivity|]. split; [exact Ei | reflexivity].
  - right. destruct rest' as [|e rest'']; [now right|].
    destruct (kelvin_sign c d e) eqn:Ek.
    + left. exists d, e, rest''. split; [reflexivity|]. split; [exact Ek | reflexivity].
    + now right.
Qed.

Lemma sanitize_all_safe (s : string) : all_safe (sanitize s) = true.
Proof.
  induction s as [s IH] using by_length.
  destruct s as [|c rest]; [reflexivity|].
  destruct (sanitize_cases c rest)
    as [(d & rest' & -> & _ & ->)|[(d & e & rest'' & -> & _ & ->)| ->]].
  - cbn [all_safe]. rewrite IH by (simpl; lia). reflexivity.
  - cbn [all_safe]. rewrite IH by (simpl; lia). reflexivity.
  - destruct (safe_char _) eqn:E; [|apply IH; simpl; lia].
    cbn [all_safe]. rewrite E. apply IH. simpl. lia.
Qed.

Lemma sanitize_safe_fixed (s : string) : all_safe s = true -> sanitize s = s.
Proof.
  induction s as [|c s IH]; [reflexivity|]. cbn [all_safe]. intros H.
  apply andb_true_iff in H as [Hc Hs].
  destruct (safe_char_plain c Hc) as [Hi Hk].
  destruct (sanitize_cases c s)
    as [(d & rest' & _ & E & _)|[(d & e & rest'' & _ & E & _)| ->]].
  - now rewrite Hi in E.
  - now rewrite Hk in E.
  - rewrite (safe_char_fixed c Hc), Hc. now rewrite IH.
Qed.

Lemma sanitize_code_points (s : string) :
  (String.length (sanitize s) <= code_points s)%nat.
Proof.
  induction s as [s IH] using by_length.
  destruct s as [|c rest]; [simpl; lia|].
  destruct (sanitize_cases c rest)
    as [(d & rest' & -> & E & ->)|[(d & e & rest'' & -> & E & ->)| ->]].
  - cbn [code_points String.length]. rewrite (dotted_capital_i_bytes c d E).
    assert (H := IH rest'). cbn [String.length] in H.
    specialize (H ltac:(lia)). destruct (continuation d); lia.
  - cbn [code_points String.length]. rewrite (kelvin_sign_bytes c d e E).
    assert (H := IH rest''). cbn [String.length] in H.
    specialize (H ltac:(lia)). destruct (continuation d), (continuation e); lia.
  - assert (H := IH rest). cbn [String.length] in H. specialize (H ltac:(lia)).
    cbn [code_points]. destruct (safe_char _) eqn:E.
    + rewrite (kept_starts_code_point c E). cbn [String.length]. lia.
    + destruct (continuation c); lia.
Qed.

Lemma sanitize_length (s : string) :
  (String.length (sanitize s) <= String.length s)%nat.
Proof.
  pose proof (sanitize_code_points s). pose proof (code_points_length s). lia.
Qed.

(** Istanbul with a dotted capital I, and a temperature in kelvin written
    with the Kelvin sign, as their UTF-8 bytes. *)
Definition dotted_istanbul : string :=
  String "196" (String "176" "stanbul").
Definition kelvin_reading : string :=
  String "2" (String "226" (String "132" (String "170" ""))).

(** The sanitised name of the ingestion stage is made of lower-case
    letters, digits, [_] and [-] only; it has at most as many characters as
    the name has code points, hence at most as many as the name has bytes;
    and sanitising it again changes nothing.  The variant of the conformance
    stage gives a name of the same class; it agrees with the ingestion stage
    on every name but the empty one, which it turns into [location], so that
    it can lengthen a name; and sanitising its result again changes nothing
    unless that result is empty: [!] becomes the empty name, and that
    becomes [location].  Letters are lowered as Unicode text: a dotted
    capital I becomes [i] and the Kelvin sign [k]. *)
Theorem sanitize_filename_safe_and_idempotent (name : string) :
  all_safe (Ingest.sanitize_filename name) = true
  /\ (String.length (Ingest.sanitize_filename name) <= code_points name)%nat
  /\ (code_points name <= String.length name)%nat
  /\ Ingest.sanitize_filename (Ingest.sanitize_filename name)
     = Ingest.sanitize_filename name
  /\ all_safe (Silver._sanitize_filename name) = true
  /\ (name <> ""%string ->
      Silver._sanitize_filename name = Ingest.sanitize_filename name)
  /\ Silver._sanitize_filename "" = "location"%string
  /\ (Silver._sanitize_filename name <> ""%string ->
      Silver._sanitize_filename (Silver._sanitize_filename name)
      = Silver._sanitize_filename name)
  /\ Silver._sanitize_filename "!" = ""%string
  /\ Silver._sanitize_filename (Silver._sanitize_filename "!") = "location"%string
  /\ Ingest.sanitize_filename dotted_istanbul = "istanbul"%string
  /\ Ingest.sanitize_filename kelvin_reading = "2k"%string.
Proof.
  unfold Ingest.sanitize_filename.
  split; [apply sanitize_all_safe|]. split; [apply sanitize_code_points|].
  split; [apply code_points_length|].
  split; [apply sanitize_safe_fixed, sanitize_all_safe|].
  split; [apply sanitize_all_safe|].
  split; [intros Hne; unfold Silver._sanitize_filename;
          apply String.eqb_neq in Hne; now rewrite Hne|].
  split; [reflexivity|].
  split; [|repeat split; reflexivity].
  intros Hne. unfold Silver._sanitize_filename in *.
  destruct (String.eqb name "") eqn:E.
  - reflexivity.
  - destruct (String.eqb (sanitize name) "") eqn:E'.
    + apply String.eqb_eq in E'. contradiction.
    + apply sanitize_safe_fixed, sanitize_all_safe.
Qed.

Lemma sanitize_filename_safe_and_idempotent_witness :
  Silver._sanitize_filename "New York" = Ingest.sanitize_filename "New York"
  /\ Silver._sanitize_filename (Silver._sanitize_filename "New York")
     = Silver._sanitize_filename "New York".
Proof.
  destruct (sanitize_filename_safe_and_idempotent "New York")
    as (_ & _ & _ & _ & _ & H & _ & H' & _).
  split; [apply H | apply H']; discriminate.
Defined.

(** *** The location in a raw file name *)

Lemma prefix_append (s rest : string) : String.prefix s (s ++ rest) = true.
Proof.
  induction s as [|c s IH]; cbn [String.prefix String.append].
  - now destruct rest.
  - destruct (ascii_dec c c); [exact IH | congruence].
Qed.

Lemma before_step (sep s : string) :
  before sep s
  = if String.prefix sep s then EmptyString
    else match s with
         | EmptyString => EmptyString
         | String c s' => String c (before sep s')
         end.
Proof. destruct s; reflexivity. Qed.

Lemma before_raw_found (rest : string) : before "_raw_" ("_raw_" ++ rest) = ""%string.
Proof. now rewrite before_step, prefix_append. Qed.

Lemma prefix_raw_spans (c : ascii) (s rest : string) :
  String.prefix "_raw" (String c s) = false ->
  String.prefix "_raw_" (String c s ++ "_raw_" ++ rest) = false.
Proof.
  intros H.
  destruct s as [|c2 [|c3 [|c4 s5]]]; cbn [String.prefix String.append] in *;
    repeat match goal with
           | |- context [ascii_dec ?a ?b] =>
               destruct (ascii_dec a b); try discriminate; subst;
               cbn [String.prefix String.append] in *
           | H : context [ascii_dec ?a ?b] |- _ =>
               destruct (ascii_dec a b); try discriminate; subst;
               cbn [String.prefix String.append] in *
           end; try reflexivity; try discriminate; try congruence.
  destruct s5; discriminate.
Qed.

Lemma before_raw_recovers (s rest : string) :
  substr "_raw" s = false -> before "_raw_" (s ++ "_raw_" ++ rest) = s.
Proof.
  induction s as [|c s IH]; intros H.
  - apply before_raw_found.
  - cbn [substr] in H. apply orb_false_iff in H as [Hp Hs].
    rewrite before_step, (prefix_raw_spans c s rest Hp).
    remember ("_raw_" ++ rest)%string as tail eqn:Etail.
    cbn [String.append]. subst tail. now rewrite IH.
Qed.

Lemma strip_bronze_dir (name : string) :
  strip_prefix Silver.BRONZE_DIR (Ingest.BRONZE_DIR ++ name) = Some name.
Proof. reflexivity. Qed.

(** The conformance stage reads back, from the name of a raw file, the
    sanitised location under which the ingestion stage saved it, provided
    that sanitised location does not contain [_raw]. *)
Theorem raw_file_name_gives_location (strftime : Z -> string) (name : string) (t : Z) :
  substr "_raw" (sanitize name) = false ->
  exists file_name,
    strip_prefix Silver.BRONZE_DIR (Ingest.bronze_path strftime name t) = Some file_name
    /\ before "_raw_" file_name = Ingest.sanitize_filename name.
Proof.
  intros H. unfold Ingest.bronze_path.
  exists (Ingest.sanitize_filename name ++ "_raw_" ++ strftime t ++ ".json")%string.
  split; [apply strip_bronze_dir|].
  unfold Ingest.sanitize_filename. now apply before_raw_recovers.
Qed.

Lemma raw_file_name_gives_location_witness :
  exists file_name,
    strip_prefix Silver.BRONZE_DIR
      (Ingest.bronze_path (fun _ => "20240601_120000"%string) "New York" 0%Z)
    = Some file_name
    /\ before "_raw_" file_name = Ingest.sanitize_filename "New York".
Proof.
  apply (raw_file_name_gives_location (fun _ => "20240601_120000"%string) "New York" 0%Z).
  reflexivity.
Defined.

End NameFacts.

(** ** The retry loop, response by response *)

Module RetryFacts.

Import Fetch FetchFacts.
Local Open Scope list_scope.

Lemma urlopen_step (b : nat) (srv : server) (n : nat) :
  urlopen b (status_forcelist retry_strategy) srv n
  = if forced (srv n) || (negb (Nat.eqb b 0) && asks_to_wait (srv n))
    then match b with
         | O => (Raise RetryError, S n)
         | S remaining => urlopen remaining (status_forcelist retry_strategy) srv (S n)
         end
    else (Ok (srv n), S n).
Proof. rewrite <- is_retry_cases. destruct b; reflexivity. Qed.

(** The loop skips over responses whose status is forced to be retried, as
    long as the budget lasts. *)
Lemma urlopen_skips_forced (k : nat) : forall (b n : nat) (srv : server),
  (k <= b)%nat ->
  (forall i, (i < k)%nat -> forced (srv (n + i)%nat) = true) ->
  urlopen b (status_forcelist retry_strategy) srv n
  = urlopen (b - k) (status_forcelist retry_strategy) srv (n + k).
Proof.
  induction k as [|k IH]; intros b n srv Hle Hf.
  - now rewrite Nat.sub_0_r, Nat.add_0_r.
  - destruct b as [|b]; [lia|].
    rewrite urlopen_step.
    pose proof (Hf 0%nat ltac:(lia)) as H0. rewrite Nat.add_0_r in H0.
    rewrite H0. cbn [orb].
    rewrite (IH b (S n) srv); [|lia|].
    + f_equal. lia.
    + intros i Hi. specialize (Hf (S i) ltac:(lia)).
      now replace (S n + i)%nat with (n + S i)%nat by lia.
Qed.

Lemma urlopen_final (b n : nat) (srv : server) :
  forced (srv n) = false -> asks_to_wait (srv n) = false ->
  urlopen b (status_forcelist retry_strategy) srv n = (Ok (srv n), S n).
Proof.
  intros Hf Ha. rewrite urlopen_step, Hf, Ha, andb_false_r. reflexivity.
Qed.

Lemma urlopen_exhausted (n : nat) (srv : server) :
  forced (srv n) = true ->
  urlopen 0 (status_forcelist retry_strategy) srv n = (Raise RetryError, S n).
Proof.
  intros Hf. now rewrite urlopen_step, Hf.
Qed.

Lemma ok_not_retried (resp : response) :
  status_code resp = 200%Z -> forced resp = false /\ asks_to_wait resp = false.
Proof.
  intros H. unfold forced, asks_to_wait. rewrite H. simpl.
  now rewrite andb_false_r.
Qed.

(** Transient failures stay hidden from the caller: when the server answers
    the first [k] attempts, [k] at most five, with statuses of the retry list
    and the next one with 200 and a JSON body, the fetch returns that body
    after [k + 1] attempts.  When the first six answers are all of the retry
    list, the fetch fails with [RetryError] after six attempts, whatever the
    server would have answered later. *)
Theorem fetch_hides_transient_failures (loc : location) (ep : endpoint) :
  (forall k j,
     cached ep = None -> (k <= 5)%nat ->
     (forall i, (i < k)%nat -> forced (origin ep i) = true) ->
     status_code (origin ep k) = 200%Z -> body (origin ep k) = Some j ->
     fst (fst (fetch_raw_weather loc ep)) = Ok j
     /\ snd (fetch_raw_weather loc ep) = S k)
  /\ (cached ep = None ->
      (forall i, (i <= 5)%nat -> forced (origin ep i) = true) ->
      fst (fst (fetch_raw_weather loc ep)) = Raise RetryError
      /\ snd (fetch_raw_weather loc ep) = 6%nat).
Proof.
  split.
  - intros k j Hc Hk Hf Hs Hb.
    destruct (ok_not_retried _ Hs) as [Hn Ha].
    unfold fetch_raw_weather, session_get, send. rewrite Hc.
    change (total retry_strategy) with 5%nat.
    rewrite (urlopen_skips_forced k 5 0 (origin ep) Hk Hf).
    rewrite (urlopen_final (5 - k) (0 + k) (origin ep) Hn Ha).
    rewrite (resolve_redirects_none _ _ _ _ (ok_not_redirected _ Hs)).
    cbn [Nat.add]. rewrite Hs, Hb. cbn. split; reflexivity.
  - intros Hc Hf.
    unfold fetch_raw_weather, session_get, send. rewrite Hc.
    change (total retry_strategy) with 5%nat.
    rewrite (urlopen_skips_forced 5 5 0 (origin ep)); [|lia|].
    + rewrite urlopen_exhausted; [split; reflexivity|]. apply Hf. lia.
    + intros i Hi. apply Hf. simpl. lia.
Qed.

(** Two busy answers, then the payload. *)
Definition recovering : endpoint :=
  {| cached := None;
     origin := fun n =>
       if (n <? 2)%nat
       then {| status_code := 503; retry_after := false; body := None; moved_to := None |}
       else {| status_code := 200; retry_after := false;
               body := Some (JObj [("latitude", JAtom (VNum 52.52))]);
               moved_to := None |} |}.

Lemma fetch_hides_transient_failures_witness :
  fst (fst (fetch_raw_weather berlin recovering))
  = Ok (JObj [("latitude", JAtom (VNum 52.52))])
  /\ snd (fetch_raw_weather berlin recovering) = 3%nat.
Proof.
  destruct (fetch_hides_transient_failures berlin recovering) as [H _].
  apply (H 2%nat).
  - reflexivity.
  - lia.
  - intros [|[|i]] Hi; [reflexivity | reflexivity | lia].
  - reflexivity.
  - reflexivity.
Defined.

(** *** What a successful fetch returns *)

(** A fetch that returns a payload returns the parsed body of a response
    with status 200, after logging the location, whether the cache served
    the response, and the status, in this order.  A response served from the
    cache costs no HTTP attempt and is never retried, whatever its status. *)
Theorem fetch_returns_body_of_a_200 (loc : location) (ep : endpoint) :
  (forall j,
     fst (fst (fetch_raw_weather loc ep)) = Ok j ->
     exists resp hit n,
       session_get ep = ((Ok resp, hit), n)
       /\ status_code resp = 200%Z /\ body resp = Some j
       /\ snd (fst (fetch_raw_weather loc ep))
          = [("Fetching RAW weather data for: " ++ name loc)%string;
             ("Cache Hit: " ++ py_bool hit)%string;
             "Status Code: 200"%string])
  /\ (forall resp,
        cached ep = Some resp ->
        session_get ep = ((Ok resp, true), 0%nat)
        /\ snd (fetch_raw_weather loc ep) = 0%nat
        /\ (forall j, status_code resp = 200%Z -> body resp = Some j ->
                      fst (fst (fetch_raw_weather loc ep)) = Ok j)).
Proof.
  split.
  - intros j H. unfold fetch_raw_weather in *.
    destruct (session_get ep) as [[[resp|e] hit] n]; [|discriminate H].
    destruct (Z.eqb_spec (status_code resp) 200) as [E|E]; cbn [negb] in *;
      [|discriminate H].
    destruct (body resp) as [b|] eqn:Eb; [|discriminate H].
    cbn [fst snd] in *. injection H as ->.
    exists resp, hit, n. split; [reflexivity|]. split; [exact E|].
    split; [exact Eb|]. rewrite E. reflexivity.
  - intros resp Hc.
    assert (E : session_get ep = ((Ok resp, true), 0%nat))
      by (unfold session_get; now rewrite Hc).
    split; [exact E|]. unfold fetch_raw_weather. rewrite E. split.
    + destruct (negb (status_code resp =? 200)%Z); [reflexivity|].
      now destruct (body resp).
    + intros j Hs Hb. now rewrite Hs, Hb.
Qed.

(** A busy answer kept by the cache. *)
Definition stale : endpoint :=
  {| cached := Some {| status_code := 200; retry_after := false;
                       body := Some (JObj [("latitude", JAtom (VNum 52.52))]);
               moved_to := None |};
     origin := fun _ => {| status_code := 503; retry_after := false; body := None; moved_to := None |} |}.

Lemma fetch_returns_body_of_a_200_witness :
  snd (fetch_raw_weather berlin stale) = 0%nat
  /\ fst (fst (fetch_raw_weather berlin stale))
     = Ok (JObj [("latitude", JAtom (VNum 52.52))]).
Proof.
  destruct (fetch_returns_body_of_a_200 berlin stale) as [_ H].
  destruct (H {| status_code := 200; retry_after := false;
                 body := Some (JObj [("latitude", JAtom (VNum 52.52))]);
               moved_to := None |} eq_refl)
    as (_ & Hn & Hj).
  split; [exact Hn|]. apply Hj; reflexivity.
Defined.

End RetryFacts.

(** ** Accepted payloads and the ingestion run *)

Module AcceptFacts.

Import Frame Runtime Fetch Ingest IngestFacts.
Local Open Scope list_scope.

Lemma has_key_lookup {A} (k : string) (kvs : list (string * A)) :
  has_key k kvs = true <-> exists v, lookup k kvs = Some v.
Proof.
  unfold has_key. destruct (lookup k kvs) as [v|]; split.
  - intros _. now exists v.
  - reflexivity.
  - discriminate.
  - intros [v H]. discriminate.
Qed.

Lemma top_level_keys_dict (kvs : list (string * json)) :
  check_top_level_keys (JObj kvs) = Ok tt
  <-> forallb (fun k => has_key k kvs) required = true.
Proof.
  unfold check_top_level_keys. rewrite missing_keys_dict. cbn [obind].
  generalize required. intros ks. induction ks as [|k ks IH]; simpl.
  - tauto.
  - destruct (has_key k kvs); simpl; [exact IH|]. split; discriminate.
Qed.

Lemma section_dict (kvs : list (string * json)) (sec : string) :
  check_section (JObj kvs) sec = Ok tt
  <-> exists v, lookup sec kvs = Some v /\ truthy v = true.
Proof.
  unfold check_section. cbn [py_get obind].
  destruct (lookup sec kvs) as [v|]; split.
  - destruct (truthy v) eqn:E; [|discriminate]. intros _. now exists v.
  - intros [v' [H Ht]]. injection H as <-. now rewrite Ht.
  - simpl. discriminate.
  - intros [v' [H _]]. discriminate.
Qed.

Definition well_formed (kvs : list (string * json)) (h d : list (string * json))
           (c ht dt : json) : Prop :=
  has_key "latitude" kvs = true /\ has_key "longitude" kvs = true
  /\ has_key "timezone" kvs = true
  /\ lookup "hourly" kvs = Some (JObj h) /\ lookup "time" h = Some ht
  /\ truthy ht = true
  /\ lookup "daily" kvs = Some (JObj d) /\ lookup "time" d = Some dt
  /\ truthy dt = true
  /\ lookup "current" kvs = Some c /\ truthy c = true.

Lemma accepted_well_formed (data : json) :
  accepted data ->
  exists kvs h d c ht dt, data = JObj kvs /\ well_formed kvs h d c ht dt.
Proof.
  intros (H1 & H2 & H3).
  destruct data as [a|xs|kvs]; try discriminate H2.
  apply top_level_keys_dict in H1. cbn [forallb required] in H1.
  repeat (apply andb_true_iff in H1; destruct H1 as [? H1]).
  unfold check_sections in H2.
  destruct (check_section (JObj kvs) "hourly") as [[]|] eqn:Eh; [|discriminate].
  destruct (check_section (JObj kvs) "daily") as [[]|] eqn:Ed; [|discriminate].
  cbn [obind] in H2.
  apply section_dict in Eh, Ed, H2.
  destruct Eh as (hv & Lh & Th), Ed as (dv & Ld & Td), H2 as (c & Lc & Tc).
  unfold check_non_empty_arrays in H3. cbn [py_get obind] in H3.
  rewrite Lh, Ld in H3.
  destruct hv as [ha|hxs|h]; try discriminate H3.
  cbn [py_get obind] in H3.
  destruct dv as [da|dxs|d]; try discriminate H3.
  cbn [py_get obind] in H3.
  destruct (lookup "time" h) as [ht|] eqn:Eht; [|discriminate H3].
  destruct (truthy ht) eqn:Tht; [|discriminate H3].
  destruct (lookup "time" d) as [dt|] eqn:Edt; [|discriminate H3].
  destruct (truthy dt) eqn:Tdt; [|discriminate H3].
  exists kvs, h, d, c, ht, dt. unfold well_formed. repeat split; assumption.
Qed.

(** The accepted payloads are exactly the dicts that have [latitude],
    [longitude] and [timezone], a [current] entry that is true, and [hourly]
    and [daily] entries that are dicts with a [time] entry that is true. *)
Theorem accepted_payload_shape (data : json) :
  accepted data
  <-> exists kvs h d c ht dt,
        data = JObj kvs
        /\ has_key "latitude" kvs = true /\ has_key "longitude" kvs = true
        /\ has_key "timezone" kvs = true
        /\ lookup "hourly" kvs = Some (JObj h) /\ lookup "time" h = Some ht
        /\ truthy ht = true
        /\ lookup "daily" kvs = Some (JObj d) /\ lookup "time" d = Some dt
        /\ truthy dt = true
        /\ lookup "current" kvs = Some c /\ truthy c = true.
Proof.
  split.
  - exact (accepted_well_formed data).
  - intros (kvs & h & d & c & ht & dt & -> & K1 & K2 & K3 & Lh & Lht & Tht
            & Ld & Ldt & Tdt & Lc & Tc).
    assert (Kh : has_key "hourly" kvs = true) by (apply has_key_lookup; eauto).
    assert (Kd : has_key "daily" kvs = true) by (apply has_key_lookup; eauto).
    assert (Kc : has_key "current" kvs = true) by (apply has_key_lookup; eauto).
    assert (Th : truthy (JObj h) = true) by (destruct h; [discriminate | reflexivity]).
    assert (Td : truthy (JObj d) = true) by (destruct d; [discriminate | reflexivity]).
    repeat split.
    + apply top_level_keys_dict. cbn [forallb required].
      now rewrite K1, K2, K3, Kh, Kd, Kc.
    + unfold check_sections.
      assert (Eh : check_section (JObj kvs) "hourly" = Ok tt)
        by (apply section_dict; eauto).
      assert (Ed : check_section (JObj kvs) "daily" = Ok tt)
        by (apply section_dict; eauto).
      rewrite Eh, Ed. cbn [obind]. apply section_dict. eauto.
    + unfold check_non_empty_arrays. cbn [py_get obind].
      rewrite Lh, Ld. cbn [py_get obind]. now rewrite Lht, Ldt, Tht, Tdt.
Qed.

(** *** Writing one raw file *)

Lemma write_file_other {A} (path p : string) (c : A) (files : list (string * A)) :
  p <> path -> lookup p (write_file path c files) = lookup p files.
Proof.
  intros Hne. induction files as [|[q x] files IH]; simpl.
  - apply String.eqb_neq in Hne. now rewrite Hne.
  - destruct (String.eqb_spec path q) as [->|Hq]; simpl.
    + apply String.eqb_neq in Hne. now rewrite Hne.
    + destruct (String.eqb p q); [reflexivity | exact IH].
Qed.

Lemma write_file_length {A} (path : string) (c : A) (files : list (string * A)) :
  List.length (write_file path c files)
  = if has_key path files then List.length files else S (List.length files).
Proof.
  unfold has_key. induction files as [|[q x] files IH]; simpl; [reflexivity|].
  destruct (String.eqb path q); simpl; [reflexivity|].
  rewrite IH. now destruct (lookup path files).
Qed.

Section Run.

Variable wall : nat -> Z.
Variable strftime : Z -> string.

Set Default Proof Using "Type".

(** Saving a payload reads the clock once and writes one file, named after
    the sanitised location and that reading: the file then holds the payload
    as given, every other path holds what it held, and a file that was
    already there under that name is replaced, not added to. *)
Theorem save_raw_json_writes_one_file (location_name : string) (data : json) (w : world) :
  let r := save_raw_json wall strftime location_name data w in
  let path := bronze_path strftime location_name (wall (ticks w)) in
  fst r = Ok tt
  /\ lookup path (fs (snd r)) = Some (FJson data)
  /\ (forall p, p <> path -> lookup p (fs (snd r)) = lookup p (fs w))
  /\ List.length (fs (snd r))
     = (if has_key path (fs w) then List.length (fs w) else S (List.length (fs w)))
  /\ ticks (snd r) = S (ticks w).
Proof.
  cbv zeta. unfold save_raw_json, bind, now, write, info, emit. cbn.
  split; [reflexivity|]. split; [apply write_file_lookup|].
  split; [intros p Hp; now apply write_file_other|].
  split; [apply write_file_length | reflexivity].
Qed.

(** The run over a list of locations is the run over its front part followed,
    if that succeeds, by the run over the rest from the world it left; when
    the front part fails, the run stops there with that error and that
    world, and the rest is neither fetched nor saved. *)
Theorem main_stops_at_first_failure (front rest : list (location * endpoint))
        (w : world) :
  main wall strftime (front ++ rest) w
  = match main wall strftime front w with
    | (Ok _, w1) => main wall strftime rest w1
    | (Raise e, w1) => (Raise e, w1)
    end.
Proof.
  revert w. induction front as [|[loc ep] front IH]; intros w; [reflexivity|].
  cbn [app main]. unfold bind.
  destruct (fetch loc ep w) as [[data|e] w1]; [|reflexivity].
  destruct (validate_and_save wall strftime (name loc) data w1) as [[u|e] w2];
    [apply IH | reflexivity].
Qed.

End Run.

Definition rome : json :=
  JObj [("latitude", JAtom (VNum 41.9)); ("longitude", JAtom (VNum 12.5));
        ("timezone", JAtom (VStr "Europe/Rome"));
        ("hourly", JObj [("time", JArr [JAtom (VStr "2024-06-01T00:00")])]);
        ("daily", JObj [("time", JArr [JAtom (VStr "2024-06-01")])]);
        ("current", JObj [("temperature_2m", JAtom (VNum 24.5))])].

Definition blank : world :=
  {| log := []; stdout := []; ticks := 0; attempts := 0; fs := [] |}.

Lemma accepted_payload_shape_witness : accepted rome.
Proof.
  apply accepted_payload_shape. unfold rome.
  do 6 eexists. split; [reflexivity|]. repeat split; reflexivity.
Defined.

Lemma save_raw_json_writes_one_file_witness :
  lookup "data_lake/silver/daily/rome_daily_20240601_120000.parquet"
    (fs (snd (save_raw_json (fun _ => 0%Z) (fun _ => "20240601_120000"%string)
                "Rome" rome blank)))
  = None.
Proof.
  destruct (save_raw_json_writes_one_file
              (fun _ => 0%Z) (fun _ => "20240601_120000"%string) "Rome" rome blank)
    as (_ & _ & H & _).
  apply (H "data_lake/silver/daily/rome_daily_20240601_120000.parquet"%string).
  discriminate.
Defined.

End AcceptFacts.

(** ** Directory listings *)

Module StoreFacts.

Import Frame Runtime Ingest.
Local Open Scope list_scope.

Definition by_name {A} (a b : string * A) : Prop :=
  String.leb (fst a) (fst b) = true.

Lemma In_insert_sorted {A} (x y : string * A) (l : list (string * A)) :
  In x (insert_sorted y l) <-> x = y \/ In x l.
Proof.
  induction l as [|z l IH]; simpl.
  - intuition.
  - destruct (String.leb (fst y) (fst z)); simpl; [intuition|].
    rewrite IH. intuition.
Qed.

Lemma In_sort_by_name {A} (x : string * A) (l : list (string * A)) :
  In x (sort_by_name l) <-> In x l.
Proof.
  induction l as [|y l IH]; simpl; [tauto|].
  rewrite In_insert_sorted, IH. intuition.
Qed.

Lemma length_insert_sorted {A} (y : string * A) (l : list (string * A)) :
  List.length (insert_sorted y l) = S (List.length l).
Proof.
  induction l as [|z l IH]; simpl; [reflexivity|].
  destruct (String.leb (fst y) (fst z)); simpl; [reflexivity | now rewrite IH].
Qed.

Lemma length_sort_by_name {A} (l : list (string * A)) :
  List.length (sort_by_name l) = List.length l.
Proof.
  induction l as [|y l IH]; simpl; [reflexivity|].
  now rewrite length_insert_sorted, IH.
Qed.

Lemma HdRel_insert_sorted {A} (x y : string * A) (l : list (string * A)) :
  by_name x y -> HdRel by_name x l -> HdRel by_name x (insert_sorted y l).
Proof.
  intros Hxy Hl. destruct l as [|z l]; simpl.
  - now constructor.
  - destruct (String.leb (fst y) (fst z)); constructor; [exact Hxy|].
    now inversion Hl.
Qed.

Lemma Sorted_insert_sorted {A} (y : string * A) (l : list (string * A)) :
  Sorted by_name l -> Sorted by_name (insert_sorted y l).
Proof.
  induction l as [|z l IH]; intros Hs; simpl.
  - repeat constructor.
  - destruct (String.leb (fst y) (fst z)) eqn:E.
    + constructor; [exact Hs|]. now constructor.
    + inversion Hs as [|? ? Hs' Hd]; subst.
      constructor; [now apply IH|].
      apply HdRel_insert_sorted; [|exact Hd].
      unfold by_name. destruct (String.leb_total (fst y) (fst z)) as [H|H];
        [congruence | exact H].
Qed.

Lemma Sorted_sort_by_name {A} (l : list (string * A)) :
  Sorted by_name (sort_by_name l).
Proof.
  induction l as [|y l IH]; simpl; [constructor|].
  now apply Sorted_insert_sorted.
Qed.

Lemma strip_prefix_append (dir p name : string) :
  strip_prefix dir p = Some name <-> p = (dir ++ name)%string.
Proof.
  revert p. induction dir as [|a dir IH]; intros p; simpl.
  - split; [now intros [= ->] | now intros ->].
  - destruct p as [|b p].
    + split; discriminate.
    + destruct (Ascii.eqb_spec a b) as [->|Hne].
      * rewrite IH. split; [now intros -> | now intros [= ->]].
      * split; [discriminate | intros [= E _]; now symmetry in E].
Qed.

(** The entries of a listing are the files of the store placed directly
    under the directory and ending in the extension. *)
Lemma In_glob (dir ext name : string) (c : file) (files : list (string * file)) :
  In (name, c) (glob dir ext files)
  <-> In ((dir ++ name)%string, c) files
      /\ no_slash name = true /\ ends_with ext name = true.
Proof.
  unfold glob. rewrite In_sort_by_name, in_flat_map. split.
  - intros [[p c'] [Hin H]]. cbn [fst snd] in H.
    destruct (strip_prefix dir p) as [n|] eqn:E; [|contradiction].
    destruct (no_slash n && ends_with ext n) eqn:B; [|contradiction].
    destruct H as [[= -> ->]|[]].
    apply strip_prefix_append in E. subst p.
    apply andb_true_iff in B. tauto.
  - intros (Hin & Hs & He). exists ((dir ++ name)%string, c). split; [exact Hin|].
    cbn [fst snd].
    assert (E : strip_prefix dir (dir ++ name) = Some name)
      by now apply strip_prefix_append.
    rewrite E, Hs, He. now left.
Qed.

(** Both stages list their input directory in the same way: the listing
    leaves the world as it is and returns, in ascending order of name, the
    files of the store that lie directly in the directory and carry the
    extension, one entry for each such file. *)
Theorem stage_inputs_listed_by_name (folder : string) (w : world) :
  (exists l,
      Silver.load_bronze_files w = (Ok l, w)
      /\ Sorted by_name l
      /\ (forall name c,
             In (name, c) l
             <-> In ((Silver.BRONZE_DIR ++ name)%string, c) (fs w)
                 /\ no_slash name = true /\ ends_with ".json" name = true))
  /\ (exists l,
         Gold.load_silver folder w = (Ok l, w)
         /\ Sorted by_name l
         /\ (forall name c,
                In (name, c) l
                <-> In ((folder ++ name)%string, c) (fs w)
                    /\ no_slash name = true /\ ends_with ".parquet" name = true)).
Proof.
  split; eexists; (split; [reflexivity|]);
    (split; [apply Sorted_sort_by_name | intros name c; apply In_glob]).
Qed.

(** *** What ingestion saves, conformance lists *)

Lemma prefix_empty (s : string) : String.prefix "" s = true.
Proof. now destruct s. Qed.

Lemma substr_slash_append (a b : string) :
  substr "/" (a ++ b) = substr "/" a || substr "/" b.
Proof.
  induction a as [|c a IH].
  - cbn [String.append]. reflexivity.
  - cbn [String.append substr String.prefix].
    destruct (ascii_dec "/" c); [now rewrite !prefix_empty | exact IH].
Qed.

Lemma no_slash_append (a b : string) :
  no_slash (a ++ b) = no_slash a && no_slash b.
Proof.
  unfold no_slash. rewrite substr_slash_append. apply negb_orb.
Qed.

Lemma all_safe_no_slash (s : string) :
  NameFacts.all_safe s = true -> no_slash s = true.
Proof.
  induction s as [|c s IH]; [reflexivity|].
  cbn [NameFacts.all_safe]. intros H. apply andb_true_iff in H. destruct H as [Hc Hs].
  unfold no_slash. cbn [substr String.prefix].
  destruct (ascii_dec "/" c) as [<-|_]; [discriminate Hc|].
  cbn [orb negb]. now apply IH.
Qed.

Lemma substring_skip (a b : string) :
  String.substring (String.length a) (String.length b) (a ++ b) = b.
Proof.
  induction a as [|c a IH]; cbn [String.length String.append String.substring].
  - induction b as [|d b IHb]; [reflexivity|].
    cbn [String.length String.substring]. now rewrite IHb.
  - exact IH.
Qed.

Lemma length_append (a b : string) :
  String.length (a ++ b) = String.length a + String.length b.
Proof.
  induction a as [|c a IH]; cbn [String.length String.append]; [reflexivity|].
  now rewrite IH.
Qed.

Lemma ends_with_append (a ext : string) :
  ends_with ext (a ++ ext) = true.
Proof.
  unfold ends_with. rewrite length_append.
  replace (String.length a + String.length ext - String.length ext)
    with (String.length a) by lia.
  rewrite substring_skip, String.eqb_refl.
  apply andb_true_iff. split; [apply Nat.leb_le; lia | reflexivity].
Qed.

Lemma In_write_file {A} (path : string) (c : A) (files : list (string * A)) :
  In (path, c) (write_file path c files).
Proof.
  induction files as [|[q x] files IH]; simpl; [now left|].
  destruct (String.eqb_spec path q) as [->|Hq]; [now left | now right].
Qed.

Section Handover.

Variable wall : nat -> Z.
Variable strftime : Z -> string.

Set Default Proof Using "Type".

(** A raw file that ingestion has just saved is among the files the
    conformance stage lists, under its name within the raw directory and
    with the payload as saved, provided the rendering of the clock reading
    has no slash in it. *)
Theorem saved_raw_file_is_listed (location_name : string) (data : json) (w : world)
        (Hstamp : no_slash (strftime (wall (ticks w))) = true) :
  let w' := snd (save_raw_json wall strftime location_name data w) in
  let file_name :=
    (sanitize_filename location_name ++ "_raw_"
       ++ strftime (wall (ticks w)) ++ ".json")%string in
  exists l,
    Silver.load_bronze_files w' = (Ok l, w')
    /\ In (file_name, FJson data) l.
Proof.
  cbv zeta. eexists. split; [reflexivity|].
  apply In_glob. split; [|split].
  - unfold save_raw_json, bind, now, write, info, emit. cbn [fst snd fs].
    apply In_write_file.
  - rewrite !no_slash_append, Hstamp.
    rewrite all_safe_no_slash by apply NameFacts.sanitize_all_safe.
    reflexivity.
  - replace (sanitize_filename location_name ++ "_raw_"
               ++ strftime (wall (ticks w)) ++ ".json")%string
      with ((sanitize_filename location_name ++ "_raw_"
               ++ strftime (wall (ticks w))) ++ ".json")%string.
    + apply ends_with_append.
    + generalize (strftime (wall (ticks w))). intros s.
      generalize (sanitize_filename location_name). intros a.
      induction a as [|c a IH]; cbn [String.append]; [reflexivity|].
      cbn [String.append] in IH. now rewrite IH.
Qed.

End Handover.

Definition blank : world :=
  {| log := []; stdout := []; ticks := 0; attempts := 0; fs := [] |}.

Lemma saved_raw_file_is_listed_witness :
  exists l,
    Silver.load_bronze_files
      (snd (save_raw_json (fun _ => 0%Z) (fun _ => "20240601_120000"%string)
              "New York" (JObj []) blank))
    = (Ok l, snd (save_raw_json (fun _ => 0%Z) (fun _ => "20240601_120000"%string)
                    "New York" (JObj []) blank))
    /\ In ("new_york_raw_20240601_120000.json"%string, FJson (JObj [])) l.
Proof.
  apply (saved_raw_file_is_listed (fun _ => 0%Z) (fun _ => "20240601_120000"%string)
           "New York" (JObj []) blank).
  reflexivity.
Defined.

End StoreFacts.

(** ** Ragged sections *)

Module RaggedFacts.

Import Frame Runtime Silver FrameFacts SilverFacts PipelineFacts.
Local Open Scope list_scope.

Lemma validate_list_lengths_equal (section : list (string * list scalar)) :
  _validate_list_lengths section = true
  <-> forall a b, In a section -> In b section ->
                  List.length (snd a) = List.length (snd b).
Proof.
  unfold _validate_list_lengths. destruct section as [|[k0 v0] rest]; cbn [map snd].
  - split; [intros _ a b [] | reflexivity].
  - rewrite forallb_forall. split.
    + intros H.
      assert (Hall : forall a, In a ((k0, v0) :: rest) ->
                               List.length (snd a) = List.length v0).
      { intros a [<-|Ha]; [reflexivity|]. symmetry. apply Nat.eqb_eq, H.
        apply in_map_iff. now exists a. }
      intros a b Ha Hb. now rewrite (Hall a Ha), (Hall b Hb).
    + intros H n Hn. apply in_map_iff in Hn. destruct Hn as [a [<- Ha]].
      apply Nat.eqb_eq. apply (H (k0, v0) a); [now left | now right].
Qed.

Lemma forallb_false_witness {A} (f : A -> bool) (l : list A) :
  forallb f l = false -> exists x, In x l /\ f x = false.
Proof.
  induction l as [|x l IH]; cbn [forallb]; [discriminate|].
  destruct (f x) eqn:E; cbn [andb].
  - intros H. destruct (IH H) as [y [Hy Hf]]. exists y. split; [now right | exact Hf].
  - intros _. exists x. split; [now left | exact E].
Qed.

Lemma ragged_has_short_array (section : list (string * list scalar)) :
  _validate_list_lengths section = false ->
  exists k vs, In (k, vs) section /\ (List.length vs < longest section)%nat.
Proof.
  intros Hv.
  destruct (forallb (fun kv => List.length (snd kv) =? longest section)%nat section) eqn:E.
  - assert (H : _validate_list_lengths section = true).
    { apply validate_list_lengths_equal. intros a b Ha Hb.
      rewrite forallb_forall in E.
      apply E, Nat.eqb_eq in Ha. apply E, Nat.eqb_eq in Hb. congruence. }
    congruence.
  - apply forallb_false_witness in E. destruct E as [[k vs] [Hin Hne]].
    exists k, vs. split; [exact Hin|].
    apply Nat.eqb_neq in Hne. cbn [snd] in Hne.
    pose proof (longest_bound section k vs Hin). lia.
Qed.

Section Tables.

Variable wall : nat -> Z.
Variable parse_float : string -> option float.
Variable parse_time : Silver.time_reader.
Variable epoch_ns : float -> option Z.

Set Default Proof Using "Type".

Local Abbreviation cells := (series_cells parse_float parse_time epoch_ns).
Local Abbreviation float_or_nan := (Silver.float_or_nan parse_float).

Lemma columns_cells (n : nat) (section : list (string * list scalar)) :
  columns (map (cells n) section) = map fst section.
Proof.
  unfold columns. rewrite map_map. apply map_ext. intros [k vs].
  unfold series_cells. cbn [fst snd]. now destruct (String.eqb k "time").
Qed.

Lemma slen_cells (n : nat) (kv : string * list scalar) :
  (List.length (snd kv) <= n)%nat -> slen (snd (cells n kv)) = n.
Proof.
  intros H. unfold series_cells.
  destruct (String.eqb (fst kv) "time"); cbn [snd slen];
    [rewrite to_time_cells_length | rewrite length_map]; now apply pad_length.
Qed.

Lemma cells_wf (section : list (string * list scalar)) :
  wf (map (cells (longest section)) section)
  /\ nrows (map (cells (longest section)) section) = longest section.
Proof.
  assert (Hlen : forall p, In p (map (cells (longest section)) section) ->
                           slen (snd p) = longest section).
  { intros p Hin. apply in_map_iff in Hin. destruct Hin as [[k vs] [<- Hin]].
    apply slen_cells. cbn [snd]. now apply (longest_bound section k vs). }
  assert (Hn : nrows (map (cells (longest section)) section) = longest section).
  { destruct section as [|kv rest] eqn:E; [reflexivity|].
    rewrite <- E in *. rewrite E at 2. cbn [map nrows].
    destruct (cells (longest section) kv) as [c s] eqn:Ec.
    change s with (snd (c, s)). rewrite <- Ec. apply slen_cells.
    destruct kv as [k vs]. apply (longest_bound section k vs). rewrite E. now left. }
  split; [|exact Hn]. unfold wf. rewrite Hn. now apply Forall_forall.
Qed.

Lemma with_metadata_wf (df : frame) (location : string) (t : Z) :
  wf df -> wf (with_metadata df location t).
Proof.
  intros Hwf. unfold with_metadata. cbv zeta.
  assert (H1 : wf (set_col df "location" (broadcast_obj df (VStr location)))).
  { apply wf_set_col; [exact Hwf|]. unfold broadcast_obj. cbn [slen]. apply repeat_length. }
  apply wf_set_col; [exact H1|]. unfold broadcast_time. cbn [slen]. apply repeat_length.
Qed.

Lemma float_or_nan_pad (n : nat) (vs : list scalar) :
  map float_or_nan (pad n vs)
  = map float_or_nan vs ++ repeat nan (n - List.length vs).
Proof.
  unfold pad. rewrite map_app. f_equal.
  induction (n - List.length vs)%nat as [|m IH]; [reflexivity|].
  cbn [repeat map]. now rewrite IH.
Qed.

(** Arrays of different lengths in the hourly section are warned about and
    nothing more: the table is still built, with as many rows as the longest
    array has entries, every column of that length, and each numeric column
    holding the numbers of its array followed by nulls up to that length.
    The check passes exactly when all arrays have one length, and when it
    fails some array is shorter than the table. *)
Theorem ragged_hourly_is_warned_and_padded
        top sec section (location : string) (w : world) :
  lookup "hourly" top = Some sec -> truthy sec = true ->
  table_of sec = Ok section -> NoDup (map fst section) ->
  exists df w',
    transform_hourly wall parse_float parse_time epoch_ns (JObj top) location w
    = (Ok df, w')
    /\ (_validate_list_lengths section = true
        <-> forall a b, In a section -> In b section ->
                        List.length (snd a) = List.length (snd b))
    /\ log w'
       = log w ++ (if _validate_list_lengths section then []
                   else [(WARNING, ("Hourly list lengths mismatch for " ++ location)%string)])
    /\ fs w' = fs w
    /\ wf df /\ nrows df = longest section
    /\ (forall k vs,
           In (k, vs) section ->
           k <> "time"%string -> k <> "location"%string ->
           k <> "load_timestamp"%string ->
           float_col df k
           = Ok (map float_or_nan vs
                   ++ repeat nan (longest section - List.length vs)))
    /\ (_validate_list_lengths section = false ->
        exists k vs, In (k, vs) section /\ (List.length vs < longest section)%nat).
Proof.
  intros Hl Ht Hr Hnd.
  eexists. eexists. split.
  { exact (transform_hourly_run wall parse_float parse_time epoch_ns
             top sec section location w Hl Ht Hr Hnd). }
  set (core := map (cells (longest section)) section).
  destruct (cells_wf section) as [Hwf Hn]. fold core in Hwf, Hn.
  split; [apply validate_list_lengths_equal|].
  split; [unfold warned, tick; destruct (_validate_list_lengths section);
          cbn [log]; now rewrite ?app_nil_r|].
  split; [unfold warned, tick; now destruct (_validate_list_lengths section)|].
  split; [now apply with_metadata_wf|].
  split; [destruct (with_metadata_stamped core location (wall (ticks w))) as [_ H];
          now rewrite H|].
  split; [|apply ragged_has_short_array].
  intros k vs Hin Hk1 Hk2 Hk3.
  rewrite float_col_with_metadata by assumption.
  rewrite <- float_or_nan_pad.
  apply float_col_In; [unfold core; now rewrite columns_cells|].
  unfold core. apply in_map_iff. exists (k, vs). split; [|exact Hin].
  unfold series_cells. cbn [fst snd].
  apply String.eqb_neq in Hk1. now rewrite Hk1.
Qed.

End Tables.

Definition short_wind : list (string * json) :=
  [("hourly",
    JObj [("time", JArr [JAtom (VStr "2024-06-01T00:00"); JAtom (VStr "2024-06-01T01:00")]);
          ("wind_speed_10m", JArr [JAtom (VNum 12.5)])])].

Definition blank : world :=
  {| log := []; stdout := []; ticks := 0; attempts := 0; fs := [] |}.

Lemma ragged_hourly_is_warned_and_padded_witness :
  exists df w',
    transform_hourly (fun _ => 0%Z) (fun _ => None) SilverFacts.unread (fun _ => None)
      (JObj short_wind) "berlin" blank
    = (Ok df, w')
    /\ log w' = [(WARNING, "Hourly list lengths mismatch for berlin"%string)]
    /\ nrows df = 2%nat
    /\ float_col df "wind_speed_10m" = Ok [12.5%float; nan].
Proof.
  destruct (ragged_hourly_is_warned_and_padded
              (fun _ => 0%Z) (fun _ => None) SilverFacts.unread (fun _ => None)
              short_wind
              (JObj [("time", JArr [JAtom (VStr "2024-06-01T00:00");
                                    JAtom (VStr "2024-06-01T01:00")]);
                     ("wind_speed_10m", JArr [JAtom (VNum 12.5)])])
              [("time"%string, [VStr "2024-06-01T00:00"; VStr "2024-06-01T01:00"]);
               ("wind_speed_10m"%string, [VNum 12.5])]
              "berlin" blank)
    as (df & w' & Hrun & _ & Hlog & _ & _ & Hrows & Hcol & _).
  - reflexivity.
  - reflexivity.
  - reflexivity.
  - repeat (constructor; [simpl; intuition discriminate|]). constructor.
  - exists df, w'. split; [exact Hrun|]. split; [exact Hlog|]. split; [exact Hrows|].
    apply (Hcol "wind_speed_10m"%string [VNum 12.5]); [right; now left | | | ];
      discriminate.
Defined.

End RaggedFacts.

(** ** Where the stages write *)

Module ScopeFacts.

Import Frame Runtime Fetch.
Local Open Scope list_scope.

(** The computation leaves every path outside [dir] as it found it. *)
Definition keeps_outside (dir : string) {A} (m : M A) : Prop :=
  forall w p, String.prefix dir p = false ->
              lookup p (fs (snd (m w))) = lookup p (fs w).

Lemma keeps_bind (dir : string) {A B} (m : M A) (k : A -> M B) :
  keeps_outside dir m -> (forall a, keeps_outside dir (k a)) ->
  keeps_outside dir (bind m k).
Proof.
  intros Hm Hk w p Hp. specialize (Hm w p Hp). unfold bind.
  destruct (m w) as [[a|e] w1]; cbn [snd] in *; [|exact Hm].
  now rewrite (Hk a w1 p Hp).
Qed.

Lemma keeps_pure (dir : string) {A} (m : M A) :
  (forall w, fs (snd (m w)) = fs w) -> keeps_outside dir m.
Proof. intros H w p _. now rewrite H. Qed.

Lemma prefix_extends (dir : string) : forall folder rest : string,
  String.prefix dir folder = true -> String.prefix dir (folder ++ rest) = true.
Proof.
  induction dir as [|a dir IH]; intros folder rest H.
  - apply StoreFacts.prefix_empty.
  - destruct folder as [|b folder]; [discriminate H|].
    cbn [String.append String.prefix] in *.
    destruct (ascii_dec a b); [now apply IH | discriminate H].
Qed.

Lemma keeps_write (dir path : string) (c : file) :
  String.prefix dir path = true -> keeps_outside dir (write path c).
Proof.
  intros Hpath w p Hp. unfold write. cbn [snd fs].
  apply AcceptFacts.write_file_other. intros ->. congruence.
Qed.

Ltac keeps :=
  repeat match goal with
         | |- keeps_outside _ (bind _ _) => apply keeps_bind; [|intros ?]
         | |- keeps_outside _ (if ?b then _ else _) => destruct b
         | |- keeps_outside _ (write _ _) =>
             apply keeps_write; repeat apply prefix_extends; reflexivity
         | |- keeps_outside _ _ => apply keeps_pure; intros ?; reflexivity
         end.

Section Stages.

Variable wall : nat -> Z.
Variable strftime : Z -> string.
Variable parse_float : string -> option float.
Variable parse_time : Silver.time_reader.
Variable epoch_ns : float -> option Z.

Set Default Proof Using "Type".

Lemma keeps_validate_and_save (dir location_name : string) (data : json) :
  String.prefix dir Ingest.BRONZE_DIR = true ->
  keeps_outside dir (Ingest.validate_and_save wall strftime location_name data).
Proof.
  intros Hd.
  unfold Ingest.validate_and_save, Ingest.validate_top_level_keys,
    Ingest.validate_sections, Ingest.validate_non_empty_arrays, Ingest.save_raw_json.
  apply keeps_bind; [keeps | intros ?].
  apply keeps_bind; [keeps | intros ?].
  apply keeps_bind; [keeps | intros ?].
  apply keeps_bind; [|intros ?; keeps].
  apply keeps_bind; [keeps | intros ?]. cbv zeta.
  apply keeps_bind; [|intros ?; keeps].
  apply keeps_write. unfold Ingest.bronze_path. now apply prefix_extends.
Qed.

Lemma keeps_ingest (dir : string) (locs : list (location * endpoint)) :
  String.prefix dir Ingest.BRONZE_DIR = true ->
  keeps_outside dir (Ingest.main wall strftime locs).
Proof.
  intros Hd. induction locs as [|[loc ep] locs IH]; cbn [Ingest.main]; [keeps|].
  apply keeps_bind.
  - apply keeps_pure. intros w. unfold Ingest.fetch.
    now destruct (fetch_raw_weather loc ep) as [[o lines] n].
  - intros data. apply keeps_bind; [now apply keeps_validate_and_save | intros _; exact IH].
Qed.

Lemma keeps_save_parquet (dir : string) (df : frame) (folder pre location : string) :
  String.prefix dir folder = true ->
  keeps_outside dir (Silver.save_unless_empty wall strftime df folder pre location).
Proof.
  intros Hd. unfold Silver.save_unless_empty, Silver.save_parquet.
  destruct (negb (empty df)); [|keeps].
  apply keeps_bind; [keeps | intros ?]. cbv zeta.
  apply keeps_bind; [|intros ?; keeps].
  apply keeps_write. now apply prefix_extends.
Qed.

Lemma keeps_process_file (file_name : string) (content : file) :
  keeps_outside "data_lake/silver/"
    (Silver.process_file wall strftime parse_float parse_time epoch_ns file_name content).
Proof.
  unfold Silver.process_file. cbv zeta.
  apply keeps_bind; [keeps | intros data].
  apply keeps_bind; [keeps | intros _].
  apply keeps_bind;
    [unfold Silver.transform_current; keeps | intros df_current].
  apply keeps_bind; [now apply keeps_save_parquet | intros _].
  apply keeps_bind;
    [unfold Silver.transform_hourly; keeps | intros df_hourly].
  apply keeps_bind; [now apply keeps_save_parquet | intros _].
  apply keeps_bind;
    [unfold Silver.transform_daily; keeps | intros df_daily].
  now apply keeps_save_parquet.
Qed.

Lemma keeps_process_files (files : list (string * file)) :
  keeps_outside "data_lake/silver/"
    (Silver.process_files wall strftime parse_float parse_time epoch_ns files).
Proof.
  induction files as [|[file_name content] files IH]; cbn [Silver.process_files];
    [keeps|].
  apply keeps_bind; [apply keeps_process_file | intros _; exact IH].
Qed.

(** Among the files of the data lake, each of the first two stages writes in
    its own directory only, whether it runs to the end or stops on an error.
    An ingestion run leaves every file of the data lake outside
    [data_lake/bronze/] as it found it; the response cache that the HTTP
    session of the fetch keeps in the working directory is no file of the
    data lake, and the steps of ingestion after the fetch, validation and
    save, leave every file outside [data_lake/bronze/] as it was.  A
    conformance run leaves every file outside [data_lake/silver/] as it
    found it, so that it never changes, adds or removes a raw file. *)
Theorem stages_write_in_their_own_directory
        (locs : list (location * endpoint)) (w : world) (p : string) :
  (String.prefix "data_lake/" p = true ->
   String.prefix "data_lake/bronze/" p = false ->
   lookup p (fs (snd (Ingest.main wall strftime locs w))) = lookup p (fs w))
  /\ (forall location_name data,
        String.prefix "data_lake/bronze/" p = false ->
        lookup p (fs (snd (Ingest.validate_and_save wall strftime location_name data w)))
        = lookup p (fs w))
  /\ (String.prefix "data_lake/silver/" p = false ->
      lookup p (fs (snd (Silver.main wall strftime parse_float parse_time epoch_ns w)))
      = lookup p (fs w))
  /\ (forall name,
        p = (Silver.BRONZE_DIR ++ name)%string ->
        lookup p (fs (snd (Silver.main wall strftime parse_float parse_time epoch_ns w)))
        = lookup p (fs w)).
Proof.
  assert (Hs : keeps_outside "data_lake/silver/"
                 (Silver.main wall strftime parse_float parse_time epoch_ns)).
  { unfold Silver.main, Silver.load_bronze_files.
    apply keeps_bind; [keeps | intros files].
    destruct (negb (nonempty files)); [keeps | apply keeps_process_files]. }
  split; [|split; [|split]].
  - intros _ Hp. now apply (keeps_ingest "data_lake/bronze/" locs).
  - intros location_name data Hp.
    now apply (keeps_validate_and_save "data_lake/bronze/" location_name data).
  - intros Hp. now apply Hs.
  - intros name ->. apply Hs. reflexivity.
Qed.

(** *** The conformance runner *)

(** Without a file ending in [.json] directly under the raw directory the
    conformance run logs one warning and ends well, leaving clock and store
    alone; and a run over a list of files is the run over its front part
    followed, if that succeeds, by the run over the rest: the first file
    whose processing raises ends the run, and the files after it are not
    read. *)
Theorem conformance_run_stops_at_first_failure
        (front rest : list (string * file)) (w : world) :
  ((forall name c, In ((Silver.BRONZE_DIR ++ name)%string, c) (fs w) ->
                   no_slash name && ends_with ".json" name = false) ->
   Silver.main wall strftime parse_float parse_time epoch_ns w
   = (Ok tt, {| log := log w ++ [(WARNING, "No bronze files found. Nothing to process."%string)];
                stdout := stdout w; ticks := ticks w; attempts := attempts w;
                fs := fs w |}))
  /\ Silver.process_files wall strftime parse_float parse_time epoch_ns (front ++ rest) w
     = match Silver.process_files wall strftime parse_float parse_time epoch_ns front w with
       | (Ok _, w1) =>
           Silver.process_files wall strftime parse_float parse_time epoch_ns rest w1
       | (Raise e, w1) => (Raise e, w1)
       end.
Proof.
  split.
  - intros Hnone. unfold Silver.main, Silver.load_bronze_files, list_dir, bind.
    destruct (glob Silver.BRONZE_DIR ".json" (fs w)) as [|[name c] l] eqn:E;
      [reflexivity|].
    exfalso.
    assert (Hin : In (name, c) (glob Silver.BRONZE_DIR ".json" (fs w)))
      by (rewrite E; now left).
    apply StoreFacts.In_glob in Hin. destruct Hin as (Hin & Hs & He).
    specialize (Hnone name c Hin). rewrite Hs, He in Hnone. discriminate.
  - revert w. induction front as [|[file_name content] front IH]; intros w;
      [reflexivity|].
    cbn [app Silver.process_files]. unfold bind.
    destruct (Silver.process_file _ _ _ _ _ file_name content w) as [[u|e] w1];
      [apply IH | reflexivity].
Qed.

End Stages.

Definition blank : world :=
  {| log := []; stdout := []; ticks := 0; attempts := 0; fs := [] |}.

Definition raw_only : world :=
  {| log := []; stdout := []; ticks := 0; attempts := 0;
     fs := [("data_lake/bronze/berlin_raw_20240601_115900.json"%string,
             FJson (JObj [("current", JObj [("temperature_2m", JAtom (VNum 21.5))])]))] |}.

Lemma stages_write_in_their_own_directory_witness :
  lookup "data_lake/bronze/berlin_raw_20240601_115900.json"
    (fs (snd (Silver.main (fun _ => 0%Z) (fun _ => "20240601_120000"%string)
                (fun _ => None) SilverFacts.unread (fun _ => None) raw_only)))
  = lookup "data_lake/bronze/berlin_raw_20240601_115900.json" (fs raw_only).
Proof.
  destruct (stages_write_in_their_own_directory
              (fun _ => 0%Z) (fun _ => "20240601_120000"%string)
              (fun _ => None) SilverFacts.unread (fun _ => None) [] raw_only
              "data_lake/bronze/berlin_raw_20240601_115900.json") as (_ & _ & H & _).
  apply H. reflexivity.
Defined.

Lemma conformance_run_stops_at_first_failure_witness :
  Silver.main (fun _ => 0%Z) (fun _ => "20240601_120000"%string)
    (fun _ => None) SilverFacts.unread (fun _ => None) blank
  = (Ok tt, {| log := [(WARNING, "No bronze files found. Nothing to process."%string)];
               stdout := []; ticks := 0; attempts := 0; fs := [] |}).
Proof.
  destruct (conformance_run_stops_at_first_failure
              (fun _ => 0%Z) (fun _ => "20240601_120000"%string)
              (fun _ => None) SilverFacts.unread (fun _ => None) [] [] blank) as [H _].
  apply H. intros name c [].
Defined.

End ScopeFacts.

(** ** From an accepted payload to the three conformed tables *)

Module HandoverFacts.

Import Frame Runtime Silver FrameFacts SilverFacts PipelineFacts.
Local Open Scope list_scope.

Lemma bind_ok {A B} (m : M A) (k : A -> M B) (w w1 : world) (a : A) :
  m w = (Ok a, w1) -> bind m k w = k a w1.
Proof. intros H. unfold bind. now rewrite H. Qed.

Lemma atoms_length (xs : list json) : forall col,
  atoms xs = Some col -> List.length col = List.length xs.
Proof.
  induction xs as [|x xs IH]; intros col H; cbn [atoms] in H.
  - now injection H as <-.
  - destruct x as [a|ys|kvs]; try discriminate H.
    destruct (atoms xs) as [l|]; [|discriminate H].
    injection H as <-. cbn [List.length]. now rewrite (IH l).
Qed.

Lemma as_table_lookup (kvs : list (string * json)) : forall section k v,
  as_table kvs = Ok section -> lookup k kvs = Some v ->
  exists xs col, v = JArr xs /\ atoms xs = Some col /\ In (k, col) section.
Proof.
  induction kvs as [|[k0 v0] kvs IH]; intros section k v Ht Hl; [discriminate Hl|].
  cbn [as_table] in Ht. destruct v0 as [a|xs|o]; try discriminate Ht.
  destruct (atoms xs) as [col|] eqn:Ea; [|discriminate Ht].
  destruct (as_table kvs) as [l|e] eqn:El; [|discriminate Ht].
  cbn [obind] in Ht. injection Ht as <-.
  cbn [lookup] in Hl. destruct (String.eqb_spec k k0) as [->|Hne].
  - injection Hl as <-. exists xs, col. repeat split; [exact Ea | now left].
  - destruct (IH l k v eq_refl Hl) as (ys & c & -> & Hy & Hin).
    exists ys, c. repeat split; [exact Hy | now right].
Qed.

Lemma as_record_nonempty (kvs : list (string * json)) (row : list (string * scalar)) :
  as_record kvs = Ok row -> kvs <> [] -> row <> [].
Proof.
  destruct kvs as [|[k v] kvs]; [congruence|]. intros H _.
  cbn [as_record] in H. destruct v as [a|xs|o]; try discriminate H.
  destruct (as_record kvs) as [l|e]; [|discriminate H].
  cbn [obind] in H. now injection H as <-.
Qed.

(** A section that passed the array check has a [time] array with an entry,
    so its table has a row. *)
Lemma timed_section_has_rows (h : list (string * json)) (ht : json)
      (section : list (string * list scalar)) :
  table_of (JObj h) = Ok section -> lookup "time" h = Some ht -> truthy ht = true ->
  (1 <= longest section)%nat.
Proof.
  intros Ht Hl Htr. cbn [table_of] in Ht.
  destruct (as_table_lookup h section "time" ht Ht Hl) as (xs & col & -> & Ha & Hin).
  pose proof (atoms_length xs col Ha) as Hlen.
  pose proof (longest_bound section "time" col Hin) as Hb.
  destruct xs as [|x xs]; [discriminate Htr|]. cbn [List.length] in Hlen. lia.
Qed.

Lemma with_metadata_not_nil (df : frame) (location : string) (t : Z) :
  with_metadata df location t <> [].
Proof.
  destruct (with_metadata_stamped df location t) as [(H & _) _].
  intros E. rewrite E in H. discriminate H.
Qed.

Lemma empty_with_metadata (df : frame) (location : string) (t : Z) :
  empty (with_metadata df location t) = (nrows df =? 0)%nat.
Proof.
  pose proof (with_metadata_not_nil df location t) as Hne.
  destruct (with_metadata_stamped df location t) as [_ Hn].
  destruct (with_metadata df location t) as [|p rest] eqn:E; [congruence|].
  unfold empty. now rewrite Hn.
Qed.

Lemma longest_renamed (section : list (string * list scalar)) :
  longest (renamed section) = longest section.
Proof.
  unfold longest, renamed. induction section as [|kv section IH]; [reflexivity|].
  cbn [map fold_right fst snd]. now rewrite IH.
Qed.

Definition silver_path (strftime : Z -> string) (folder location prefix : string) (t : Z)
  : string :=
  (folder ++ _sanitize_filename location ++ "_" ++ prefix ++ "_"
     ++ strftime t ++ ".parquet")%string.

(** The world after one table has been written. *)
Definition saved (path : string) (df : frame) (w : world) : world :=
  {| log := log w ++ [(INFO, ("Saved Silver file → " ++ path)%string)];
     stdout := stdout w; ticks := S (ticks w); attempts := attempts w;
     fs := write_file path (FParquet df) (fs w) |}.

Lemma ticks_warned (b : bool) (msg : string) (w : world) :
  ticks (warned b msg w) = ticks w.
Proof. now destruct b. Qed.

Lemma fs_warned (b : bool) (msg : string) (w : world) :
  fs (warned b msg w) = fs w.
Proof. now destruct b. Qed.

Section Process.

Variable wall : nat -> Z.
Variable strftime : Z -> string.
Variable parse_float : string -> option float.
Variable parse_time : Silver.time_reader.
Variable epoch_ns : float -> option Z.

Set Default Proof Using "Type".

Local Abbreviation cells := (series_cells parse_float parse_time epoch_ns).
Local Abbreviation cell := (current_cell parse_float parse_time epoch_ns).

Lemma save_unless_empty_run (df : frame) (folder pre location : string) (w : world) :
  empty df = false ->
  save_unless_empty wall strftime df folder pre location w
  = (Ok tt, saved (silver_path strftime folder location pre (wall (ticks w))) df w).
Proof. intros H. unfold save_unless_empty. rewrite H. reflexivity. Qed.

Lemma nrows_current (row : list (string * scalar)) :
  row <> [] -> nrows (map cell row) = 1%nat.
Proof.
  destruct row as [|[k v] row]; [congruence|]. intros _.
  cbn [map nrows]. unfold current_cell. cbn [fst snd].
  destruct (String.eqb k "time");
    [cbn [snd slen]; now rewrite to_time_cells_length|].
  now destruct (Silver.to_float parse_float v).
Qed.

(** A payload that ingestion accepted and whose sections are flat, with one
    column for every label, goes through conformance without an error and
    leaves three files: the current table with its single row, and the
    hourly and daily tables, each with at least one row.  The clock is read
    six times; every table carries the reading taken when it was built, and
    the file name the reading taken next. *)
Theorem accepted_payload_gives_three_tables
        (file_name : string) (top : list (string * json))
        (cur hou dai : json) (row : list (string * scalar))
        (hs ds : list (string * list scalar)) (w : world) :
  IngestFacts.accepted (JObj top) ->
  lookup "current" top = Some cur -> record_of cur = Ok row -> NoDup (map fst row) ->
  lookup "hourly" top = Some hou -> table_of hou = Ok hs -> NoDup (map fst hs) ->
  lookup "daily" top = Some dai -> table_of dai = Ok ds ->
  NoDup (map fst (renamed ds)) ->
  let location := before "_raw_" file_name in
  let t0 := ticks w in
  exists c h d w',
    process_file wall strftime parse_float parse_time epoch_ns
      file_name (FJson (JObj top)) w
    = (Ok tt, w')
    /\ fs w'
       = write_file (silver_path strftime SILVER_DAILY location "daily"
                       (wall (5 + t0))) (FParquet d)
           (write_file (silver_path strftime SILVER_HOURLY location "hourly"
                          (wall (3 + t0))) (FParquet h)
              (write_file (silver_path strftime SILVER_CURRENT location "current"
                             (wall (1 + t0))) (FParquet c) (fs w)))
    /\ ticks w' = (6 + t0)%nat
    /\ nrows c = 1%nat
    /\ nrows h = longest hs /\ (1 <= longest hs)%nat
    /\ nrows d = longest ds /\ (1 <= longest ds)%nat
    /\ stamped location (wall t0) c
    /\ stamped location (wall (2 + t0)) h
    /\ stamped location (wall (4 + t0)) d.
Proof.
  intros Hacc Hlc Hrc Hnc Hlh Hth Hnh Hld Htd Hnd location t0.
  destruct (AcceptFacts.accepted_well_formed _ Hacc)
    as (kvs & h0 & d0 & c0 & ht & dt & Heq & Hwf).
  injection Heq as <-.
  destruct Hwf as (_ & _ & _ & Lh & Lht & Tht & Ld & Ldt & Tdt & Lc & Tc).
  rewrite Hlc in Lc. injection Lc as <-.
  rewrite Hlh in Lh. injection Lh as ->.
  rewrite Hld in Ld. injection Ld as ->.
  assert (Th : truthy (JObj h0) = true) by (destruct h0; [discriminate Lht | reflexivity]).
  assert (Td : truthy (JObj d0) = true) by (destruct d0; [discriminate Ldt | reflexivity]).
  pose proof (timed_section_has_rows h0 ht hs Hth Lht Tht) as Hrh.
  pose proof (timed_section_has_rows d0 dt ds Htd Ldt Tdt) as Hrd.
  assert (Hrow : row <> []).
  { destruct cur as [a|xs|o]; try discriminate Hrc. cbn [record_of] in Hrc.
    apply (as_record_nonempty o row Hrc). destruct o; [discriminate Tc | discriminate]. }
  destruct (RaggedFacts.cells_wf parse_float parse_time epoch_ns hs) as [_ Hnh'].
  assert (Hnd' : nrows (map (cells (longest ds)) (renamed ds)) = longest ds).
  { destruct (RaggedFacts.cells_wf parse_float parse_time epoch_ns (renamed ds)) as [_ H].
    now rewrite longest_renamed in H. }
  assert (Ec : forall t, empty (with_metadata (map cell row) location t) = false).
  { intros t. rewrite empty_with_metadata, (nrows_current row Hrow). reflexivity. }
  assert (Eh : forall t, empty (with_metadata (map (cells (longest hs)) hs) location t)
                         = false).
  { intros t. rewrite empty_with_metadata, Hnh'. apply Nat.eqb_neq. lia. }
  assert (Ed : forall t,
             empty (with_metadata (map (cells (longest ds)) (renamed ds)) location t)
             = false).
  { intros t. rewrite empty_with_metadata, Hnd'. apply Nat.eqb_neq. lia. }
  do 4 eexists.
  split.
  { unfold process_file. cbv zeta.
    erewrite bind_ok by reflexivity.
    erewrite bind_ok by reflexivity.
    erewrite bind_ok
      by (apply (transform_current_run wall parse_float parse_time epoch_ns
                   top cur row); assumption).
    erewrite bind_ok by (apply save_unless_empty_run; apply Ec).
    erewrite bind_ok
      by (apply (transform_hourly_run wall parse_float parse_time epoch_ns
                   top (JObj h0) hs); assumption).
    erewrite bind_ok by (apply save_unless_empty_run; apply Eh).
    erewrite bind_ok
      by (apply (transform_daily_run wall parse_float parse_time epoch_ns
                   top (JObj d0) ds); assumption).
    apply save_unless_empty_run. apply Ed. }
  subst t0 location.
  repeat (cbn [ticks fs saved tick Nat.add]; rewrite ?ticks_warned, ?fs_warned).
  split; [reflexivity|]. split; [reflexivity|].
  split; [rewrite (proj2 (with_metadata_stamped _ _ _)); now apply nrows_current|].
  split; [rewrite (proj2 (with_metadata_stamped _ _ _)); exact Hnh'|].
  split; [exact Hrh|].
  split; [rewrite (proj2 (with_metadata_stamped _ _ _)); exact Hnd'|].
  split; [exact Hrd|].
  split; [apply with_metadata_stamped|].
  split; apply with_metadata_stamped.
Qed.

End Process.

Definition berlin_payload : list (string * json) :=
  [("latitude", JAtom (VNum 52.52)); ("longitude", JAtom (VNum 13.41));
   ("timezone", JAtom (VStr "Europe/Berlin"));
   ("current", JObj [("time", JAtom (VStr "2024-06-01T12:00"));
                     ("temperature_2m", JAtom (VNum 21.5))]);
   ("hourly", JObj [("time", JArr [JAtom (VStr "2024-06-01T00:00");
                                   JAtom (VStr "2024-06-01T01:00")]);
                    ("temperature_2m", JArr [JAtom (VNum 14.5); JAtom (VNum 14)])]);
   ("daily", JObj [("time", JArr [JAtom (VStr "2024-06-01")]);
                   ("temperature_2m_max", JArr [JAtom (VNum 24.5)])])].

Definition blank : world :=
  {| log := []; stdout := []; ticks := 0; attempts := 0; fs := [] |}.

Lemma accepted_payload_gives_three_tables_witness :
  exists c h d w',
    process_file (fun n => Z.of_nat n) (fun _ => "20240601_120000"%string)
      (fun _ => None) SilverFacts.unread (fun _ => None)
      "berlin_raw_20240601_115900.json" (FJson (JObj berlin_payload)) blank
    = (Ok tt, w')
    /\ ticks w' = 6%nat
    /\ nrows c = 1%nat /\ nrows h = 2%nat /\ nrows d = 1%nat.
Proof.
  destruct (accepted_payload_gives_three_tables
              (fun n => Z.of_nat n) (fun _ => "20240601_120000"%string)
              (fun _ => None) SilverFacts.unread (fun _ => None)
              "berlin_raw_20240601_115900.json" berlin_payload
              (JObj [("time", JAtom (VStr "2024-06-01T12:00"));
                     ("temperature_2m", JAtom (VNum 21.5))])
              (JObj [("time", JArr [JAtom (VStr "2024-06-01T00:00");
                                    JAtom (VStr "2024-06-01T01:00")]);
                     ("temperature_2m", JArr [JAtom (VNum 14.5); JAtom (VNum 14)])])
              (JObj [("time", JArr [JAtom (VStr "2024-06-01")]);
                     ("temperature_2m_max", JArr [JAtom (VNum 24.5)])])
              [("time"%string, VStr "2024-06-01T12:00");
               ("temperature_2m"%string, VNum 21.5)]
              [("time"%string, [VStr "2024-06-01T00:00"; VStr "2024-06-01T01:00"]);
               ("temperature_2m"%string, [VNum 14.5; VNum 14])]
              [("time"%string, [VStr "2024-06-01"]);
               ("temperature_2m_max"%string, [VNum 24.5])]
              blank)
    as (c & h & d & w' & Hrun & _ & Ht & Hc & Hh & _ & Hd & _).
  - repeat split; reflexivity.
  - reflexivity.
  - reflexivity.
  - repeat (constructor; [simpl; intuition discriminate|]). constructor.
  - reflexivity.
  - reflexivity.
  - repeat (constructor; [simpl; intuition discriminate|]). constructor.
  - reflexivity.
  - reflexivity.
  - repeat (constructor; [simpl; intuition discriminate|]). constructor.
  - exists c, h, d, w'. repeat split; assumption.
Defined.

End HandoverFacts.

(** ** Curation: groups, extremes and the order of writes *)

Module CurateFacts.

Import Frame Runtime Gold FrameFacts GoldFacts.
Local Open Scope list_scope.

(** *** Every keyed row lands in one group *)

Definition keyed (row : option key * metrics) : bool :=
  match fst row with Some _ => true | None => false end.

Definition group_sizes (gs : groups) : nat :=
  list_sum (map (fun g => List.length (snd g)) gs).

Lemma group_sizes_add (k : key) (r : metrics) (gs : groups) :
  group_sizes (add_to_group k r gs) = S (group_sizes gs).
Proof.
  unfold group_sizes. induction gs as [|[k' rs] gs IH]; [reflexivity|].
  cbn [add_to_group]. destruct (key_compare k k'); simpl in *.
  - rewrite length_app. simpl. lia.
  - reflexivity.
  - rewrite IH. lia.
Qed.

Lemma group_sizes_fold (rows : list (option key * metrics)) : forall gs : groups,
  group_sizes (fold_left step rows gs)
  = (group_sizes gs + List.length (filter keyed rows))%nat.
Proof.
  induction rows as [|[ok m] rows IH]; intros gs; cbn [fold_left filter].
  - cbn [List.length]. lia.
  - rewrite IH. destruct ok as [k|].
    + change (step gs (Some k, m)) with (add_to_group k m gs).
      change (keyed (Some k, m)) with true. cbn iota.
      rewrite group_sizes_add. cbn [List.length]. lia.
    + reflexivity.
Qed.

Lemma groups_le_sizes (gs : groups) :
  Forall (fun g => snd g <> []) gs -> (List.length gs <= group_sizes gs)%nat.
Proof.
  unfold group_sizes. induction 1 as [|[k rs] gs Hne _ IH]; [reflexivity|].
  simpl in *. destruct rs; [congruence|]. simpl. lia.
Qed.

Lemma map2_length_le {A B C} (f : A -> B -> C) (xs : list A) (ys : list B) :
  (List.length (map2 f xs ys) <= List.length xs)%nat.
Proof.
  revert ys. induction xs as [|x xs IH]; intros [|y ys]; cbn [map2 List.length];
    try lia. specialize (IH ys). lia.
Qed.

Section Summary.

Variable wall : nat -> Z.

Set Default Proof Using "Type".

(** The summary counts every row of the daily table that has both a time
    and a location exactly once: the sizes of the groups add up to the number
    of such rows.  So the summary has at most that many rows, none at all when
    no row has both, and never more rows than the table has times. *)
Theorem summary_counts_every_keyed_row
        (df : frame) times locations tmax tmin precip wind (w : world) :
  time_keys df = Ok times -> location_keys df = Ok locations ->
  float_col df "temp_max" = Ok tmax -> float_col df "temp_min" = Ok tmin ->
  float_col df "precip_total" = Ok precip -> float_col df "wind_speed_max" = Ok wind ->
  let rows := table_rows times locations tmax tmin precip wind in
  exists s,
    fst (build_daily_summary wall df w) = Ok s
    /\ nrows s = List.length (groupby rows)
    /\ group_sizes (groupby rows) = List.length (filter keyed rows)
    /\ (nrows s <= List.length (filter keyed rows))%nat
    /\ (List.length (filter keyed rows) <= List.length times)%nat
    /\ (Forall (fun row => fst row = None) rows -> nrows s = 0%nat).
Proof.
  intros H1 H2 H3 H4 H5 H6 rows.
  exists (summary_table (groupby rows) (wall (ticks w))).
  assert (Hsz : group_sizes (groupby rows) = List.length (filter keyed rows)).
  { unfold groupby. fold step. apply (group_sizes_fold rows []). }
  assert (Hne : Forall (fun g => snd g <> []) (groupby rows)).
  { apply Forall_forall. intros [k ms] Hin.
    destruct (groupby_spec rows) as (_ & _ & H). now apply (H k ms). }
  assert (Hn : nrows (summary_table (groupby rows) (wall (ticks w)))
               = List.length (groupby rows)).
  { cbn [summary_table nrows slen]. apply length_map. }
  assert (Hle : (List.length (groupby rows) <= List.length (filter keyed rows))%nat).
  { rewrite <- Hsz. now apply groups_le_sizes. }
  split; [now apply build_daily_summary_run|].
  split; [exact Hn|]. split; [exact Hsz|]. split; [now rewrite Hn|]. split.
  - transitivity (List.length rows); [apply filter_length_le|].
    unfold rows, table_rows.
    transitivity (List.length (map2 make_key times locations));
      apply map2_length_le.
  - intros Hnone. rewrite Hn.
    assert (E : filter keyed rows = []).
    { clear - Hnone. induction Hnone as [|[ok m] l Hx _ IH]; [reflexivity|].
      cbn [fst] in Hx. subst ok. cbn [filter keyed fst]. exact IH. }
    rewrite E in Hle. cbn [List.length] in Hle. lia.
Qed.

End Summary.

(** The maximum and the minimum that the summary reports for a group are
    readings of that group: when the column has a reading that is not null,
    both are among its non-null readings, and so not null; when it has none,
    both are null, as is the mean, while the sum is zero. *)
Theorem extremes_are_readings (xs : list float) :
  (skipna xs <> [] ->
   In (agg_max xs) (skipna xs) /\ In (agg_min xs) (skipna xs)
   /\ PrimFloat.is_nan (agg_max xs) = false
   /\ PrimFloat.is_nan (agg_min xs) = false)
  /\ (skipna xs = [] ->
      PrimFloat.is_nan (agg_max xs) = true /\ PrimFloat.is_nan (agg_min xs) = true
      /\ PrimFloat.is_nan (agg_mean xs) = true /\ agg_sum xs = 0%float).
Proof.
  split.
  - intros Hne.
    assert (Hmax : In (agg_max xs) (skipna xs)).
    { unfold agg_max. destruct (skipna xs) as [|y ys]; [congruence|].
      apply (fold_pick_In (fun a x => PrimFloat.ltb a x)). }
    assert (Hmin : In (agg_min xs) (skipna xs)).
    { unfold agg_min. destruct (skipna xs) as [|y ys]; [congruence|].
      apply (fold_pick_In (fun a x => PrimFloat.ltb x a)). }
    split; [exact Hmax|]. split; [exact Hmin|].
    unfold skipna in Hmax, Hmin. apply filter_In in Hmax, Hmin.
    destruct Hmax as [_ Hmax], Hmin as [_ Hmin].
    now apply negb_true_iff in Hmax, Hmin.
  - intros E. unfold agg_max, agg_min, agg_mean, agg_sum. rewrite E.
    repeat split.
Qed.

(** *** Nothing is written before all three tables are built *)

Definition quiet {A} (m : M A) : Prop := forall w, fs (snd (m w)) = fs w.

Lemma quiet_bind {A B} (m : M A) (k : A -> M B) :
  quiet m -> (forall a, quiet (k a)) -> quiet (bind m k).
Proof.
  intros Hm Hk w. specialize (Hm w). unfold bind.
  destruct (m w) as [[a|e] w1]; cbn [snd] in *; [|exact Hm].
  now rewrite (Hk a w1).
Qed.

Ltac quiet_steps :=
  repeat (cbv zeta;
          first [ apply quiet_bind; [intros ?; reflexivity | intros ?]
                | intros ?; reflexivity ]).

(** The store after three tables were written to it one after the other. *)
Definition three_written (before after : list (string * file)) : Prop :=
  exists p1 p2 p3 s a f,
    after = write_file p3 (FParquet f)
              (write_file p2 (FParquet a) (write_file p1 (FParquet s) before)).

Definition all_or_three {A} (m : M A) : Prop :=
  forall w, match fst (m w) with
            | Raise _ => fs (snd (m w)) = fs w
            | Ok _ => three_written (fs w) (fs (snd (m w)))
            end.

Lemma all_or_three_bind {A B} (m : M A) (k : A -> M B) :
  quiet m -> (forall a, all_or_three (k a)) -> all_or_three (bind m k).
Proof.
  intros Hm Hk w. specialize (Hm w). unfold bind.
  destruct (m w) as [[a|e] w1]; cbn [fst snd] in *; [|exact Hm].
  specialize (Hk a w1). rewrite Hm in Hk. exact Hk.
Qed.

Section Runner.

Variable wall : nat -> Z.
Variable strftime : Z -> string.

Set Default Proof Using "Type".

Lemma quiet_build_daily_summary (df : frame) : quiet (build_daily_summary wall df).
Proof. unfold build_daily_summary. quiet_steps. Qed.

Lemma quiet_build_alerts (df : frame) : quiet (build_alerts wall df).
Proof. unfold build_alerts. quiet_steps. Qed.

Lemma quiet_build_features (df : frame) : quiet (build_features wall df).
Proof. unfold build_features. quiet_steps. Qed.

(** Curation of one conformed table writes nothing until all three tables
    are built: when reading the file, taking its first location or one of
    the three builders raises, the store is as it was; otherwise exactly
    three tables have been written, summary first, then alerts, then
    features. *)
Theorem curation_writes_after_all_tables_built
        (file_name : string) (content : file) (w : world) :
  let r := process_daily_file wall strftime file_name content w in
  (forall e, fst r = Raise e -> fs (snd r) = fs w)
  /\ (forall u, fst r = Ok u -> three_written (fs w) (fs (snd r))).
Proof.
  cbv zeta.
  assert (H : all_or_three (process_daily_file wall strftime file_name content)).
  { unfold process_daily_file.
    apply all_or_three_bind; [intros ?; reflexivity | intros _].
    apply all_or_three_bind; [intros ?; reflexivity | intros df].
    apply all_or_three_bind; [intros ?; reflexivity | intros location].
    apply all_or_three_bind; [apply quiet_build_daily_summary | intros s].
    apply all_or_three_bind; [apply quiet_build_alerts | intros a].
    apply all_or_three_bind; [apply quiet_build_features | intros f].
    intros w0. cbn [fst]. unfold three_written. do 6 eexists. reflexivity. }
  specialize (H w).
  destruct (fst (process_daily_file wall strftime file_name content w)) as [u|e].
  - split; [discriminate | intros _ _; exact H].
  - split; [intros _ _; exact H | discriminate].
Qed.

End Runner.

Definition one_day : frame :=
  [("time", STime [Some 1717200000000000000%Z; None]);
   ("temp_max", SFloat [30%float; 31%float]);
   ("temp_min", SFloat [20%float; 21%float]);
   ("wind_speed_max", SFloat [10%float; 11%float]);
   ("precip_total", SFloat [0%float; 1%float]);
   ("location", SObj [VStr "berlin"; VStr "berlin"])].

Definition blank : world :=
  {| log := []; stdout := []; ticks := 0; attempts := 0; fs := [] |}.

Lemma summary_counts_every_keyed_row_witness :
  exists s,
    fst (build_daily_summary (fun _ => 0%Z) one_day blank) = Ok s
    /\ (nrows s <= 1)%nat.
Proof.
  destruct (summary_counts_every_keyed_row (fun _ => 0%Z) one_day
              [Some 1717200000000000000%Z; None]
              [Some "berlin"%string; Some "berlin"%string]
              [30%float; 31%float] [20%float; 21%float]
              [0%float; 1%float] [10%float; 11%float] blank)
    as (s & Hs & _ & _ & Hle & _); try reflexivity.
  exists s. split; [exact Hs | exact Hle].
Defined.

Lemma extremes_are_readings_witness :
  In (agg_max [nan; 3%float; 1%float]) (skipna [nan; 3%float; 1%float]).
Proof.
  destruct (extremes_are_readings [nan; 3%float; 1%float]) as [H _].
  apply H. vm_compute. discriminate.
Defined.

Lemma curation_writes_after_all_tables_built_witness :
  fs (snd (process_daily_file (fun _ => 0%Z) (fun _ => "20240601_120000"%string)
             "berlin_daily_20240601_120000.parquet" (FJson (JObj [])) blank))
  = fs blank.
Proof.
  destruct (curation_writes_after_all_tables_built
              (fun _ => 0%Z) (fun _ => "20240601_120000"%string)
              "berlin_daily_20240601_120000.parquet" (FJson (JObj [])) blank)
    as [H _].
  apply (H NotModelled). reflexivity.
Defined.

End CurateFacts.

(** ** What curation needs from the daily section *)

Module ContractFacts.

Import Frame Runtime FrameFacts SilverFacts PipelineFacts GoldFacts.
Local Open Scope list_scope.

Definition metric_labels : list string :=
  ["temp_max"; "temp_min"; "precip_total"; "wind_speed_max"]%string.

Lemma time_keys_getitem (df : frame) (ts : list (option Z)) :
  Gold.time_keys df = Ok ts -> getitem df "time" = Ok (STime ts).
Proof.
  unfold Gold.time_keys, getitem.
  destruct (select df "time") as [|[] [|]]; try discriminate.
  now intros [= ->].
Qed.

Lemma location_keys_getitem (df : frame) (ls : list (option string)) :
  Gold.location_keys df = Ok ls -> exists s, getitem df "location" = Ok s.
Proof.
  unfold Gold.location_keys, getitem.
  destruct (select df "location") as [|[] [|]]; try discriminate.
  intros _. eexists. reflexivity.
Qed.

Section Contract.

Variable wall : nat -> Z.
Variable parse_float : string -> option float.
Variable parse_time : Silver.time_reader.
Variable epoch_ns : float -> option Z.

(** The clock of the curation run. *)
Variable later : nat -> Z.

Set Default Proof Using "Type".

Local Abbreviation cells := (series_cells parse_float parse_time epoch_ns).

Definition conformed (section : list (string * list scalar)) (location : string) (t : Z)
  : frame :=
  with_metadata (map (cells (Silver.longest section)) (renamed section)) location t.

Lemma metric_read (section : list (string * list scalar)) (location : string) (t : Z)
      (c : string) :
  NoDup (map fst (renamed section)) -> In c metric_labels ->
  (In c (map fst (renamed section))
   /\ exists xs, float_col (conformed section location t) c = Ok xs)
  \/ (~ In c (map fst (renamed section))
      /\ float_col (conformed section location t) c = Raise KeyError).
Proof.
  intros Hnd Hc.
  assert (Hne : c <> "time"%string /\ c <> "location"%string
                /\ c <> "load_timestamp"%string).
  { unfold metric_labels in Hc. cbn [In] in Hc.
    destruct Hc as [<-|[<-|[<-|[<-|[]]]]]; repeat split; discriminate. }
  destruct Hne as (Ht & Hl & Hs).
  unfold conformed. rewrite float_col_with_metadata by assumption.
  set (core := map (cells (Silver.longest section)) (renamed section)).
  assert (Hcols : columns core = map fst (renamed section))
    by apply RaggedFacts.columns_cells.
  destruct (in_dec string_dec c (map fst (renamed section))) as [Hin|Hout].
  - left. split; [exact Hin|].
    apply in_map_iff in Hin. destruct Hin as [[k vs] [Hk Hin]]. cbn [fst] in Hk. subst k.
    eexists. apply float_col_In; [now rewrite Hcols|].
    unfold core. apply in_map_iff. exists (c, vs). split; [|exact Hin].
    unfold series_cells. cbn [fst snd].
    apply String.eqb_neq in Ht. rewrite Ht. reflexivity.
  - right. split; [exact Hout|].
    unfold float_col. rewrite select_absent; [reflexivity | now rewrite Hcols].
Qed.

Lemma time_read (section : list (string * list scalar)) (location : string) (t : Z) :
  NoDup (map fst (renamed section)) ->
  (exists ts, Gold.time_keys (conformed section location t) = Ok ts)
  \/ Gold.time_keys (conformed section location t) = Raise KeyError.
Proof.
  intros Hnd. unfold Gold.time_keys, conformed, with_metadata. cbv zeta.
  rewrite !select_set_col_other by discriminate.
  set (core := map (cells (Silver.longest section)) (renamed section)).
  assert (Hcols : columns core = map fst (renamed section))
    by apply RaggedFacts.columns_cells.
  destruct (in_dec string_dec "time"%string (map fst (renamed section))) as [Hin|Hout].
  - left. apply in_map_iff in Hin. destruct Hin as [[k vs] [Hk Hin]].
    cbn [fst] in Hk. subst k.
    assert (Hc : In (cells (Silver.longest section) ("time"%string, vs)) core)
      by (unfold core; apply in_map_iff; now exists ("time"%string, vs)).
    unfold series_cells in Hc. cbn [fst snd] in Hc.
    rewrite String.eqb_refl in Hc.
    rewrite (select_In core "time" _ ltac:(now rewrite Hcols) Hc). eauto.
  - right. rewrite select_absent; [reflexivity | now rewrite Hcols].
Qed.

Lemma location_read (section : list (string * list scalar)) (location : string) (t : Z) :
  NoDup (map fst (renamed section)) ->
  exists ls s, Gold.location_keys (conformed section location t) = Ok ls
               /\ getitem (conformed section location t) "location" = Ok s.
Proof.
  intros Hnd.
  destruct (conformed_daily_feeds_curation parse_float parse_time epoch_ns
              section location t Hnd) as (_ & Hl & _).
  destruct (location_keys_getitem _ _ Hl) as [s Hs].
  eexists. exists s. split; [exact Hl | exact Hs].
Qed.

(** The daily table that conformance builds from a section with distinct
    labels can be curated exactly when the section brings the four metrics
    that are renamed, and times.  With [time], [temperature_2m_max],
    [temperature_2m_min], [wind_speed_10m_max] and [precipitation_sum] in the
    section, the table is well formed and all three builders return a table.
    When one of the four labels [temp_max], [temp_min], [precip_total],
    [wind_speed_max] is missing after the renaming, the summary and the
    features builders raise [KeyError]. *)
Theorem curation_needs_the_four_metrics
        top sec section (location : string) (w w2 : world) :
  lookup "daily" top = Some sec -> truthy sec = true ->
  Silver.table_of sec = Ok section -> NoDup (map fst (renamed section)) ->
  exists df w1,
    Silver.transform_daily wall parse_float parse_time epoch_ns (JObj top) location w
    = (Ok df, w1)
    /\ wf df
    /\ ((exists ts, In ("time"%string, ts) section) ->
        (forall k, In k (map fst Silver.daily_names) -> In k (map fst section)) ->
        (exists s, fst (Gold.build_daily_summary later df w2) = Ok s)
        /\ (exists a, fst (Gold.build_alerts later df w2) = Ok a)
        /\ (exists f, fst (Gold.build_features later df w2) = Ok f
                      /\ nrows f = nrows df))
    /\ ((exists c, In c metric_labels /\ ~ In c (map fst (renamed section))) ->
        fst (Gold.build_daily_summary later df w2) = Raise KeyError
        /\ fst (Gold.build_features later df w2) = Raise KeyError).
Proof.
  intros Hl Ht Hr Hnd.
  eexists. eexists. split.
  { exact (transform_daily_run wall parse_float parse_time epoch_ns
             top sec section location w Hl Ht Hr Hnd). }
  fold (conformed section location (wall (ticks w))).
  set (df := conformed section location (wall (ticks w))).
  destruct (conformed_daily_feeds_curation parse_float parse_time epoch_ns
              section location (wall (ticks w)) Hnd) as (Hwf & Hloc & Htime & Hmet).
  fold (conformed section location (wall (ticks w))) in Hwf, Hloc, Htime, Hmet.
  fold df in Hwf, Hloc, Htime, Hmet.
  split; [exact Hwf|]. split.
  - intros [ts Hts] Hall.
    assert (Hcol : forall k k', In (k, k') Silver.daily_names ->
                                exists xs, float_col df k' = Ok xs).
    { intros k k' Hk.
      assert (Hin : In k (map fst section)).
      { apply Hall. apply in_map_iff. now exists (k, k'). }
      apply in_map_iff in Hin. destruct Hin as [[k0 vs] [Hk0 Hin]].
      cbn [fst] in Hk0. subst k0. eexists. exact (Hmet k k' vs Hk Hin). }
    destruct (Hcol "temperature_2m_max" "temp_max")%string as [tmax H1];
      [cbn; tauto|].
    destruct (Hcol "temperature_2m_min" "temp_min")%string as [tmin H2];
      [cbn; tauto|].
    destruct (Hcol "wind_speed_10m_max" "wind_speed_max")%string as [wind H3];
      [cbn; tauto|].
    destruct (Hcol "precipitation_sum" "precip_total")%string as [precip H4];
      [cbn; tauto|].
    pose proof (Htime ts Hts) as H5.
    destruct (location_keys_getitem _ _ Hloc) as [loc H6].
    split; [|split].
    + eexists. exact (build_daily_summary_run later df _ _ _ _ _ _ w2
                        H5 Hloc H1 H2 H4 H3).
    + eexists. exact (build_alerts_run later df _ _ _ _ _ w2
                        (time_keys_getitem _ _ H5) H6 H1 H3 H4).
    + eexists. split.
      * exact (build_features_run later df _ _ _ _ w2 H1 H2 H4 H3).
      * apply features_rows.
        -- exact (float_col_length df _ _ Hwf H1).
        -- exact (float_col_length df _ _ Hwf H2).
        -- exact (float_col_length df _ _ Hwf H4).
        -- exact (float_col_length df _ _ Hwf H3).
  - intros [c [Hc Hout]]. subst df.
    set (df := conformed section location (wall (ticks w))) in *.
    pose proof (time_read section location (wall (ticks w)) Hnd) as Htr.
    fold df in Htr.
    assert (Hread : forall c', In c' metric_labels ->
              (In c' (map fst (renamed section)) /\ exists xs, float_col df c' = Ok xs)
              \/ (~ In c' (map fst (renamed section))
                  /\ float_col df c' = Raise KeyError)).
    { intros c' Hc'. now apply metric_read. }
    destruct (Hread "temp_max"%string ltac:(cbn; tauto)) as [[I1 [x1 R1]]|[O1 R1]];
    destruct (Hread "temp_min"%string ltac:(cbn; tauto)) as [[I2 [x2 R2]]|[O2 R2]];
    destruct (Hread "precip_total"%string ltac:(cbn; tauto)) as [[I3 [x3 R3]]|[O3 R3]];
    destruct (Hread "wind_speed_max"%string ltac:(cbn; tauto)) as [[I4 [x4 R4]]|[O4 R4]];
    try (exfalso; unfold metric_labels in Hc; cbn [In] in Hc;
         destruct Hc as [<-|[<-|[<-|[<-|[]]]]]; contradiction);
    (split;
     [ unfold Gold.build_daily_summary, bind, lift;
       destruct Htr as [[ts ->]| ->]; [|reflexivity];
       rewrite Hloc; cbv beta iota zeta; rewrite R1; cbv beta iota zeta;
       try reflexivity; rewrite R2; cbv beta iota zeta; try reflexivity;
       rewrite R3; cbv beta iota zeta; try reflexivity; rewrite R4; reflexivity
     | unfold Gold.build_features, bind, lift;
       rewrite R1; cbv beta iota zeta; try reflexivity;
       rewrite R2; cbv beta iota zeta; try reflexivity;
       rewrite !float_col_set_other by discriminate;
       rewrite R1, R3; cbv beta iota zeta; try reflexivity;
       rewrite !float_col_set_other by discriminate;
       rewrite R2, R4; reflexivity ]).
Qed.

End Contract.

Definition daily_only : list (string * json) :=
  [("daily",
    JObj [("time", JArr [JAtom (VStr "2024-06-01")]);
          ("temperature_2m_max", JArr [JAtom (VNum 24.5)]);
          ("temperature_2m_min", JArr [JAtom (VNum 13.5)]);
          ("wind_speed_10m_max", JArr [JAtom (VNum 18)]);
          ("precipitation_sum", JArr [JAtom (VNum 0)])])].

Definition blank : world :=
  {| log := []; stdout := []; ticks := 0; attempts := 0; fs := [] |}.

Lemma curation_needs_the_four_metrics_witness :
  exists df w1,
    Silver.transform_daily (fun _ => 0%Z) (fun _ => None) SilverFacts.unread (fun _ => None)
      (JObj daily_only) "berlin" blank
    = (Ok df, w1)
    /\ exists f, fst (Gold.build_features (fun _ => 1%Z) df blank) = Ok f
                 /\ nrows f = nrows df.
Proof.
  destruct (curation_needs_the_four_metrics
              (fun _ => 0%Z) (fun _ => None) SilverFacts.unread (fun _ => None)
              (fun _ => 1%Z) daily_only
              (JObj [("time", JArr [JAtom (VStr "2024-06-01")]);
                     ("temperature_2m_max", JArr [JAtom (VNum 24.5)]);
                     ("temperature_2m_min", JArr [JAtom (VNum 13.5)]);
                     ("wind_speed_10m_max", JArr [JAtom (VNum 18)]);
                     ("precipitation_sum", JArr [JAtom (VNum 0)])])
              [("time"%string, [VStr "2024-06-01"]);
               ("temperature_2m_max"%string, [VNum 24.5]);
               ("temperature_2m_min"%string, [VNum 13.5]);
               ("wind_speed_10m_max"%string, [VNum 18]);
               ("precipitation_sum"%string, [VNum 0])]
              "berlin" blank blank)
    as (df & w1 & Hrun & _ & Hpos & _).
  - reflexivity.
  - reflexivity.
  - reflexivity.
  - repeat (constructor; [simpl; intuition discriminate|]). constructor.
  - destruct Hpos as (_ & _ & Hf).
    + eexists. left. reflexivity.
    + intros k [<-|[<-|[<-|[<-|[]]]]]; simpl; tauto.
    + exists df, w1. split; [exact Hrun | exact Hf].
Defined.

End ContractFacts.

(** ** Curation of one conformed table, step by step *)

Module CurationRunFacts.

Import Frame Runtime Gold FrameFacts GoldFacts.
Local Open Scope list_scope.

(** The computation reads the clock once when it returns, and not at all when
    it raises; it does nothing else to the world. *)
Definition reads_once {A} (m : M A) : Prop :=
  forall w, snd (m w) = match fst (m w) with
                        | Ok _ => SilverFacts.tick w
                        | Raise _ => w
                        end.

Lemma reads_once_lift_bind {A B} (o : outcome A) (k : A -> M B) :
  (forall a, reads_once (k a)) -> reads_once (bind (lift o) k).
Proof.
  intros Hk w. unfold bind, lift. destruct o as [a|e]; [apply Hk | reflexivity].
Qed.

Lemma reads_once_now_ret {A} (wall : nat -> Z) (f : Z -> A) :
  reads_once (bind (now wall) (fun t => ret (f t))).
Proof. intros w. reflexivity. Qed.

Lemma reads_once_run {A} (m : M A) (w : world) (a : A) :
  reads_once m -> fst (m w) = Ok a -> m w = (Ok a, SilverFacts.tick w).
Proof.
  intros Hm Hf. specialize (Hm w). rewrite Hf in Hm.
  destruct (m w) as [o w1]. cbn [fst snd] in *. now subst.
Qed.

Ltac reads_once_steps :=
  repeat (cbv zeta; apply reads_once_lift_bind; intros ?);
  cbv zeta; apply reads_once_now_ret.

(** The world after one curated table has been written. *)
Definition saved (path : string) (df : frame) (w : world) : world :=
  {| log := log w ++ [(INFO, ("Saved Gold file → " ++ path)%string)];
     stdout := stdout w; ticks := S (ticks w); attempts := attempts w;
     fs := write_file path (FParquet df) (fs w) |}.

Definition gold_path (strftime : Z -> string) (folder location prefix : string) (t : Z)
  : string :=
  (folder ++ location ++ "_" ++ prefix ++ "_" ++ strftime t ++ ".parquet")%string.

Section Run.

Variable wall : nat -> Z.
Variable strftime : Z -> string.

Set Default Proof Using "Type".

Lemma reads_once_build_daily_summary (df : frame) :
  reads_once (build_daily_summary wall df).
Proof. unfold build_daily_summary. reads_once_steps. Qed.

Lemma reads_once_build_alerts (df : frame) : reads_once (build_alerts wall df).
Proof. unfold build_alerts. reads_once_steps. Qed.

Lemma reads_once_build_features (df : frame) : reads_once (build_features wall df).
Proof. unfold build_features. reads_once_steps. Qed.

Lemma save_gold_run (df : frame) (folder pre location : string) (w : world) :
  save_gold wall strftime df folder pre location w
  = (Ok tt, saved (gold_path strftime folder location pre (wall (ticks w))) df w).
Proof. reflexivity. Qed.

(** On a conformed daily table that has the columns read, with a first
    location that can stand in a file name, curation of the file returns
    normally after six readings of the clock: the first three stamp the
    summary, the alerts and the features, in this order, and the last three
    name their files, which are written in the same order under the three
    curated folders, each name starting with the first location of the
    table. *)
Theorem curation_of_a_conformed_table
        (file_name : string) (df : frame) (location : string)
        times locations (places : series) tmax tmin precip wind (w : world) :
  first_location df = Ok location -> no_slash location = true ->
  time_keys df = Ok times -> location_keys df = Ok locations ->
  getitem df "location" = Ok places ->
  float_col df "temp_max" = Ok tmax -> float_col df "temp_min" = Ok tmin ->
  float_col df "precip_total" = Ok precip -> float_col df "wind_speed_max" = Ok wind ->
  let t0 := ticks w in
  let summary :=
    summary_table (groupby (table_rows times locations tmax tmin precip wind))
      (wall t0) in
  let alerts := alerts_table (STime times) places tmax wind precip (wall (1 + t0)) in
  let features := features_table df tmax tmin precip wind (wall (2 + t0)) in
  exists w',
    process_daily_file wall strftime file_name (FParquet df) w = (Ok tt, w')
    /\ fs w'
       = write_file (gold_path strftime GOLD_FEATURES location "features"
                       (wall (5 + t0))) (FParquet features)
           (write_file (gold_path strftime GOLD_ALERTS location "alerts"
                          (wall (4 + t0))) (FParquet alerts)
              (write_file (gold_path strftime GOLD_DAILY location "daily_summary"
                             (wall (3 + t0))) (FParquet summary) (fs w)))
    /\ ticks w' = (6 + t0)%nat
    /\ List.length (log w') = (4 + List.length (log w))%nat.
Proof.
  intros Hloc _ Ht Hl Hp H1 H2 H3 H4 t0 summary alerts features.
  pose proof (ContractFacts.time_keys_getitem df times Ht) as Hg.
  eexists. split.
  { unfold process_daily_file.
    erewrite HandoverFacts.bind_ok by reflexivity.
    erewrite HandoverFacts.bind_ok by reflexivity.
    erewrite HandoverFacts.bind_ok by (unfold lift; rewrite Hloc; reflexivity).
    erewrite HandoverFacts.bind_ok
      by (apply reads_once_run;
          [apply reads_once_build_daily_summary
          | apply (build_daily_summary_run wall df times locations tmax tmin precip wind);
            assumption]).
    erewrite HandoverFacts.bind_ok
      by (apply reads_once_run;
          [apply reads_once_build_alerts
          | apply (build_alerts_run wall df (STime times) places tmax wind precip);
            assumption]).
    erewrite HandoverFacts.bind_ok
      by (apply reads_once_run;
          [apply reads_once_build_features
          | apply (build_features_run wall df tmax tmin precip wind); assumption]).
    erewrite HandoverFacts.bind_ok by apply save_gold_run.
    erewrite HandoverFacts.bind_ok by apply save_gold_run.
    apply save_gold_run. }
  split; [reflexivity|]. split; [reflexivity|].
  cbn [log saved SilverFacts.tick]. rewrite !length_app. cbn [List.length]. lia.
Qed.

End Run.

Lemma curation_of_a_conformed_table_witness :
  exists w',
    process_daily_file (fun n => Z.of_nat n) (fun _ => "20240601_120000"%string)
      "berlin_daily_20240601_115900.parquet" (FParquet CurateFacts.one_day)
      CurateFacts.blank
    = (Ok tt, w')
    /\ ticks w' = 6%nat.
Proof.
  destruct (curation_of_a_conformed_table
              (fun n => Z.of_nat n) (fun _ => "20240601_120000"%string)
              "berlin_daily_20240601_115900.parquet" CurateFacts.one_day "berlin"
              [Some 1717200000000000000%Z; None]
              [Some "berlin"%string; Some "berlin"%string]
              (SObj [VStr "berlin"; VStr "berlin"])
              [30%float; 31%float] [20%float; 21%float]
              [0%float; 1%float] [10%float; 11%float] CurateFacts.blank)
    as (w' & Hrun & _ & Hticks & _); try reflexivity.
  exists w'. split; [exact Hrun | exact Hticks].
Defined.

End CurationRunFacts.

(** ** A conformance run that fails half way *)

Module PartialFacts.

Import Frame Runtime Silver FrameFacts SilverFacts PipelineFacts HandoverFacts.
Local Open Scope list_scope.

Lemma bind_raise {A B} (m : M A) (k : A -> M B) (w : world) (e : exn) :
  fst (m w) = Raise e -> bind m k w = (Raise e, snd (m w)).
Proof. intros H. unfold bind. destruct (m w) as [[a|e'] w1]; cbn in *; congruence. Qed.

Ltac quiet_branches :=
  repeat match goal with
         | |- CurateFacts.quiet (bind _ _) => apply CurateFacts.quiet_bind; [|intros ?]
         | |- CurateFacts.quiet (if ?b then _ else _) => destruct b
         | |- CurateFacts.quiet _ => intros ?; reflexivity
         end.

Section Partial.

Variable wall : nat -> Z.
Variable strftime : Z -> string.
Variable parse_float : string -> option float.
Variable parse_time : Silver.time_reader.
Variable epoch_ns : float -> option Z.

Set Default Proof Using "Type".

Local Abbreviation cells := (series_cells parse_float parse_time epoch_ns).
Local Abbreviation cell := (current_cell parse_float parse_time epoch_ns).

Lemma transform_daily_stores_nothing (data : json) (location : string) :
  CurateFacts.quiet
    (transform_daily wall parse_float parse_time epoch_ns data location).
Proof. unfold transform_daily. quiet_branches. Qed.

(** Conformance of one raw file persists each table as soon as it is built.
    When the current and the hourly section are well shaped and the daily
    section has, after the renaming, one label on two columns, the run
    raises [TypeError] in the daily transform, and by then the current and
    the hourly table are in the store; no other path has changed, so the
    daily folder has no table of this run. *)
Theorem failed_conformance_leaves_earlier_tables
        (file_name : string) (top : list (string * json))
        (cur hou dai : json) (row : list (string * scalar))
        (hs ds : list (string * list scalar)) (w : world) :
  lookup "current" top = Some cur -> truthy cur = true ->
  record_of cur = Ok row -> NoDup (map fst row) ->
  lookup "hourly" top = Some hou -> truthy hou = true ->
  table_of hou = Ok hs -> NoDup (map fst hs) -> (1 <= longest hs)%nat ->
  lookup "daily" top = Some dai -> truthy dai = true ->
  table_of dai = Ok ds -> NoDup (map fst ds) -> ~ NoDup (map fst (renamed ds)) ->
  let location := before "_raw_" file_name in
  let t0 := ticks w in
  let c := with_metadata (map cell row) location (wall t0) in
  let h := with_metadata (map (cells (longest hs)) hs) location (wall (2 + t0)) in
  let p1 := silver_path strftime SILVER_CURRENT location "current" (wall (1 + t0)) in
  let p2 := silver_path strftime SILVER_HOURLY location "hourly" (wall (3 + t0)) in
  exists w',
    process_file wall strftime parse_float parse_time epoch_ns
      file_name (FJson (JObj top)) w
    = (Raise TypeError, w')
    /\ lookup p1 (fs w') = Some (FParquet c)
    /\ lookup p2 (fs w') = Some (FParquet h)
    /\ (forall p, p <> p1 -> p <> p2 -> lookup p (fs w') = lookup p (fs w)).
Proof.
  intros Hlc Tc Hrc Hnc Hlh Th Hth Hnh Hrh Hld Td Htd Hnd Hdup location t0 c h p1 p2.
  assert (Hrow : row <> []).
  { destruct cur as [a|xs|o]; try discriminate Hrc. cbn [record_of] in Hrc.
    apply (as_record_nonempty o row Hrc). destruct o; [discriminate Tc | discriminate]. }
  destruct (RaggedFacts.cells_wf parse_float parse_time epoch_ns hs) as [_ Hnh'].
  assert (Ec : forall t, empty (with_metadata (map cell row) location t) = false).
  { intros t. rewrite empty_with_metadata.
    rewrite (nrows_current parse_float parse_time epoch_ns row Hrow). reflexivity. }
  assert (Eh : forall t, empty (with_metadata (map (cells (longest hs)) hs) location t)
                         = false).
  { intros t. rewrite empty_with_metadata, Hnh'. apply Nat.eqb_neq. lia. }
  assert (Hp : p1 <> p2).
  { unfold p1, p2, silver_path, SILVER_CURRENT, SILVER_HOURLY.
    cbn [String.append]. discriminate. }
  eexists. split.
  { unfold process_file. cbv zeta.
    erewrite bind_ok by reflexivity.
    erewrite bind_ok by reflexivity.
    erewrite bind_ok
      by (apply (transform_current_run wall parse_float parse_time epoch_ns
                   top cur row); assumption).
    erewrite bind_ok by (apply save_unless_empty_run; apply Ec).
    erewrite bind_ok
      by (apply (transform_hourly_run wall parse_float parse_time epoch_ns
                   top hou hs); assumption).
    erewrite bind_ok by (apply save_unless_empty_run; apply Eh).
    apply bind_raise.
    apply (transform_daily_collision wall parse_float parse_time epoch_ns
             top dai ds); assumption. }
  subst p1 p2 c h t0 location.
  repeat (cbn [ticks fs saved tick Nat.add];
          rewrite ?transform_daily_stores_nothing, ?ticks_warned, ?fs_warned).
  cbn [Nat.add] in Hp.
  split; [|split].
  - rewrite AcceptFacts.write_file_other by exact Hp.
    apply IngestFacts.write_file_lookup.
  - apply IngestFacts.write_file_lookup.
  - intros p H1 H2. now rewrite !AcceptFacts.write_file_other.
Qed.

End Partial.

Definition clashing : list (string * json) :=
  [("current", JObj [("temperature_2m", JAtom (VNum 21.5))]);
   ("hourly", JObj [("time", JArr [JAtom (VStr "2024-06-01T00:00")]);
                    ("temperature_2m", JArr [JAtom (VNum 14.5)])]);
   ("daily", JObj [("time", JArr [JAtom (VStr "2024-06-01")]);
                   ("temperature_2m_max", JArr [JAtom (VNum 30.5)]);
                   ("temp_max", JArr [JAtom (VNum 31)])])].

Lemma failed_conformance_leaves_earlier_tables_witness :
  exists w',
    process_file (fun n => Z.of_nat n) (fun _ => "20240601_120000"%string)
      (fun _ => None) SilverFacts.unread (fun _ => None)
      "berlin_raw_20240601_115900.json" (FJson (JObj clashing)) HandoverFacts.blank
    = (Raise TypeError, w')
    /\ List.length (fs w') = 2%nat.
Proof.
  destruct (failed_conformance_leaves_earlier_tables
              (fun n => Z.of_nat n) (fun _ => "20240601_120000"%string)
              (fun _ => None) SilverFacts.unread (fun _ => None)
              "berlin_raw_20240601_115900.json" clashing
              (JObj [("temperature_2m", JAtom (VNum 21.5))])
              (JObj [("time", JArr [JAtom (VStr "2024-06-01T00:00")]);
                     ("temperature_2m", JArr [JAtom (VNum 14.5)])])
              (JObj [("time", JArr [JAtom (VStr "2024-06-01")]);
                     ("temperature_2m_max", JArr [JAtom (VNum 30.5)]);
                     ("temp_max", JArr [JAtom (VNum 31)])])
              [("temperature_2m"%string, VNum 21.5)]
              [("time"%string, [VStr "2024-06-01T00:00"]);
               ("temperature_2m"%string, [VNum 14.5])]
              [("time"%string, [VStr "2024-06-01"]);
               ("temperature_2m_max"%string, [VNum 30.5]);
               ("temp_max"%string, [VNum 31])]
              HandoverFacts.blank)
    as (w' & Hrun & _).
  - reflexivity.
  - reflexivity.
  - reflexivity.
  - repeat (constructor; [simpl; intuition discriminate|]). constructor.
  - reflexivity.
  - reflexivity.
  - reflexivity.
  - repeat (constructor; [simpl; intuition discriminate|]). constructor.
  - simpl. lia.
  - reflexivity.
  - reflexivity.
  - reflexivity.
  - repeat (constructor; [simpl; intuition discriminate|]). constructor.
  - simpl. intros H. inversion H as [|? ? _ H']; subst.
    inversion H' as [|? ? Hn _]; subst. apply Hn. simpl. tauto.
  - exists w'. split; [exact Hrun|].
    assert (E : snd (process_file (fun n => Z.of_nat n) (fun _ => "20240601_120000"%string)
                       (fun _ => None) SilverFacts.unread (fun _ => None)
                       "berlin_raw_20240601_115900.json" (FJson (JObj clashing))
                       HandoverFacts.blank) = w') by now rewrite Hrun.
    rewrite <- E. reflexivity.
Defined.

End PartialFacts.

(** ** The three sections, one by one *)

Module SectionFacts.

Import Frame Runtime Silver FrameFacts SilverFacts PipelineFacts HandoverFacts.
Local Open Scope list_scope.

Section Sections.

Variable wall : nat -> Z.
Variable strftime : Z -> string.
Variable parse_float : string -> option float.
Variable parse_time : Silver.time_reader.
Variable epoch_ns : float -> option Z.

Set Default Proof Using "Type".

Local Abbreviation cells := (series_cells parse_float parse_time epoch_ns).
Local Abbreviation cell := (current_cell parse_float parse_time epoch_ns).
Local Abbreviation transform_current :=
  (Silver.transform_current wall parse_float parse_time epoch_ns).
Local Abbreviation transform_hourly :=
  (Silver.transform_hourly wall parse_float parse_time epoch_ns).
Local Abbreviation transform_daily :=
  (Silver.transform_daily wall parse_float parse_time epoch_ns).
Local Abbreviation meets_contract := (SilverFacts.meets_contract wall).

Lemma columns_current (row : list (string * scalar)) :
  columns (map cell row) = map fst row.
Proof.
  unfold columns. rewrite map_map. apply map_ext. intros [k v].
  unfold current_cell. cbn [fst snd].
  destruct (String.eqb k "time"); [reflexivity|].
  now destruct (Silver.to_float parse_float v).
Qed.

Lemma record_has_key (sec : json) (row : list (string * scalar)) :
  truthy sec = true -> record_of sec = Ok row -> row <> [].
Proof.
  intros Ht Hr. destruct sec as [a|xs|o]; try discriminate Hr. cbn [record_of] in Hr.
  apply (as_record_nonempty o row Hr). destruct o; [discriminate Ht | discriminate].
Qed.

Lemma nrows_cells (section : list (string * list scalar)) :
  nrows (map (cells (longest section)) section) = longest section.
Proof. exact (proj2 (RaggedFacts.cells_wf parse_float parse_time epoch_ns section)). Qed.

Lemma nrows_renamed_cells (section : list (string * list scalar)) :
  nrows (map (cells (longest section)) (renamed section)) = longest section.
Proof.
  pose proof (nrows_cells (renamed section)) as H.
  now rewrite longest_renamed in H.
Qed.

(** The table of a converted frame with the two metadata columns: stamped,
    with the rows of the frame, and with the two labels behind those of the
    frame when the frame has neither. *)
Lemma with_metadata_table (df0 : frame) (location : string) (t : Z) :
  stamped location t (with_metadata df0 location t)
  /\ nrows (with_metadata df0 location t) = nrows df0
  /\ empty (with_metadata df0 location t) = (nrows df0 =? 0)%nat
  /\ (~ In "location" (columns df0) -> ~ In "load_timestamp" (columns df0) ->
      columns (with_metadata df0 location t)
      = columns df0 ++ ["location"; "load_timestamp"]).
Proof.
  destruct (with_metadata_stamped df0 location t) as [Hs Hn].
  split; [exact Hs|]. split; [exact Hn|].
  split; [apply empty_with_metadata | apply columns_with_metadata_fresh].
Qed.

(** A raw file whose hourly section is missing or empty, and whose current
    and daily sections are well shaped and hold data, leaves a current and a
    daily file and nothing else. *)
Lemma process_file_without_hourly_run
      (file_name : string) (top : list (string * json)) (cur dai : json)
      (row : list (string * scalar)) (ds : list (string * list scalar)) (w : world) :
  lookup "current" top = Some cur -> truthy cur = true ->
  record_of cur = Ok row -> NoDup (map fst row) ->
  no_section (JObj top) "hourly" ->
  lookup "daily" top = Some dai -> truthy dai = true ->
  table_of dai = Ok ds -> NoDup (map fst (renamed ds)) -> (1 <= longest ds)%nat ->
  let location := before "_raw_" file_name in
  let c := with_metadata (map cell row) location (wall (ticks w)) in
  let d := with_metadata (map (cells (longest ds)) (renamed ds)) location
             (wall (2 + ticks w)) in
  exists w',
    process_file wall strftime parse_float parse_time epoch_ns
      file_name (FJson (JObj top)) w
    = (Ok tt, w')
    /\ fs w'
       = write_file (silver_path strftime SILVER_DAILY location "daily"
                       (wall (3 + ticks w))) (FParquet d)
           (write_file (silver_path strftime SILVER_CURRENT location "current"
                          (wall (1 + ticks w))) (FParquet c) (fs w))
    /\ ticks w' = (4 + ticks w)%nat
    /\ empty c = false /\ empty d = false.
Proof.
  intros Hlc Tc Hrc Hnc Hh Hld Td Htd Hnd Hrd location c d.
  pose proof (record_has_key cur row Tc Hrc) as Hrow.
  assert (Ec : forall t, empty (with_metadata (map cell row) location t) = false).
  { intros t. rewrite empty_with_metadata.
    rewrite (nrows_current parse_float parse_time epoch_ns row Hrow). reflexivity. }
  assert (Ed : forall t,
             empty (with_metadata (map (cells (longest ds)) (renamed ds)) location t)
             = false).
  { intros t. rewrite empty_with_metadata, nrows_renamed_cells. apply Nat.eqb_neq. lia. }
  eexists. split.
  { unfold process_file. cbv zeta.
    erewrite bind_ok by reflexivity.
    erewrite bind_ok by reflexivity.
    erewrite bind_ok
      by (apply (transform_current_run wall parse_float parse_time epoch_ns
                   top cur row); assumption).
    erewrite bind_ok by (apply save_unless_empty_run; apply Ec).
    erewrite bind_ok
      by (apply (proj1 (proj2 (transform_without_section wall parse_float parse_time
                                 epoch_ns (JObj top) (before "_raw_" file_name) _)));
          exact Hh).
    erewrite bind_ok by reflexivity.
    erewrite bind_ok
      by (apply (transform_daily_run wall parse_float parse_time epoch_ns
                   top dai ds); assumption).
    apply save_unless_empty_run. apply Ed. }
  subst c d location.
  repeat (cbn [ticks fs saved tick Nat.add]; rewrite ?ticks_warned, ?fs_warned).
  split; [reflexivity|]. split; [reflexivity|].
  split; [apply Ec | apply Ed].
Qed.

(** C8: each of the three transforms, on a section of its payload that is
    present, not empty and well shaped, returns the converted frame of that
    section with a [location] column that holds the location in every row
    and a [load_timestamp] column that holds, in every row, the reading of
    the clock that this transform took, after which the clock has moved on;
    the two come last when the section has no key of that name.  The
    current table has one row, the hourly and the daily table as many as
    their longest array.  Whatever the payload, a table that a transform
    returns for a section that is not empty carries the two columns.  A
    section that is missing or empty makes its transform return the empty
    table without reading the clock.  Each of the three reads its own
    section only, so that what it returns does not depend on the other
    sections.  The writer persists nothing for an empty table, and one file
    for any other.  So a raw file whose hourly section is empty, and whose
    current and daily sections hold data, gives an empty hourly table, a
    current and a daily table that are not empty, and files for these two
    only. *)
Theorem conformance_metadata_and_empty_sections
        (top : list (string * json)) (location : string) (w : world) :
  (forall sec row,
     lookup "current" top = Some sec -> truthy sec = true ->
     record_of sec = Ok row -> NoDup (map fst row) ->
     let df := with_metadata (map cell row) location (wall (ticks w)) in
     transform_current (JObj top) location w = (Ok df, tick w)
     /\ stamped location (wall (ticks w)) df
     /\ nrows df = 1%nat /\ empty df = false
     /\ (~ In "location" (map fst row) -> ~ In "load_timestamp" (map fst row) ->
         columns df = map fst row ++ ["location"; "load_timestamp"]))
  /\ (forall sec section,
        lookup "hourly" top = Some sec -> truthy sec = true ->
        table_of sec = Ok section -> NoDup (map fst section) ->
        let df := with_metadata (map (cells (longest section)) section) location
                    (wall (ticks w)) in
        transform_hourly (JObj top) location w
        = (Ok df, tick (warned (_validate_list_lengths section)
                               ("Hourly list lengths mismatch for " ++ location)%string
                               w))
        /\ stamped location (wall (ticks w)) df
        /\ nrows df = longest section
        /\ empty df = (longest section =? 0)%nat
        /\ (~ In "location" (map fst section) ->
            ~ In "load_timestamp" (map fst section) ->
            columns df = map fst section ++ ["location"; "load_timestamp"]))
  /\ (forall sec section,
        lookup "daily" top = Some sec -> truthy sec = true ->
        table_of sec = Ok section -> NoDup (map fst (renamed section)) ->
        let df := with_metadata (map (cells (longest section)) (renamed section))
                    location (wall (ticks w)) in
        transform_daily (JObj top) location w
        = (Ok df, tick (warned (_validate_list_lengths section)
                               ("Daily list lengths mismatch for " ++ location)%string
                               w))
        /\ stamped location (wall (ticks w)) df
        /\ nrows df = longest section
        /\ empty df = (longest section =? 0)%nat
        /\ (~ In "location" (map fst (renamed section)) ->
            ~ In "load_timestamp" (map fst (renamed section)) ->
            columns df = map fst (renamed section) ++ ["location"; "load_timestamp"]))
  /\ (meets_contract "current" (JObj top) location w
        (transform_current (JObj top) location w)
      /\ meets_contract "hourly" (JObj top) location w
           (transform_hourly (JObj top) location w)
      /\ meets_contract "daily" (JObj top) location w
           (transform_daily (JObj top) location w))
  /\ ((no_section (JObj top) "current" ->
       transform_current (JObj top) location w = (Ok [], w))
      /\ (no_section (JObj top) "hourly" ->
          transform_hourly (JObj top) location w = (Ok [], w))
      /\ (no_section (JObj top) "daily" ->
          transform_daily (JObj top) location w = (Ok [], w)))
  /\ (forall top',
        (lookup "current" top = lookup "current" top' ->
         transform_current (JObj top) location w
         = transform_current (JObj top') location w)
        /\ (lookup "hourly" top = lookup "hourly" top' ->
            transform_hourly (JObj top) location w
            = transform_hourly (JObj top') location w)
        /\ (lookup "daily" top = lookup "daily" top' ->
            transform_daily (JObj top) location w
            = transform_daily (JObj top') location w))
  /\ (empty [] = true
      /\ (forall df folder prefix w0,
            empty df = true ->
            save_unless_empty wall strftime df folder prefix location w0 = (Ok tt, w0))
      /\ (forall df folder prefix w0,
            empty df = false ->
            save_unless_empty wall strftime df folder prefix location w0
            = (Ok tt, saved (silver_path strftime folder location prefix
                               (wall (ticks w0))) df w0)))
  /\ (forall file_name cur dai row ds,
        lookup "current" top = Some cur -> truthy cur = true ->
        record_of cur = Ok row -> NoDup (map fst row) ->
        no_section (JObj top) "hourly" ->
        lookup "daily" top = Some dai -> truthy dai = true ->
        table_of dai = Ok ds -> NoDup (map fst (renamed ds)) ->
        (1 <= longest ds)%nat ->
        let name := before "_raw_" file_name in
        let c := with_metadata (map cell row) name (wall (ticks w)) in
        let d := with_metadata (map (cells (longest ds)) (renamed ds)) name
                   (wall (2 + ticks w)) in
        exists w',
          process_file wall strftime parse_float parse_time epoch_ns
            file_name (FJson (JObj top)) w
          = (Ok tt, w')
          /\ fs w'
             = write_file (silver_path strftime SILVER_DAILY name "daily"
                             (wall (3 + ticks w))) (FParquet d)
                 (write_file (silver_path strftime SILVER_CURRENT name "current"
                                (wall (1 + ticks w))) (FParquet c) (fs w))
          /\ ticks w' = (4 + ticks w)%nat
          /\ empty c = false /\ empty d = false).
Proof.
  split.
  { intros sec row Hl Ht Hr Hnd df.
    destruct (with_metadata_table (map cell row) location (wall (ticks w)))
      as (Hs & Hn & He & Hc).
    fold df in Hs, Hn, He, Hc.
    pose proof (nrows_current parse_float parse_time epoch_ns row
                  (record_has_key sec row Ht Hr)) as H1.
    split; [now apply (transform_current_run wall parse_float parse_time epoch_ns
                         top sec row)|].
    split; [exact Hs|]. split; [now rewrite Hn|].
    split; [now rewrite He, H1|].
    rewrite columns_current in Hc. exact Hc. }
  split.
  { intros sec section Hl Ht Hr Hnd df.
    destruct (with_metadata_table (map (cells (longest section)) section) location
                (wall (ticks w))) as (Hs & Hn & He & Hc).
    fold df in Hs, Hn, He, Hc.
    rewrite nrows_cells in Hn, He.
    split; [now apply (transform_hourly_run wall parse_float parse_time epoch_ns
                         top sec section)|].
    split; [exact Hs|]. split; [exact Hn|]. split; [exact He|].
    rewrite RaggedFacts.columns_cells in Hc. exact Hc. }
  split.
  { intros sec section Hl Ht Hr Hnd df.
    destruct (with_metadata_table (map (cells (longest section)) (renamed section))
                location (wall (ticks w))) as (Hs & Hn & He & Hc).
    fold df in Hs, Hn, He, Hc.
    rewrite nrows_renamed_cells in Hn, He.
    split; [now apply (transform_daily_run wall parse_float parse_time epoch_ns
                         top sec section)|].
    split; [exact Hs|]. split; [exact Hn|]. split; [exact He|].
    rewrite RaggedFacts.columns_cells in Hc. exact Hc. }
  split.
  { split; [apply transform_current_contract|].
    split; [apply transform_hourly_contract | apply transform_daily_contract]. }
  split; [apply transform_without_section|].
  split; [intros top'; apply transform_own_section|].
  split.
  { split; [reflexivity|]. split.
    - intros df folder prefix w0 He. unfold save_unless_empty. now rewrite He.
    - intros df folder prefix w0 He. now apply save_unless_empty_run. }
  intros file_name cur dai row ds. apply process_file_without_hourly_run.
Qed.

End Sections.

Lemma conformance_metadata_and_empty_sections_witness :
  exists c d w',
    process_file noon stamp no_number june_first no_epoch
      "berlin_raw_20240601_115900.json" (FJson (JObj sample_without_hourly)) start
    = (Ok tt, w')
    /\ map fst (fs w')
       = ["data_lake/silver/current/berlin_current_20240601_120000.parquet"%string;
          "data_lake/silver/daily/berlin_daily_20240601_120000.parquet"%string]
    /\ transform_hourly noon no_number june_first no_epoch
         (JObj sample_without_hourly) "berlin" start = (Ok [], start)
    /\ fst (transform_current noon no_number june_first no_epoch
              (JObj sample_without_hourly) "berlin" start) = Ok c
    /\ empty c = false
    /\ fst (transform_daily noon no_number june_first no_epoch
              (JObj sample_without_hourly) "berlin" start) = Ok d
    /\ empty d = false
    /\ float_col d "temp_max" = Ok [30%float].
Proof.
  destruct (conformance_metadata_and_empty_sections noon stamp no_number june_first
              no_epoch sample_without_hourly "berlin" start)
    as (Hc & _ & Hd & _ & (_ & Hh & _) & _ & _ & Hrun).
  destruct (Hrun "berlin_raw_20240601_115900.json"%string
              (JObj [("time"%string, JAtom (VStr "2024-06-01"));
                     ("temperature_2m"%string, JAtom (VNum 21.5));
                     ("sky"%string, JAtom (VStr "clear"))])
              (arrays daily_sample)
              [("time"%string, VStr "2024-06-01");
               ("temperature_2m"%string, VNum 21.5);
               ("sky"%string, VStr "clear")]
              daily_sample)
    as (w' & Hw & Hfs & _ & _ & _);
    [reflexivity | reflexivity | reflexivity | distinct_labels
    | exists (JObj []); split; reflexivity
    | reflexivity | reflexivity | reflexivity | distinct_labels | simpl; lia |].
  destruct (Hc (JObj [("time"%string, JAtom (VStr "2024-06-01"));
                      ("temperature_2m"%string, JAtom (VNum 21.5));
                      ("sky"%string, JAtom (VStr "clear"))])
              [("time"%string, VStr "2024-06-01");
               ("temperature_2m"%string, VNum 21.5);
               ("sky"%string, VStr "clear")])
    as (Hcr & _ & _ & Hce & _);
    [reflexivity | reflexivity | reflexivity | distinct_labels |].
  destruct (Hd (arrays daily_sample) daily_sample)
    as (Hdr & _ & _ & Hde & _);
    [reflexivity | reflexivity | reflexivity | distinct_labels |].
  do 3 eexists.
  split; [exact Hw|].
  split; [rewrite Hfs; reflexivity|].
  split; [apply Hh; exists (JObj []); split; reflexivity|].
  split; [rewrite Hcr; reflexivity|].
  split; [exact Hce|].
  split; [rewrite Hdr; reflexivity|].
  split; [rewrite Hde; reflexivity | reflexivity].
Defined.

End SectionFacts.
